(** * coc-java: JDK requirement resolution and Lombok agent set-up

    A shallow embedding of [requirements.ts] (the JDK resolver) and
    [lombokSupport.ts] (the Lombok [-javaagent] resolver), followed by the
    properties established about them. *)

From Stdlib Require Import ZArith String Ascii List Bool Lia Permutation Sorted.
From stdpp Require Import base option list strings pretty gmap.

Local Open Scope string_scope.
Local Open Scope Z_scope.
Local Open Scope list_scope.

(** ** JavaScript values and library functions used by the sources *)

Module Js.

(** [!!v] for a value of TypeScript type [string] that may be [undefined]:
    [undefined] and the empty string are falsy. *)
Definition truthy (v : option string) : bool :=
  match v with
  | Some s => negb (String.eqb s "")
  | None => false
  end.

(** [s.startsWith(p)] *)
Definition startsWith (p s : string) : bool := String.prefix p s.

(** [s.substring(n)]: the string without its first [n] characters. *)
Fixpoint substring_from (n : nat) (s : string) : string :=
  match n, s with
  | O, _ => s
  | S n', String _ s' => substring_from n' s'
  | S _, EmptyString => EmptyString
  end.

(** [s.indexOf(p) > -1] *)
Fixpoint includes (p s : string) : bool :=
  String.prefix p s ||
  match s with
  | String _ s' => includes p s'
  | EmptyString => false
  end.

(** [s.replace(p, r)] for a string pattern [p]: only the first occurrence is
    replaced. *)
Fixpoint replace (p r s : string) : string :=
  if String.prefix p s then r +:+ substring_from (String.length p) s
  else match s with
       | String c s' => String c (replace p r s')
       | EmptyString => EmptyString
       end.

(** [s.split(sep)] for a non-empty separator string.  [skip] counts the
    characters of a separator occurrence still to be dropped, [cur] is the
    piece being collected, in reverse. *)
Fixpoint split_go (sep : string) (skip : nat) (cur : string) (s : string)
  : list string :=
  match s with
  | EmptyString => [String.rev cur]
  | String c s' =>
      match skip with
      | S k => split_go sep k cur s'
      | O =>
          if String.prefix sep s
          then String.rev cur :: split_go sep (String.length sep - 1) "" s'
          else split_go sep O (String c cur) s'
      end
  end.

Definition split (sep s : string) : list string := split_go sep O "" s.

(** [a.includes(x)] on an array of strings. *)
Definition array_includes (x : string) (a : list string) : bool :=
  existsb (String.eqb x) a.

(** *** Regular expressions

    The fragment of ECMAScript regular expressions the sources use: literal
    characters, character classes, concatenation, alternation, the greedy
    quantifiers, and the end-of-input assertion [$] (no [m] flag). *)

Inductive regex : Type :=
| Eps
| Chr (p : ascii -> bool)
| Seq (a b : regex)
| Alt (a b : regex)
| Star (a : regex)
| EndOfInput.

Definition Opt (a : regex) : regex := Alt a Eps.
Definition Plus (a : regex) : regex := Seq a (Star a).

Fixpoint Lit (s : string) : regex :=
  match s with
  | EmptyString => Eps
  | String c s' => Seq (Chr (Ascii.eqb c)) (Lit s')
  end.

Definition is_digit (c : ascii) : bool :=
  ((48 <=? nat_of_ascii c) && (nat_of_ascii c <=? 57))%nat.

(** [.] matches everything but a line terminator: line feed and carriage
    return (the separators U+2028 and U+2029 are not characters of this
    string type). *)
Definition dot (c : ascii) : bool :=
  negb (Ascii.eqb c "010"%char || Ascii.eqb c "013"%char).

Definition one_of (cs : string) (c : ascii) : bool :=
  existsb (Ascii.eqb c) (list_ascii_of_string cs).

(** Iterating a starred expression, greedily: one more iteration first
    ([step] matches the body), and an iteration that consumed nothing is
    rejected.  An iteration consumes a character, so [fuel] above the
    length of the input is never used up. *)
Fixpoint star_iter {R : Type}
  (step : string -> (string -> option R) -> option R)
  (k : string -> option R) (fuel : nat) (s : string) : option R :=
  match fuel with
  | O => k s
  | S fuel' =>
      match step s (fun s' =>
                      if (String.length s' <? String.length s)%nat
                      then star_iter step k fuel' s' else None) with
      | Some x => Some x
      | None => k s
      end
  end.

(** Backtracking matcher with the priorities of the ECMAScript semantics
    (the left alternative first).  [k] is the continuation, applied to what
    is left of the input. *)
Fixpoint bt {R : Type} (r : regex) (s : string) (k : string -> option R)
  {struct r} : option R :=
  match r with
  | Eps => k s
  | Chr p =>
      match s with
      | String c s' => if p c then k s' else None
      | EmptyString => None
      end
  | Seq a b => bt a s (fun s' => bt b s' k)
  | Alt a b =>
      match bt a s k with
      | Some x => Some x
      | None => bt b s k
      end
  | Star a => star_iter (bt a) k (S (String.length s)) s
  | EndOfInput =>
      match s with
      | EmptyString => k s
      | String _ _ => None
      end
  end.

(** The match of [r] starting at the beginning of [s], if any. *)
Definition match_here (r : regex) (s : string) : option string :=
  match bt r s (fun rest => Some rest) with
  | Some rest =>
      Some (String.substring 0 (String.length s - String.length rest) s)
  | None => None
  end.

(** [r.exec(s)] for a regex without the sticky flag and with [lastIndex]
    0: [None] is [null], [Some m] is [matches[0]], the leftmost match. *)
Fixpoint exec (r : regex) (s : string) : option string :=
  match match_here r s with
  | Some m => Some m
  | None =>
      match s with
      | String _ s' => exec r s'
      | EmptyString => None
      end
  end.

(** [r.test(s)] *)
Definition test (r : regex) (s : string) : bool :=
  match exec r s with Some _ => true | None => false end.

(** [parseInt(s)] on a string that starts with decimal digits (the only use
    in the sources is on a match of [\d+]); [None] is [NaN]. *)
Fixpoint parseInt_go (acc : Z) (s : string) : Z :=
  match s with
  | String c s' =>
      if is_digit c
      then parseInt_go (10 * acc + (Z.of_nat (nat_of_ascii c) - 48)) s'
      else acc
  | EmptyString => acc
  end.

Definition parseInt (s : string) : option Z :=
  match s with
  | String c _ => if is_digit c then Some (parseInt_go 0 s) else None
  | EmptyString => None
  end.

End Js.

(** ** Abrupt completion and mutable state

    A statement either completes normally or throws; the state it mutated up
    to that point stays mutated. *)

Inductive Completion (A : Type) : Type :=
| Normal (a : A)
| Throw (e : string).
Arguments Normal {A} a.
Arguments Throw {A} e.

Definition Exec (S A : Type) : Type := S -> Completion A * S.

Definition ret {S A : Type} (a : A) : Exec S A := fun st => (Normal a, st).

Definition bind {S A B : Type} (c : Exec S A) (k : A -> Exec S B) : Exec S B :=
  fun st =>
    match c st with
    | (Normal a, st') => k a st'
    | (Throw e, st') => (Throw e, st')
    end.

Definition throw {S A : Type} (e : string) : Exec S A := fun st => (Throw e, st).

Definition gets {S A : Type} (f : S -> A) : Exec S A := fun st => (Normal (f st), st).

Definition modify {S : Type} (f : S -> S) : Exec S unit := fun st => (Normal tt, f st).

Definition lift {S A : Type} (c : Completion A) : Exec S A := fun st => (c, st).

Notation "'let!' x ':=' c 'in' k" := (bind c (fun x => k))
  (at level 10, x name, c at level 100, k at level 200).
Notation "'do!' c 'in' k" := (bind c (fun _ => k))
  (at level 10, c at level 100, k at level 200).

(** ** [Array.prototype.sort]

    The sort is stable (ECMAScript 2019); [cmp a b > 0] puts [a] after [b].
    For a comparator that orders by a key this fixes the result, which the
    insertion sort below computes. *)

Section ArraySort.
Context {A : Type} (cmp : A -> A -> Z).

Fixpoint sort_insert (x : A) (l : list A) : list A :=
  match l with
  | [] => [x]
  | y :: l' => if cmp x y <=? 0 then x :: l else y :: sort_insert x l'
  end.

Definition array_sort (l : list A) : list A := foldr sort_insert [] l.
End ArraySort.

(** The comparator [(a, b) => key(a) - key(b)]. *)
Definition byKey {A : Type} (key : A -> Z) (a b : A) : Z := key a - key b.

(** ** jdk-utils

    [IJavaVersion] and [IJavaRuntime] as the resolver uses them.  The
    [version] is optional in the library's type.  [sources] is what
    [getSources] reports for the runtime, the origin tags in the order the
    library lists them; [rank] is the property [sortJdksBySource] of
    requirements.ts adds to the objects. *)

Module JdkUtils.

Record IJavaVersion : Type := { java_version : string; major : Z }.

Record IJavaRuntime : Type := {
  homedir : string;
  version : option IJavaVersion;
  sources : list string;
  rank : option Z;
}.

Definition getSources (r : IJavaRuntime) : list string := sources r.

End JdkUtils.

(** ** requirements.ts *)

Module Requirements.
Import JdkUtils.

Definition set_rank (k : Z) (r : IJavaRuntime) : IJavaRuntime :=
  {| homedir := homedir r; version := version r; sources := sources r;
     rank := Some k |}.

Record RequirementsData : Type := {
  tooling_jre : option string;
  tooling_jre_version : Z;
  java_home : option string;
  java_version : option Z;
}.

Inductive Command : Type := OPEN_BROWSER | OPEN_JSON_SETTINGS.

(** The object a rejection carries. *)
Record ErrorData : Type := {
  message : string;
  label : option string;
  command : option Command;
  commandParam : option string;
}.

Inductive Promise : Type :=
| Pending
| Fulfilled (d : RequirementsData)
| Rejected (e : ErrorData).

(** An entry of the [java.configuration.runtimes] setting; [None] in the
    list stands for an entry that is not a non-null object. *)
Record RuntimeEntry : Type := {
  path : option string;
  name : option string;
  default : bool;
}.

(** What the resolver reads from its collaborators. *)
Record Host : Type := {
  checkAndDownloadJRE : option string;
  javacEnabled : option string;      (* setting jdt.ls.javac.enabled *)
  preference : string;               (* checkJavaPreferences(...).preference *)
  prefJavaHome : option string;      (* checkJavaPreferences(...).javaHome *)
  expandHomeDir : string -> string;
  pathExists : string -> bool;
  path_resolve : list string -> string;
  JAVAC_FILENAME : string;
  getRuntime : string -> option IJavaRuntime;   (* the probe of jdk-utils *)
  findRuntimes : list IJavaRuntime;
  configurationRuntimes : option (list (option RuntimeEntry));
  platform : string;
}.

Record State : Type := {
  promise : Promise;
  workspaceState : gmap string bool;
  informationMessages : list string;
  logged : list string;
}.

Definition initial (ws : gmap string bool) : State :=
  {| promise := Pending; workspaceState := ws; informationMessages := [];
     logged := [] |}.

(** Settling a promise: only the first call of [resolve] or [reject] has an
    effect. *)
Definition settle (p : Promise) (st : State) : State :=
  {| promise := match promise st with Pending => p | q => q end;
     workspaceState := workspaceState st;
     informationMessages := informationMessages st;
     logged := logged st |}.

Definition resolve (d : RequirementsData) : Exec State unit :=
  modify (settle (Fulfilled d)).

Definition reject (e : ErrorData) : Exec State unit :=
  modify (settle (Rejected e)).

Definition showInformationMessage (m : string) : Exec State unit :=
  modify (fun st =>
    {| promise := promise st; workspaceState := workspaceState st;
       informationMessages := informationMessages st ++ [m];
       logged := logged st |}).

Definition info (m : string) : Exec State unit :=
  modify (fun st =>
    {| promise := promise st; workspaceState := workspaceState st;
       informationMessages := informationMessages st;
       logged := logged st ++ [m] |}).

Definition workspaceState_update (k : string) (v : bool) : Exec State unit :=
  modify (fun st =>
    {| promise := promise st; workspaceState := <[k:=v]> (workspaceState st);
       informationMessages := informationMessages st;
       logged := logged st |}).

(** *** Sorting the discovered runtimes *)

Definition sourceOrder : list string := ["JDK_HOME"; "JAVA_HOME"; "PATH"].

(** [sources.entries()] *)
Definition entries (l : list string) : list (Z * string) :=
  imap (fun i s => (Z.of_nat i, s)) l.

Definition assignRank (index : Z) (source : string) (jdk : IJavaRuntime)
  : IJavaRuntime :=
  match rank jdk with
  | None =>
      if Js.array_includes source (getSources jdk)
      then set_rank index jdk else jdk
  | Some _ => jdk
  end.

Definition defaultRank (k : Z) (jdk : IJavaRuntime) : IJavaRuntime :=
  match rank jdk with
  | None => set_rank k jdk
  | Some _ => jdk
  end.

(** [a.rank - b.rank]; with an undefined rank the difference is [NaN],
    which [sort] takes as 0. *)
Definition byRank (a b : IJavaRuntime) : Z :=
  match rank a, rank b with
  | Some x, Some y => x - y
  | _, _ => 0
  end.

(** The array is sorted in place, and the objects in it get their [rank];
    the result is the array after the call. *)
Definition sortJdksBySource (jdks : list IJavaRuntime) : list IJavaRuntime :=
  let ranked :=
    fold_left (fun js e => map (assignRank (fst e) (snd e)) js)
              (entries sourceOrder) jdks in
  let ranked := map (defaultRank (Z.of_nat (length sourceOrder))) ranked in
  array_sort byRank ranked.

(** [r.version?.major ?? 0] *)
Definition majorOr0 (r : IJavaRuntime) : Z :=
  match version r with
  | Some v => major v
  | None => 0
  end.

Definition byVersion (a b : IJavaRuntime) : Z := majorOr0 b - majorOr0 a.

Definition sortJdksByVersion (jdks : list IJavaRuntime) : list IJavaRuntime :=
  array_sort byVersion jdks.

(** *** parseMajorVersion *)

Definition digits : Js.regex := Js.Plus (Js.Chr Js.is_digit).   (* /\d+/g *)

Definition parseMajorVersion (version : string) : Z :=
  if String.eqb version "" then 0
  else
    let version :=
      if Js.startsWith "1." version then Js.substring_from 2 version
      else version in
    match Js.exec digits version with
    | Some m =>
        match Js.parseInt m with
        | Some n => n
        | None => 0       (* not reached: [m] is a run of digits *)
        end
    | None => 0
    end.

(** *** The resolver *)

Section Resolver.
Variable h : Host.

Definition getJdkUrl : string :=
  if String.eqb (platform h) "darwin" then "https://adoptopenjdk.net/"
  else "https://developers.redhat.com/products/openjdk/download/?sc_cid=701f2000000RWTnAAO".

Definition downloadError (cause : string) : ErrorData :=
  {| message := cause;
     label := Some "Get the Java Development Kit";
     command := Some OPEN_BROWSER;
     commandParam := Some getJdkUrl |}.

Definition openJDKDownload (cause : string) : Exec State unit :=
  reject (downloadError cause).

Definition invalidHomeError (cause : string) : ErrorData :=
  if Js.includes "java.home" cause
  then {| message := cause; label := Some "Open settings";
          command := Some OPEN_JSON_SETTINGS; commandParam := None |}
  else {| message := cause; label := None; command := None;
          commandParam := None |}.

Definition invalidJavaHome (cause : string) : Exec State unit :=
  reject (invalidHomeError cause).

(** [runtime?.version?.major || 0] *)
Definition getMajorVersion (javaHome : option string) : Z :=
  match javaHome with
  | Some p =>
      if String.eqb p "" then 0
      else match getRuntime h p with
           | Some r => majorOr0 r
           | None => 0
           end
  | None => 0
  end.

(** The [for ... of] loop of [findDefaultRuntimeFromSettings]; [candidate]
    is the variable of that name. *)
Fixpoint runtimesLoop (candidate : option string)
  (runtimes : list (option RuntimeEntry)) : option string :=
  match runtimes with
  | [] => candidate
  | None :: rest => runtimesLoop candidate rest
  | Some runtime :: rest =>
      match path runtime with
      | Some p =>
          if String.eqb p "" then runtimesLoop candidate rest
          else
            let candidate :=
              match getRuntime h p with
              | Some jr => Some (homedir jr)
              | None => candidate
              end in
            if default runtime then candidate
            else runtimesLoop candidate rest
      | None => runtimesLoop candidate rest
      end
  end.

Definition findDefaultRuntimeFromSettings : option string :=
  match configurationRuntimes h with
  | Some (r :: rs) => runtimesLoop None (r :: rs)
  | _ => None
  end.

Definition requiredJdkVersion : Z :=
  match javacEnabled h with
  | Some v => if String.eqb v "on" then 23 else 17
  | None => 17
  end.

(** The local variables of the executor. *)
Record Locals : Type := {
  toolingJre : option string;
  toolingJreVersion : Z;
  javaHome : option string;
  javaVersion : option Z;
}.

(** Lines 41-68: the configured home. *)
Definition checkConfiguredHome (l : Locals) : Exec State Locals :=
  match prefJavaHome h with
  | Some configured =>
      if String.eqb configured "" then ret l
      else
        let source :=
          preference h +:+ " variable defined in coc-settings.json" in
        let javaHome := expandHomeDir h configured in
        do! (if negb (pathExists h javaHome) then
               invalidJavaHome
                 ("The " +:+ source +:+
                  " points to a missing or inaccessible folder (" +:+
                  javaHome +:+ ")")
             else if negb (pathExists h
                     (path_resolve h [javaHome; "bin"; JAVAC_FILENAME h]))
             then
               let msg :=
                 if pathExists h (path_resolve h [javaHome; JAVAC_FILENAME h])
                 then "'bin' should be removed from the " +:+ source +:+
                      " (" +:+ javaHome +:+ ")"
                 else "The " +:+ source +:+ " (" +:+ javaHome +:+
                      ") does not point to a JDK." in
               invalidJavaHome msg
             else ret tt) in
        let javaVersion := getMajorVersion (Some javaHome) in
        let l' := {| toolingJre := toolingJre l;
                     toolingJreVersion := toolingJreVersion l;
                     javaHome := Some javaHome;
                     javaVersion := Some javaVersion |} in
        if String.eqb (preference h) "java.jdt.ls.java.home"
           || negb (Js.truthy (toolingJre l))
        then
          if requiredJdkVersion <=? javaVersion then
            ret {| toolingJre := Some javaHome;
                   toolingJreVersion := javaVersion;
                   javaHome := Some javaHome;
                   javaVersion := Some javaVersion |}
          else
            let! neverShow :=
              gets (fun st =>
                workspaceState st !! "java.home.failsMinRequiredFirstTime") in
            do! (match neverShow with
                 | Some true => ret tt
                 | _ =>
                     do! workspaceState_update
                           "java.home.failsMinRequiredFirstTime" true in
                     showInformationMessage
                       ("The Java runtime set by 'java.jdt.ls.java.home' does not meet the minimum required version of '"
                        +:+ pretty requiredJdkVersion +:+
                        "' and will not be used.")
                 end) in
            ret l'
        else ret l'
  | None => ret l
  end.

(** [javaRuntimes.filter(r => r.version.major >= requiredJdkVersion)]:
    reading [major] of an undefined [version] throws. *)
Fixpoint filterValid (jdks : list IJavaRuntime)
  : Completion (list IJavaRuntime) :=
  match jdks with
  | [] => Normal []
  | r :: rest =>
      match version r with
      | None =>
          Throw "TypeError: Cannot read properties of undefined (reading 'major')"
      | Some v =>
          match filterValid rest with
          | Normal rest' =>
              Normal (if requiredJdkVersion <=? major v then r :: rest'
                      else rest')
          | Throw e => Throw e
          end
      end
  end.

(** Lines 71-104: the discovered runtimes. *)
Definition pickRuntimes (l : Locals) : Exec State Locals :=
  let javaRuntimes := findRuntimes h in
  if negb (Js.truthy (toolingJre l)) then
    let javaRuntimes := sortJdksByVersion javaRuntimes in
    let! validJdks := lift (filterValid javaRuntimes) in
    match validJdks with
    | _ :: _ =>
        match sortJdksBySource validJdks with
        | first :: _ =>
            match version first with
            | Some v =>
                ret {| toolingJre := Some (homedir first);
                       toolingJreVersion := major v;
                       javaHome := Some (homedir first);
                       javaVersion := Some (major v) |}
            | None =>
                throw "TypeError: Cannot read properties of undefined (reading 'major')"
            end
        | [] =>
            throw "TypeError: Cannot read properties of undefined (reading 'homedir')"
        end
    | [] => ret l
    end
  else if Js.truthy (javaHome l) then
    do! info ("Use the JDK from '" +:+ preference h +:+
              "' setting as the initial default project JDK.") in
    ret l
  else
    match javaRuntimes with
    | _ :: _ =>
        match sortJdksBySource javaRuntimes with
        | first :: _ =>
            do! info ("Use the JDK from '" +:+
                      String.concat "," (getSources first) +:+
                      "' as the initial default project JDK.") in
            ret {| toolingJre := toolingJre l;
                   toolingJreVersion := toolingJreVersion l;
                   javaHome := Some (homedir first);
                   javaVersion := option_map major (version first) |}
        | [] =>
            throw "TypeError: Cannot read properties of undefined (reading 'homedir')"
        end
    | [] =>
        let found := findDefaultRuntimeFromSettings in
        if Js.truthy found then
          do! info "Use the JDK from 'java.configuration.runtimes' as the initial default project JDK." in
          ret {| toolingJre := toolingJre l;
                 toolingJreVersion := toolingJreVersion l;
                 javaHome := found;
                 javaVersion := Some (getMajorVersion found) |}
        else
          do! openJDKDownload "Please download and install a JDK to compile your project. You can configure your projects with different JDKs by the setting ['java.configuration.runtimes'](https://github.com/redhat-developer/vscode-java/wiki/JDK-Requirements#java.configuration.runtimes)" in
          ret {| toolingJre := toolingJre l;
                 toolingJreVersion := toolingJreVersion l;
                 javaHome := found;
                 javaVersion := javaVersion l |}
    end.

(** Lines 106-116: the version check and the call of [resolve]; the value
    is the object passed to [resolve]. *)
Definition settleRequirements (l : Locals) : Exec State RequirementsData :=
  do! (if negb (Js.truthy (toolingJre l))
          || (toolingJreVersion l <? requiredJdkVersion)
       then
         openJDKDownload
           ("Java " +:+ pretty requiredJdkVersion +:+
            " or more recent is required to run the Java extension. Please download and install a recent JDK. You can still compile your projects with older JDKs by configuring ['java.configuration.runtimes'](https://github.com/redhat-developer/vscode-java/wiki/JDK-Requirements#java.configuration.runtimes)")
       else ret tt) in
  let d := {| tooling_jre := toolingJre l;
              tooling_jre_version := toolingJreVersion l;
              java_home := javaHome l;
              java_version := javaVersion l |} in
  do! resolve d in
  ret d.

(** The executor passed to [new Promise], lines 35-118. *)
Definition executor : Exec State RequirementsData :=
  let toolingJre := checkAndDownloadJRE h in
  let l := {| toolingJre := toolingJre;
              toolingJreVersion := getMajorVersion toolingJre;
              javaHome := prefJavaHome h;
              javaVersion := Some 0 |} in
  let! l := checkConfiguredHome l in
  let! l := pickRuntimes l in
  settleRequirements l.

(** [resolveRequirements(context)]: the promise it returns, once the
    executor has run.  An exception in the [async] executor does not
    settle the promise. *)
Definition resolveRequirements (ws : gmap string bool) : Promise :=
  promise (snd (executor (initial ws))).

End Resolver.

(** *** Notions used to state the properties of the resolver *)

(** The rank [sortJdksBySource] computes from the sources of a runtime: the
    index of the first of JDK_HOME, JAVA_HOME, PATH among them, 3 when
    there is none. *)
Definition sourceRank (r : IJavaRuntime) : Z :=
  if Js.array_includes "JDK_HOME" (getSources r) then 0
  else if Js.array_includes "JAVA_HOME" (getSources r) then 1
  else if Js.array_includes "PATH" (getSources r) then 2
  else 3.

(** The rank of a runtime after [sortJdksBySource]: an object that carries
    a rank already keeps it. *)
Definition originRank (r : IJavaRuntime) : Z :=
  match rank r with
  | Some k => k
  | None => sourceRank r
  end.

Definition withRank (r : IJavaRuntime) : IJavaRuntime :=
  set_rank (originRank r) r.

Definition meetsMinimum (required : Z) (r : IJavaRuntime) : bool :=
  required <=? majorOr0 r.

Definition hasVersion (r : IJavaRuntime) : Prop := version r <> None.

(** An installed runtime that no source points to. *)
Definition installed (home javaVersion : string) (v : Z) : IJavaRuntime :=
  {| homedir := home;
     version := Some {| JdkUtils.java_version := javaVersion; major := v |};
     sources := [];
     rank := None |}.

(** A runtime as [findRuntimes] reports it, found through one source. *)
Definition candidate (home javaVersion : string) (v : Z) (tag : string)
  : IJavaRuntime :=
  {| homedir := home;
     version := Some {| JdkUtils.java_version := javaVersion; major := v |};
     sources := [tag];
     rank := None |}.

(** The configured home is set and its runtime is recent enough. *)
Definition configuredSupplies (h : Host) : bool :=
  match prefJavaHome h with
  | Some configured =>
      negb (String.eqb configured "")
      && (requiredJdkVersion h
          <=? getMajorVersion h (Some (expandHomeDir h configured)))
  | None => false
  end.

Definition isInvalidHome (e : ErrorData) : Prop :=
  exists cause, e = invalidHomeError cause.

(** What is wrong with the configured home: it is set, and its folder is
    missing, or it is there and holds no [bin/javac].  The value is the
    cause that the user is told. *)
Definition homeDefect (h : Host) : option string :=
  match prefJavaHome h with
  | Some configured =>
      let source := preference h +:+ " variable defined in coc-settings.json" in
      let home := expandHomeDir h configured in
      if String.eqb configured "" then None
      else if negb (pathExists h home) then
        Some ("The " +:+ source +:+
              " points to a missing or inaccessible folder (" +:+ home +:+ ")")
      else if pathExists h (path_resolve h [home; "bin"; JAVAC_FILENAME h])
      then None
      else if pathExists h (path_resolve h [home; JAVAC_FILENAME h]) then
        Some ("'bin' should be removed from the " +:+ source +:+
              " (" +:+ home +:+ ")")
      else
        Some ("The " +:+ source +:+ " (" +:+ home +:+
              ") does not point to a JDK.")
  | None => None
  end.

(** The rejection carries the download action. *)
Definition isDownload (h : Host) (e : ErrorData) : Prop :=
  exists cause, e = downloadError h cause.

(** Between [st] and [st'] the promise was left alone, or it was pending
    and got rejected with an error that satisfies [P]. *)
Definition mayReject (P : ErrorData -> Prop) (st st' : State) : Prop :=
  promise st' = promise st \/
  (promise st = Pending /\ exists e, P e /\ promise st' = Rejected e).

(** The local variables when the executor starts. *)
Definition initialLocals (h : Host) : Locals :=
  {| toolingJre := checkAndDownloadJRE h;
     toolingJreVersion := getMajorVersion h (checkAndDownloadJRE h);
     javaHome := prefJavaHome h;
     javaVersion := Some 0 |}.

(** The condition of line 106. *)
Definition belowRequirement (h : Host) (l : Locals) : bool :=
  negb (Js.truthy (toolingJre l))
  || (toolingJreVersion l <? requiredJdkVersion h).

(** The object passed to [resolve]. *)
Definition resolved (l : Locals) : RequirementsData :=
  {| tooling_jre := toolingJre l;
     tooling_jre_version := toolingJreVersion l;
     java_home := javaHome l;
     java_version := javaVersion l |}.

(** The entries the loop of [findDefaultRuntimeFromSettings] looks at: the
    objects with a path, up to and including the first one marked
    default. *)
Fixpoint visited (runtimes : list (option RuntimeEntry)) : list RuntimeEntry :=
  match runtimes with
  | [] => []
  | None :: rest => visited rest
  | Some runtime :: rest =>
      if Js.truthy (path runtime)
      then if default runtime then [runtime] else runtime :: visited rest
      else visited rest
  end.

(** The home [getRuntime] reports for the path of an entry. *)
Definition probedHome (h : Host) (runtime : RuntimeEntry) : option string :=
  match path runtime with
  | Some p => option_map homedir (getRuntime h p)
  | None => None
  end.

(** The rule in the words of the specification: the first entry marked
    default, else the first entry. *)
Definition firstDefaultElseFirst (h : Host) : option string :=
  match configurationRuntimes h with
  | Some runtimes =>
      let objects := omap id runtimes in
      match List.find default objects with
      | Some runtime => probedHome h runtime
      | None =>
          match objects with
          | first :: _ => probedHome h first
          | [] => None
          end
      end
  | None => None
  end.

(** The value of the first run of decimal digits of [s], 0 without one. *)
Fixpoint firstInteger (s : string) : Z :=
  match s with
  | EmptyString => 0
  | String c s' =>
      if Js.is_digit c then Js.parseInt_go 0 s else firstInteger s'
  end.

Fixpoint takeDigits (s : string) : string :=
  match s with
  | EmptyString => EmptyString
  | String c s' =>
      if Js.is_digit c then String c (takeDigits s') else EmptyString
  end.

Fixpoint dropDigits (s : string) : string :=
  match s with
  | EmptyString => EmptyString
  | String c s' => if Js.is_digit c then dropDigits s' else s
  end.

(** *** Example hosts *)

(** A machine without a downloaded JRE and without settings, on which
    [findRuntimes] finds [found]; [getRuntime] knows the runtimes of
    [known]. *)
Definition probe (known : list IJavaRuntime) (p : string)
  : option IJavaRuntime :=
  List.find (fun r => String.eqb (homedir r) p) known.

Definition machine (found known : list IJavaRuntime) : Host :=
  {| checkAndDownloadJRE := None;
     javacEnabled := None;
     preference := "java.home";
     prefJavaHome := None;
     expandHomeDir := fun p => p;
     pathExists := fun p => existsb (fun r => Js.startsWith (homedir r) p) known;
     path_resolve := String.concat "/";
     JAVAC_FILENAME := "javac";
     getRuntime := probe known;
     findRuntimes := found;
     configurationRuntimes := None;
     platform := "linux" |}.

(** [java.home] names a folder that does not exist. *)
Definition hostMissingHome : Host :=
  {| checkAndDownloadJRE := None;
     javacEnabled := None;
     preference := "java.home";
     prefJavaHome := Some "/opt/none";
     expandHomeDir := fun p => p;
     pathExists := fun _ => false;
     path_resolve := String.concat "/";
     JAVAC_FILENAME := "javac";
     getRuntime := fun _ => None;
     findRuntimes := [];
     configurationRuntimes := None;
     platform := "linux" |}.

Definition jdk21 : IJavaRuntime :=
  installed "/usr/lib/jvm/jdk-21" "21.0.2" 21.

Definition jdk17 : IJavaRuntime :=
  candidate "/usr/lib/jvm/jdk-17" "17.0.9" 17 "JAVA_HOME".

(** JDK 21 in a common directory, JDK 17 in [JAVA_HOME]. *)
Definition hostNewerElsewhere : Host := machine [jdk21; jdk17] [jdk21; jdk17].

Definition oldJdks : list IJavaRuntime :=
  [candidate "/opt/jdk-11-a" "11.0.2" 11 "PATH";
   candidate "/opt/jdk-11-b" "11.0.2" 11 "JAVA_HOME";
   candidate "/opt/jdk-11-c" "11.0.2" 11 "JDK_HOME"].

(** Three JDK 11, found through PATH, JAVA_HOME and JDK_HOME. *)
Definition hostOldJdks : Host := machine oldJdks oldJdks.

Definition recentJdks : list IJavaRuntime :=
  [candidate "/opt/jdk-21-a" "21.0.2" 21 "PATH";
   candidate "/opt/jdk-21-c" "21.0.2" 21 "JDK_HOME";
   candidate "/opt/jdk-21-b" "21.0.2" 21 "JAVA_HOME"].

(** Three JDK 21, the one of JDK_HOME discovered second. *)
Definition hostRecentJdks : Host := machine recentJdks recentJdks.

(** A downloaded JRE runs the server; no JDK is discovered, and the
    settings declare two runtimes, none of them the default. *)
Definition hostTwoRuntimes : Host :=
  {| checkAndDownloadJRE := Some "/ext/jre";
     javacEnabled := None;
     preference := "java.home";
     prefJavaHome := None;
     expandHomeDir := fun p => p;
     pathExists := fun _ => true;
     path_resolve := String.concat "/";
     JAVAC_FILENAME := "javac";
     getRuntime :=
       probe [installed "/ext/jre" "17.0.9" 17;
              installed "/usr/lib/jvm/jdk-17" "17.0.9" 17;
              installed "/usr/lib/jvm/jdk-21" "21.0.2" 21];
     findRuntimes := [];
     configurationRuntimes :=
       Some [Some {| path := Some "/usr/lib/jvm/jdk-17";
                     name := Some "JavaSE-17"; default := false |};
             Some {| path := Some "/usr/lib/jvm/jdk-21";
                     name := Some "JavaSE-21"; default := false |}];
     platform := "linux" |}.

End Requirements.

(** ** lombokSupport.ts *)

Module LombokSupport.

Definition JAVA_LOMBOK_PATH : string := "java.lombokPath".

(** [/lombok-?\d?.*\.jar$/] *)
Definition lombokJarRegex : Js.regex :=
  Js.Seq (Js.Lit "lombok")
    (Js.Seq (Js.Opt (Js.Lit "-"))
       (Js.Seq (Js.Opt (Js.Chr Js.is_digit))
          (Js.Seq (Js.Star (Js.Chr Js.dot))
             (Js.Seq (Js.Lit ".jar") Js.EndOfInput)))).

Definition unkownVersion : string := "999.999.999".
Definition compatibleVersion : string := "1.18.0".

(** [/-javaagent:.*[\\|/]lombok.*\.jar/], the pattern [reg] of
    [addLombokParam]; the class holds the backslash, the bar and the
    slash. *)
Definition reg : Js.regex :=
  Js.Seq (Js.Lit "-javaagent:")
    (Js.Seq (Js.Star (Js.Chr Js.dot))
       (Js.Seq (Js.Chr (Js.one_of "\|/"))
          (Js.Seq (Js.Lit "lombok")
             (Js.Seq (Js.Star (Js.Chr Js.dot)) (Js.Lit ".jar"))))).

(** The collaborators: the file system, the directory of the bundled jar
    ([path.resolve(__dirname, '../server')]) with what
    [glob.sync('lombok*.jar')] finds there, and [semver.gte], which throws
    on a string that is not a version. *)
Record Host : Type := {
  existsSync : string -> bool;
  lombokHome : string;
  globSync : list string;
  semver_gte : string -> string -> Completion bool;
}.

(** The module's variables, the workspace store, the messages shown, and
    the array [params] that [addLombokParam] edits in place. *)
Record State : Type := {
  activeLombokPath : option string;
  isExtensionLombok : bool;
  workspaceState : gmap string string;
  warningMessages : list string;
  logged : list string;
  params : list string;
}.

Definition set_activeLombokPath (v : option string) (st : State) : State :=
  {| activeLombokPath := v; isExtensionLombok := isExtensionLombok st;
     workspaceState := workspaceState st;
     warningMessages := warningMessages st; logged := logged st;
     params := params st |}.

Definition set_isExtensionLombok (v : bool) (st : State) : State :=
  {| activeLombokPath := activeLombokPath st; isExtensionLombok := v;
     workspaceState := workspaceState st;
     warningMessages := warningMessages st; logged := logged st;
     params := params st |}.

Definition set_workspaceState (v : gmap string string) (st : State) : State :=
  {| activeLombokPath := activeLombokPath st;
     isExtensionLombok := isExtensionLombok st; workspaceState := v;
     warningMessages := warningMessages st; logged := logged st;
     params := params st |}.

Definition set_warningMessages (v : list string) (st : State) : State :=
  {| activeLombokPath := activeLombokPath st;
     isExtensionLombok := isExtensionLombok st;
     workspaceState := workspaceState st; warningMessages := v;
     logged := logged st; params := params st |}.

Definition set_logged (v : list string) (st : State) : State :=
  {| activeLombokPath := activeLombokPath st;
     isExtensionLombok := isExtensionLombok st;
     workspaceState := workspaceState st;
     warningMessages := warningMessages st; logged := v;
     params := params st |}.

Definition set_params (v : list string) (st : State) : State :=
  {| activeLombokPath := activeLombokPath st;
     isExtensionLombok := isExtensionLombok st;
     workspaceState := workspaceState st;
     warningMessages := warningMessages st; logged := logged st;
     params := v |}.

Definition showWarningMessage (m : string) : Exec State unit :=
  modify (fun st => set_warningMessages (warningMessages st ++ [m]) st).

Definition info (m : string) : Exec State unit :=
  modify (fun st => set_logged (logged st ++ [m]) st).

Definition updateActiveLombokPath (p : string) : Exec State unit :=
  modify (set_activeLombokPath (Some p)).

(** [context.workspaceState.update(JAVA_LOMBOK_PATH, undefined)] *)
Definition cleanupLombokCache : Exec State unit :=
  modify (fun st =>
    set_workspaceState (delete JAVA_LOMBOK_PATH (workspaceState st)) st).

(** A value of type [string] or [undefined] inside a template literal. *)
Definition interpolate (v : option string) : string :=
  match v with
  | Some s => s
  | None => "undefined"
  end.

Section Lombok.
Variable h : Host.

Definition getExtensionLombokPath : Exec State (option string) :=
  match globSync h with
  | [] =>
      do! showWarningMessage "Lombok missing in extension path" in
      ret None
  | jar :: _ =>
      let lombokJarPath := lombokHome h +:+ "/" +:+ jar in
      if negb (existsSync h lombokJarPath) then
        do! showWarningMessage "Lombok found but not accessible" in
        ret None
      else ret (Some lombokJarPath)
  end.

(** [exec] gives [null] when the path does not match, and reading
    [length] of [null] throws; a match array has [matches[0]], so the
    statements after the [if] are not reached. *)
Definition lombokPath2Version (lombokPath : option string)
  : Exec State string :=
  match lombokPath with
  | None => ret ""
  | Some p =>
      if String.eqb p "" then ret ""
      else
        match Js.exec lombokJarRegex p with
        | None =>
            throw "TypeError: Cannot read properties of null (reading 'length')"
        | Some m0 =>
            let matches := [m0] in
            if (0 <? length matches)%nat then
              ret (hd "" (Js.split ".jar" m0))
            else
              do! showWarningMessage
                    ("Lombok " +:+ p +:+ " jar name mismatch") in
              ret "lombok"
        end
  end.

Definition lombokPath2VersionNumber (lombokPath : option string)
  : Exec State string :=
  let! v := lombokPath2Version lombokPath in
  let lombokVersionTag := Js.split "-" v in
  match lombokVersionTag with
  | _ :: tag :: _ => ret tag
  | _ =>
      do! showWarningMessage
            ("Lombok " +:+ interpolate lombokPath +:+
             " missing version tag") in
      ret unkownVersion
  end.

Definition getLombokVersion : Exec State string :=
  let! active := gets activeLombokPath in
  lombokPath2Version active.

Definition isCompatibleLombokVersion (currentVersion : string)
  : Exec State bool :=
  lift (semver_gte h currentVersion compatibleVersion).

(** The first loop of [addLombokParam]: the indexes of the arguments that
    match [reg], in increasing order. *)
Fixpoint collectIndexes (i : nat) (ps : list string) : list nat :=
  match ps with
  | [] => []
  | p :: ps' =>
      if Js.test reg p then i :: collectIndexes (S i) ps'
      else collectIndexes (S i) ps'
  end.

(** The second loop: [params.splice(deleteIndex[i], 1)] for [i] from the
    last index down to 0. *)
Definition spliceAll (deleteIndex : list nat) (ps : list string)
  : list string :=
  fold_left (fun ps i => delete i ps) (rev deleteIndex) ps.

(** [params[deleteIndex[deleteIndex.length - 1]]], [undefined] when
    nothing matched. *)
Definition lastMatchedParam (ps : list string) : option string :=
  match last (collectIndexes 0 ps) with
  | Some i => ps !! i
  | None => None
  end.

(** Lines 108-114 of [addLombokParam]: the cached path, or else the path
    of the last agent argument that was removed. *)
Definition suppliedPath (cached lastMatchedParam : option string)
  : option string :=
  if negb (Js.truthy cached) && Js.truthy lastMatchedParam
  then option_map (Js.replace "-javaagent:" "") lastMatchedParam
  else cached.

(** Lines 116-124: the version check of the supplied jar. *)
Definition checkSupplied (lombokJarPath : option string) : Exec State unit :=
  match lombokJarPath with
  | Some p =>
      if negb (String.eqb p "") && existsSync h p then
        let! v := lombokPath2VersionNumber lombokJarPath in
        let! compatible := isCompatibleLombokVersion v in
        if compatible then modify (set_isExtensionLombok false)
        else
          do! cleanupLombokCache in
          let! configured := lombokPath2VersionNumber lombokJarPath in
          let! extension := getExtensionLombokPath in
          let! fallback := lombokPath2VersionNumber extension in
          showWarningMessage
            ("The configured lombok " +:+ configured +:+
             " is not supported, falling back " +:+ fallback)
      else ret tt
  | None => ret tt
  end.

(** Lines 126-138: the jar that is used becomes an agent argument. *)
Definition appendAgent (lombokJarPath : option string) : Exec State unit :=
  let! useExtension := gets isExtensionLombok in
  let! lombokJarPath :=
    (if useExtension then getExtensionLombokPath else ret lombokJarPath) in
  match lombokJarPath with
  | Some p =>
      if String.eqb p "" then
        showWarningMessage
          "Could not resolve valid lombok jar from vmargs or builtin."
      else
        let lombokAgentParam := "-javaagent:" +:+ p in
        do! modify (fun st => set_params (params st ++ [lombokAgentParam]) st) in
        do! updateActiveLombokPath p in
        info ("Starting server with lombok support " +:+ p)
  | None =>
      showWarningMessage
        "Could not resolve valid lombok jar from vmargs or builtin."
  end.

Definition addLombokParam : Exec State unit :=
  let! ps := gets params in
  let deleteIndex := collectIndexes 0 ps in
  let lastMatchedParam := lastMatchedParam ps in
  do! modify (set_params (spliceAll deleteIndex ps)) in
  do! modify (set_isExtensionLombok true) in
  let! cached := gets (fun st => workspaceState st !! JAVA_LOMBOK_PATH) in
  let lombokJarPath := suppliedPath cached lastMatchedParam in
  do! checkSupplied lombokJarPath in
  appendAgent lombokJarPath.

End Lombok.

(** [semver.gte] for the hosts of the examples.  It agrees with node-semver
    on strings written [MAJOR.MINOR.PATCH] with plain numbers, and on
    strings without digits, which are no versions and make the library
    throw a [TypeError]; the optional parts of a version (a leading v, a
    pre-release or build suffix) are not read here. *)
Definition numericId (s : string) : option Z :=
  if forallb Js.is_digit (list_ascii_of_string s)
     && negb (String.eqb s "")
     && (negb (Js.startsWith "0" s) || String.eqb s "0")
  then Js.parseInt s else None.

Definition parseVersion (s : string) : option (Z * Z * Z) :=
  match Js.split "." s with
  | [a; b; c] =>
      match numericId a, numericId b, numericId c with
      | Some x, Some y, Some z => Some (x, y, z)
      | _, _, _ => None
      end
  | _ => None
  end.

Definition semverGte (a b : string) : Completion bool :=
  match parseVersion a, parseVersion b with
  | Some (x1, y1, z1), Some (x2, y2, z2) =>
      Normal (if x1 =? x2 then
                if y1 =? y2 then z2 <=? z1 else y2 <? y1
              else x2 <? x1)
  | None, _ => Throw ("TypeError: Invalid Version: " +:+ a)
  | _, None => Throw ("TypeError: Invalid Version: " +:+ b)
  end.

(** *** Notions used to state the properties of [addLombokParam] *)

(** The arguments that are not Lombok agent arguments. *)
Definition withoutAgents (ps : list string) : list string :=
  List.filter (fun a => negb (Js.test reg a)) ps.

(** The bundled jar, when the extension has one that can be read: the value
    of [getExtensionLombokPath()]. *)
Definition bundledJar (h : Host) : option string :=
  match globSync h with
  | [] => None
  | jar :: _ =>
      let lombokJarPath := lombokHome h +:+ "/" +:+ jar in
      if existsSync h lombokJarPath then Some lombokJarPath else None
  end.

(** The agent argument for the jar that is used, if there is one. *)
Definition agentArgs (used : option string) : list string :=
  match used with
  | Some p => if String.eqb p "" then [] else ["-javaagent:" +:+ p]
  | None => []
  end.

(** Whether [addLombokParam] looks at the supplied jar: a non-empty path
    of an existing file. *)
Definition usable (h : Host) (lombokJarPath : option string) : bool :=
  match lombokJarPath with
  | Some p => negb (String.eqb p "") && existsSync h p
  | None => false
  end.

(** States that differ in the warnings shown only, [st'] having those of
    [st] and maybe more. *)
Definition sameButWarnings (st st' : State) : Prop :=
  activeLombokPath st' = activeLombokPath st /\
  isExtensionLombok st' = isExtensionLombok st /\
  workspaceState st' = workspaceState st /\
  logged st' = logged st /\
  params st' = params st /\
  exists more, warningMessages st' = (warningMessages st ++ more)%list.

(** *** Example hosts *)

(** An extension that bundles Lombok 1.18.36, on a machine with the files
    [files]. *)
Definition extension (files : list string) : Host :=
  {| existsSync := fun p => existsb (String.eqb p) files;
     lombokHome := "/ext/server";
     globSync := ["lombok-1.18.36.jar"];
     semver_gte := semverGte |}.

Definition bundled : string := "/ext/server/lombok-1.18.36.jar".

(** The start of a session: the cache entry [cached], the arguments
    [args]. *)
Definition session (cached : option string) (args : list string) : State :=
  {| activeLombokPath := None;
     isExtensionLombok := false;
     workspaceState :=
       match cached with
       | Some p => {[ JAVA_LOMBOK_PATH := p ]}
       | None => ∅
       end;
     warningMessages := [];
     logged := [];
     params := args |}.

(** The cache names Lombok 1.17.0, which is on disk; the user passes an
    agent argument of their own. *)
Definition hostOldCache : Host := extension ["/cache/lombok-1.17.0.jar"; bundled].
Definition sessionOldCache : State :=
  session (Some "/cache/lombok-1.17.0.jar")
    ["-Xmx1G"; "-javaagent:/a/lombok.jar"].

(** The cache names Lombok 1.18.30 of the project, which is on disk. *)
Definition hostProjectCache : Host :=
  extension ["/home/dev/.m2/lombok-1.18.30.jar"; bundled].
Definition sessionProjectCache : State :=
  session (Some "/home/dev/.m2/lombok-1.18.30.jar")
    ["-Xmx1G"; "-javaagent:/a/lombok.jar"; "-javaagent:/b/lombok-1.18.2.jar"].

(** The cache names a jar that is gone; the agent argument of the user
    names Lombok 1.18.30, which is on disk. *)
Definition hostStaleCache : Host :=
  extension ["/usr/share/lombok-1.18.30.jar"; bundled].
Definition sessionStaleCache : State :=
  session (Some "/gone/lombok-1.18.20.jar")
    ["-javaagent:/usr/share/lombok-1.18.30.jar"].

(** No cache entry; the agent argument of the user names an existing file
    whose name goes on after [.jar]. *)
Definition hostBackupJar : Host := extension ["/opt/lombok.jar.orig"; bundled].
Definition sessionBackupJar : State :=
  session None ["-Xmx1G"; "-javaagent:/opt/lombok.jar.orig"].

End LombokSupport.

(** ** requirements.ts: further hosts *)

Module ResolverHosts.
Import JdkUtils Requirements.

(** [h] with the setting [pref] naming the folder [home]. *)
Definition withHome (pref home : string) (h : Host) : Host :=
  {| checkAndDownloadJRE := checkAndDownloadJRE h;
     javacEnabled := javacEnabled h;
     preference := pref;
     prefJavaHome := Some home;
     expandHomeDir := expandHomeDir h;
     pathExists := pathExists h;
     path_resolve := path_resolve h;
     JAVAC_FILENAME := JAVAC_FILENAME h;
     getRuntime := getRuntime h;
     findRuntimes := findRuntimes h;
     configurationRuntimes := configurationRuntimes h;
     platform := platform h |}.

(** [h] with the JRE at [jre] downloaded for the server. *)
Definition withDownload (jre : string) (h : Host) : Host :=
  {| checkAndDownloadJRE := Some jre;
     javacEnabled := javacEnabled h;
     preference := preference h;
     prefJavaHome := prefJavaHome h;
     expandHomeDir := expandHomeDir h;
     pathExists := pathExists h;
     path_resolve := path_resolve h;
     JAVAC_FILENAME := JAVAC_FILENAME h;
     getRuntime := getRuntime h;
     findRuntimes := findRuntimes h;
     configurationRuntimes := configurationRuntimes h;
     platform := platform h |}.

Definition jre17 : IJavaRuntime := installed "/ext/jre" "17.0.9" 17.

(** [java.jdt.ls.java.home] names JDK 21. *)
Definition hostConfiguredJdk : Host :=
  withHome "java.jdt.ls.java.home" "/usr/lib/jvm/jdk-21" (machine [] [jdk21]).

(** [java.jdt.ls.java.home] names a JDK 11. *)
Definition hostConfiguredOld : Host :=
  withHome "java.jdt.ls.java.home" "/opt/jdk-11-a" (machine [] oldJdks).

(** [java.home] names a folder that is there and holds no [bin/javac]. *)
Definition hostJreHome : Host :=
  {| checkAndDownloadJRE := None;
     javacEnabled := None;
     preference := "java.home";
     prefJavaHome := Some "/opt/jre-17";
     expandHomeDir := fun p => p;
     pathExists := String.eqb "/opt/jre-17";
     path_resolve := String.concat "/";
     JAVAC_FILENAME := "javac";
     getRuntime := fun _ => None;
     findRuntimes := [];
     configurationRuntimes := None;
     platform := "linux" |}.

(** A downloaded JRE runs the server; JDK 21 is in a common directory and
    JDK 17 in [JAVA_HOME]. *)
Definition hostDownloaded : Host :=
  withDownload "/ext/jre" (machine [jdk21; jdk17] [jre17; jdk21; jdk17]).

(** A downloaded JRE and nothing else. *)
Definition hostDownloadOnly : Host :=
  withDownload "/ext/jre" (machine [] [jre17]).

End ResolverHosts.

(** ** requirements.ts: the list of JDKs *)

Module JdkList.
Import JdkUtils.

(** What [listJdks] reads: the runtimes [findRuntimes] reports, and the
    files that exist ([path.join] is the host's). *)
Record Host : Type := {
  findRuntimes : list IJavaRuntime;
  existsSync : string -> bool;
  path_join : list string -> string;
}.

(** The module variable [cachedJdks]; [None] is [undefined]. *)
Definition Cache : Type := option (list IJavaRuntime).

(** The predicate of the [filter] in [listJdks]. *)
Definition hasRuntimeImage (h : Host) (jdk : IJavaRuntime) : bool :=
  existsSync h (path_join h [homedir jdk; "lib"; "rt.jar"])
  || existsSync h (path_join h [homedir jdk; "jre"; "lib"; "rt.jar"])
  || existsSync h (path_join h [homedir jdk; "lib"; "jrt-fs.jar"]).

(** [listJdks(force)]: the scan is made when [force] is set or nothing is
    cached (an empty array is truthy, so it counts as cached); the value is
    a copy of the cached array, paired here with the cache after the
    call. *)
Definition listJdks (h : Host) (force : bool) (cachedJdks : Cache)
  : list IJavaRuntime * Cache :=
  let cachedJdks :=
    if force || match cachedJdks with None => true | Some _ => false end
    then Some (List.filter (hasRuntimeImage h) (findRuntimes h))
    else cachedJdks in
  (match cachedJdks with Some jdks => jdks | None => [] end, cachedJdks).

End JdkList.

(** ** lombokSupport.ts: the project's Lombok *)

Module LombokProject.
Import LombokSupport.

Record QuickPickItem : Type := {
  label : string;
  description : string;
  detail : option string;
}.

(** The calls on [runtimeStatusBarProvider]. *)
Inductive StatusBarCall : Type :=
| initializeLombokStatusBar
| destroyLombokStatusBar.

(** The collaborators: those of [addLombokParam], the setting
    [java.jdt.ls.lombokSupport.enabled], the Java projects with their
    classpaths of scope test, and the choice made in a quick pick. *)
Record Host : Type := {
  files : LombokSupport.Host;
  lombokSupportEnabled : bool;
  getAllJavaProjects : list string;
  getClasspaths : string -> list string;
  showQuickPick : list QuickPickItem -> option QuickPickItem;
}.

(** The state of the module: the part [addLombokParam] works on, the
    other module variables, and what was asked of the editor (status bar
    calls, the number of commands registered, information messages with
    their action). *)
Record State : Type := {
  support : LombokSupport.State;
  projectLombokPath : option string;
  isLombokStatusBarInitialized : bool;
  isLombokCommandInitialized : bool;
  statusBar : list StatusBarCall;
  registered : nat;
  informationMessages : list (string * option string);
}.

Definition set_support (v : LombokSupport.State) (st : State) : State :=
  {| support := v; projectLombokPath := projectLombokPath st;
     isLombokStatusBarInitialized := isLombokStatusBarInitialized st;
     isLombokCommandInitialized := isLombokCommandInitialized st;
     statusBar := statusBar st; registered := registered st;
     informationMessages := informationMessages st |}.

Definition set_projectLombokPath (v : option string) (st : State) : State :=
  {| support := support st; projectLombokPath := v;
     isLombokStatusBarInitialized := isLombokStatusBarInitialized st;
     isLombokCommandInitialized := isLombokCommandInitialized st;
     statusBar := statusBar st; registered := registered st;
     informationMessages := informationMessages st |}.

Definition set_statusBarInitialized (v : bool) (st : State) : State :=
  {| support := support st; projectLombokPath := projectLombokPath st;
     isLombokStatusBarInitialized := v;
     isLombokCommandInitialized := isLombokCommandInitialized st;
     statusBar := statusBar st; registered := registered st;
     informationMessages := informationMessages st |}.

Definition set_commandInitialized (v : bool) (st : State) : State :=
  {| support := support st; projectLombokPath := projectLombokPath st;
     isLombokStatusBarInitialized := isLombokStatusBarInitialized st;
     isLombokCommandInitialized := v;
     statusBar := statusBar st; registered := registered st;
     informationMessages := informationMessages st |}.

Definition callStatusBar (c : StatusBarCall) : Exec State unit :=
  modify (fun st =>
    {| support := support st; projectLombokPath := projectLombokPath st;
       isLombokStatusBarInitialized := isLombokStatusBarInitialized st;
       isLombokCommandInitialized := isLombokCommandInitialized st;
       statusBar := statusBar st ++ [c]; registered := registered st;
       informationMessages := informationMessages st |}).

(** [registerLombokConfigureCommand(context)]: one more command under
    [Commands.LOMBOK_CONFIGURE]. *)
Definition registerLombokConfigureCommand : Exec State unit :=
  modify (fun st =>
    {| support := support st; projectLombokPath := projectLombokPath st;
       isLombokStatusBarInitialized := isLombokStatusBarInitialized st;
       isLombokCommandInitialized := isLombokCommandInitialized st;
       statusBar := statusBar st; registered := S (registered st);
       informationMessages := informationMessages st |}).

Definition showInformationMessage (m : string) (action : option string)
  : Exec State unit :=
  modify (fun st =>
    {| support := support st; projectLombokPath := projectLombokPath st;
       isLombokStatusBarInitialized := isLombokStatusBarInitialized st;
       isLombokCommandInitialized := isLombokCommandInitialized st;
       statusBar := statusBar st; registered := registered st;
       informationMessages := informationMessages st ++ [(m, action)] |}).

(** A function of the first part of the file, run on its part of the
    state. *)
Definition inSupport {A : Type} (c : Exec LombokSupport.State A)
  : Exec State A :=
  fun st =>
    match c (support st) with
    | (r, s') => (r, set_support s' st)
    end.

(** [context.workspaceState.update(JAVA_LOMBOK_PATH, path)] *)
Definition updateLombokCache (p : string) : Exec State unit :=
  inSupport (modify (fun s =>
    set_workspaceState (<[JAVA_LOMBOK_PATH := p]> (workspaceState s)) s)).

Definition isLombokImported (st : State) : bool :=
  match projectLombokPath st with Some _ => true | None => false end.

Definition isLombokActive (st : State) : bool :=
  match activeLombokPath (support st) with Some _ => true | None => false end.

(** [s.split('.jar')[0].split('-')[1]] inside a template literal. *)
Definition versionTag (s : string) : string :=
  interpolate (nth_error (Js.split "-" (hd "" (Js.split ".jar" s))) 1).

Definition tab : string := String (ascii_of_nat 9) EmptyString.

Section Project.
Variable h : Host.

(** The local variables of [checkLombokDependency] that the loops set. *)
Record Scan : Type := {
  versionChange : bool;
  lombokFound : bool;
  currentLombokVersion : option string;
  previousLombokVersion : option string;
  currentLombokClasspath : option string;
}.

(** Their values before the loops. *)
Definition initialScan : Scan :=
  {| versionChange := false; lombokFound := false;
     currentLombokVersion := None; previousLombokVersion := None;
     currentLombokClasspath := None |}.

(** The inner loop, over the classpaths of one project; it stops at the
    first classpath that matches the jar pattern. *)
Fixpoint classpathLoop (classpaths : list string) (v : Scan)
  : Exec State Scan :=
  match classpaths with
  | [] => ret v
  | classpath :: rest =>
      if Js.test lombokJarRegex classpath then
        let! active := gets (fun st => activeLombokPath (support st)) in
        let! extension := gets (fun st => isExtensionLombok (support st)) in
        if Js.truthy active && negb extension then
          let! current := inSupport (lombokPath2Version (Some classpath)) in
          let! previous := inSupport (lombokPath2Version active) in
          ret {| versionChange :=
                   if String.eqb current previous then versionChange v
                   else true;
                 lombokFound := true;
                 currentLombokVersion := Some current;
                 previousLombokVersion := Some previous;
                 currentLombokClasspath := Some classpath |}
        else
          ret {| versionChange := versionChange v;
                 lombokFound := true;
                 currentLombokVersion := currentLombokVersion v;
                 previousLombokVersion := previousLombokVersion v;
                 currentLombokClasspath := Some classpath |}
      else classpathLoop rest v
  end.

(** The outer loop, over the projects. *)
Fixpoint projectLoop (projectUris : list string) (v : Scan)
  : Exec State Scan :=
  match projectUris with
  | [] => ret v
  | projectUri :: rest =>
      let! v := classpathLoop (getClasspaths h projectUri) v in
      if lombokFound v then ret v else projectLoop rest v
  end.

Definition checkLombokDependency (projectUri : option string)
  : Exec State unit :=
  if negb (lombokSupportEnabled h) then ret tt
  else
    let projectUris :=
      match projectUri with
      | Some uri => [uri]
      | None => getAllJavaProjects h
      end in
    let! v := projectLoop projectUris initialScan in
    do! modify (set_projectLombokPath (currentLombokClasspath v)) in
    let! initialized := gets isLombokStatusBarInitialized in
    let! project := gets projectLombokPath in
    do! (if negb initialized && Js.truthy project then
           let! command := gets isLombokCommandInitialized in
           do! (if negb command then
                  do! registerLombokConfigureCommand in
                  modify (set_commandInitialized true)
                else ret tt) in
           do! callStatusBar initializeLombokStatusBar in
           modify (set_statusBarInitialized true)
         else ret tt) in
    let! initialized := gets isLombokStatusBarInitialized in
    let! project := gets projectLombokPath in
    do! (if initialized && negb (Js.truthy project) then
           do! callStatusBar destroyLombokStatusBar in
           do! modify (set_statusBarInitialized false) in
           inSupport cleanupLombokCache
         else ret tt) in
    let! extension := gets (fun st => isExtensionLombok (support st)) in
    if versionChange v && negb extension then
      match currentLombokClasspath v, previousLombokVersion v,
            currentLombokVersion v with
      | Some classpath, Some previous, Some current =>
          do! updateLombokCache classpath in
          showInformationMessage
            ("Lombok version changed from " +:+ versionTag previous +:+
             " to " +:+ versionTag current +:+ " " +:+
             tab +:+ tab +:+ tab +:+ tab +:+ tab +:+ tab +:+
             ". Do you want to reload the window to load the new Lombok version?")
            (Some "Reload")
      | _, _, _ =>
          throw "TypeError: Cannot read properties of undefined (reading 'split')"
      end
    else ret tt.

(** The handler registered for [Commands.LOMBOK_CONFIGURE]. *)
Definition extensionItemLabel : string := "Use Extension's Version".
Definition extensionItemLabelCheck : string := "• " +:+ extensionItemLabel.
Definition projectItemLabel : string := "Use Project's Version".
Definition projectItemLabelCheck : string := "• " +:+ projectItemLabel.

Definition reloadPrompt : Exec State unit :=
  showInformationMessage
    "The Lombok version used in Java extension has changed, please reload the window."
    (Some "Reload").

(** The array [lombokPathItems] of the handler. *)
Definition lombokPathItems (extension : bool)
  (extensionVersion projectVersion : string) (project : option string)
  : list QuickPickItem :=
  [ {| label := if extension then extensionItemLabelCheck
                else extensionItemLabel;
       description := extensionVersion;
       detail := None |};
    {| label := if extension then projectItemLabel
                else projectItemLabelCheck;
       description := projectVersion;
       detail := project |} ].

Definition configureLombok : Exec State unit :=
  let! extensionLombokPath := inSupport (getExtensionLombokPath (files h)) in
  let! project := gets projectLombokPath in
  if negb (Js.truthy extensionLombokPath) || negb (Js.truthy project)
  then ret tt
  else
    let! extension := gets (fun st => isExtensionLombok (support st)) in
    let! extensionVersion :=
      inSupport (lombokPath2Version extensionLombokPath) in
    let! projectVersion := inSupport (lombokPath2Version project) in
    match showQuickPick h
            (lombokPathItems extension extensionVersion projectVersion project)
    with
    | None => ret tt
    | Some selectLombokPathItem =>
        if String.eqb (label selectLombokPathItem) extensionItemLabel
           || String.eqb (label selectLombokPathItem) extensionItemLabelCheck
        then
          if negb extension then
            do! inSupport cleanupLombokCache in
            reloadPrompt
          else
            showInformationMessage
              "Current Lombok version is extension's version. Nothing to do."
              None
        else if extension then
          let! projectLombokVersion :=
            inSupport (lombokPath2VersionNumber project) in
          let! compatible :=
            inSupport (isCompatibleLombokVersion (files h) projectLombokVersion) in
          if negb compatible then
            inSupport (showWarningMessage
              ("The project's Lombok version " +:+ projectLombokVersion +:+
               " is not supported. Falling back to the built-in Lombok version in the extension."))
          else
            match project with
            | Some p =>
                do! updateLombokCache p in
                reloadPrompt
            | None => ret tt
            end
        else
          showInformationMessage
            "Current Lombok version is project's version. Nothing to do."
            None
    end.

End Project.

(** *** Notions used to state the properties *)

Definition projectsOf (h : Host) (projectUri : option string) : list string :=
  match projectUri with
  | Some uri => [uri]
  | None => getAllJavaProjects h
  end.

(** The first classpath, in the order of the projects, that matches the
    jar pattern. *)
Definition firstLombokClasspath (h : Host) (projectUri : option string)
  : option string :=
  List.find (Js.test lombokJarRegex)
    (flat_map (getClasspaths h) (projectsOf h projectUri)).

(** What the two loops of [checkLombokDependency] leave in the local
    variables when the first matching classpath is [found], with the module
    variables of [st]: the completion [r] of the loops. *)
Definition scanned (st : State) (found : option string)
  (r : Completion Scan) : Prop :=
  match found with
  | None => r = Normal initialScan
  | Some classpath =>
      if Js.truthy (activeLombokPath (support st))
         && negb (isExtensionLombok (support st))
      then
        exists current,
          (forall s, lombokPath2Version (Some classpath) s = (Normal current, s)) /\
          ((exists previous,
              (forall s, lombokPath2Version (activeLombokPath (support st)) s
                         = (Normal previous, s)) /\
              r = Normal {| versionChange := negb (String.eqb current previous);
                            lombokFound := true;
                            currentLombokVersion := Some current;
                            previousLombokVersion := Some previous;
                            currentLombokClasspath := Some classpath |}) \/
           (exists e,
              (forall s, lombokPath2Version (activeLombokPath (support st)) s
                         = (Throw e, s)) /\
              r = Throw e))
      else
        r = Normal {| versionChange := false; lombokFound := true;
                      currentLombokVersion := None;
                      previousLombokVersion := None;
                      currentLombokClasspath := Some classpath |}
  end.

(** The status bar calls alternate, starting with an initialization; the
    value is whether the status bar is there after them. *)
Fixpoint statusBarAfter (shown : bool) (calls : list StatusBarCall)
  : option bool :=
  match calls with
  | [] => Some shown
  | initializeLombokStatusBar :: rest =>
      if shown then None else statusBarAfter true rest
  | destroyLombokStatusBar :: rest =>
      if shown then statusBarAfter false rest else None
  end.

(** The variables of the module fit together: the command is registered
    once, the status bar calls alternate and the status bar is there when
    the project has Lombok, whose classpath matches the jar pattern. *)
Definition consistent (st : State) : Prop :=
  registered st = (if isLombokCommandInitialized st then 1 else 0)%nat /\
  statusBarAfter false (statusBar st) = Some (isLombokStatusBarInitialized st) /\
  isLombokStatusBarInitialized st = isLombokImported st /\
  (isLombokStatusBarInitialized st = true ->
   isLombokCommandInitialized st = true) /\
  match projectLombokPath st with
  | Some p => Js.test lombokJarRegex p = true
  | None => True
  end.

(** What happens in a session, one after the other; each event comes with
    the host as it is then. *)
Inductive Event : Type :=
| Check (h : Host) (projectUri : option string)
| Configure (h : Host).

Definition happen (e : Event) (st : State) : State :=
  match e with
  | Check h projectUri => snd (checkLombokDependency h projectUri st)
  | Configure h => snd (configureLombok h st)
  end.

Definition replay (events : list Event) (st : State) : State :=
  fold_left (fun st e => happen e st) events st.

(** The module as it is when the extension starts, with the state [s] of
    the first part of the file. *)
Definition start (s : LombokSupport.State) : State :=
  {| support := s; projectLombokPath := None;
     isLombokStatusBarInitialized := false;
     isLombokCommandInitialized := false;
     statusBar := []; registered := 0;
     informationMessages := [] |}.

(** The state [addLombokParam] finds after a reload: the workspace store
    is kept, the module variables are new, [args] are the arguments. *)
Definition reloaded (st : State) (args : list string) : LombokSupport.State :=
  {| activeLombokPath := None;
     isExtensionLombok := false;
     workspaceState := workspaceState (support st);
     warningMessages := [];
     logged := [];
     params := args |}.

(** *** Example hosts *)

(** A workspace with one project, whose classpaths of scope test are
    [classpaths]; the user picks the entry [choice] of a quick pick. *)
Definition workspace (files : LombokSupport.Host) (classpaths : list string)
  (choice : nat) : Host :=
  {| files := files;
     lombokSupportEnabled := true;
     getAllJavaProjects := ["file:///ws/app"];
     getClasspaths := fun _ => classpaths;
     showQuickPick := fun items => nth_error items choice |}.

Definition projectJar : string := "/home/dev/.m2/lombok-1.18.30.jar".

(** The project has Lombok 1.18.30, which is on disk. *)
Definition withLombok (choice : nat) : Host :=
  workspace hostProjectCache ["/ws/app/target/classes"; projectJar] choice.

(** The project has no Lombok. *)
Definition withoutLombok : Host :=
  workspace hostProjectCache ["/ws/app/target/classes"] 0.

(** The first part of the module while the server runs with the jar
    [active]. *)
Definition running (active : string) (extension : bool)
  : LombokSupport.State :=
  {| activeLombokPath := Some active;
     isExtensionLombok := extension;
     workspaceState :=
       if extension then ∅ else {[ JAVA_LOMBOK_PATH := active ]};
     warningMessages := [];
     logged := ["Starting server with lombok support " +:+ active];
     params := ["-javaagent:" +:+ active] |}.

(** The server runs with Lombok 1.18.20 of the project. *)
Definition runningProject : State :=
  start (running "/home/dev/.m2/lombok-1.18.20.jar" false).

(** The server runs with the bundled jar. *)
Definition runningBundled : State := start (running bundled true).

(** The same after a first check of the project with Lombok 1.18.30. *)
Definition checkedProject : State :=
  replay [Check (withLombok 0) None] runningProject.

Definition checkedBundled : State :=
  replay [Check (withLombok 0) None] runningBundled.

End LombokProject.

(** ** Further notions *)

Module LombokNotions.
Import LombokSupport.

(** The supplied path of a run of [addLombokParam]: the cached one, or
    else the path of the last agent argument. *)
Definition supplied (st : State) : option string :=
  suppliedPath (workspaceState st !! JAVA_LOMBOK_PATH)
    (last (List.filter (Js.test reg) (params st))).

(** No cache entry; the agent argument of the user names Lombok 1.18.30,
    which is on disk. *)
Definition sessionUserAgent : State :=
  session None ["-Xmx1G"; "-javaagent:/usr/share/lombok-1.18.30.jar"].

(** No cache entry; two agent arguments of the user, the first for a
    Lombok 1.18.2 that is gone, the second for Lombok 1.18.30, which is on
    disk. *)
Definition sessionTwoAgents : State :=
  session None
    ["-javaagent:/old/lombok-1.18.2.jar"; "-Xmx1G";
     "-javaagent:/usr/share/lombok-1.18.30.jar"].

(** An extension without a bundled jar, on a machine without Lombok. *)
Definition hostNoBundle : Host :=
  {| existsSync := fun _ => false;
     lombokHome := "/ext/server";
     globSync := [];
     semver_gte := semverGte |}.

End LombokNotions.

(** * Properties *)

(** ** The stable sort *)

Section ArraySortFacts.
Context {A : Type} (key : A -> Z).

Lemma sort_insert_perm (x : A) (l : list A) :
  Permutation (sort_insert (byKey key) x l) (x :: l).
Proof.
  induction l as [|y l IH]; simpl; [reflexivity|].
  destruct (byKey key x y <=? 0); [reflexivity|].
  rewrite IH. apply perm_swap.
Qed.

Lemma array_sort_perm (l : list A) : Permutation (array_sort (byKey key) l) l.
Proof.
  induction l as [|x l IH]; simpl; [reflexivity|].
  rewrite sort_insert_perm. now rewrite IH.
Qed.

Lemma sort_insert_sorted (x : A) (l : list A) :
  StronglySorted (fun a b => key a <= key b) l ->
  StronglySorted (fun a b => key a <= key b) (sort_insert (byKey key) x l).
Proof.
  induction 1 as [|y l Hs IH Hy]; simpl.
  - repeat constructor.
  - unfold byKey at 1. destruct (Z.leb_spec (key x - key y) 0) as [Hle|Hgt].
    + constructor; [now constructor|].
      constructor; [lia|].
      eapply Forall_impl; [exact Hy|]. simpl. intros; lia.
    + constructor; [exact IH|].
      rewrite sort_insert_perm. constructor; [lia | exact Hy].
Qed.

Lemma array_sort_sorted (l : list A) :
  StronglySorted (fun a b => key a <= key b) (array_sort (byKey key) l).
Proof.
  induction l as [|x l IH]; simpl; [constructor|].
  now apply sort_insert_sorted.
Qed.

(** Stability: the elements of one key keep their order. *)
Lemma sort_insert_stable (k : Z) (x : A) (l : list A) :
  List.filter (fun a => key a =? k) (sort_insert (byKey key) x l)
  = List.filter (fun a => key a =? k) (x :: l).
Proof.
  induction l as [|y l IH]; [reflexivity|].
  cbn [sort_insert]. unfold byKey at 1.
  destruct (Z.leb_spec (key x - key y) 0) as [Hle|Hgt]; [reflexivity|].
  cbn [List.filter] in *. rewrite IH.
  destruct (Z.eqb_spec (key y) k) as [Hy|Hy];
    destruct (Z.eqb_spec (key x) k) as [Hx|Hx]; try reflexivity.
  lia.
Qed.

Lemma array_sort_stable (k : Z) (l : list A) :
  List.filter (fun a => key a =? k) (array_sort (byKey key) l)
  = List.filter (fun a => key a =? k) l.
Proof.
  induction l as [|x l IH]; [reflexivity|].
  cbn [array_sort foldr]. fold (array_sort (byKey key) l).
  rewrite sort_insert_stable. cbn [List.filter]. now rewrite IH.
Qed.

(** The first element after sorting is the first one of least key. *)
Lemma array_sort_head (l : list A) (x : A) (t : list A) :
  array_sort (byKey key) l = x :: t ->
  exists pre post,
    l = pre ++ x :: post /\
    Forall (fun y => key x < key y) pre /\
    Forall (fun y => key x <= key y) post.
Proof.
  revert x t. induction l as [|a l IH]; intros x t Hs; [discriminate|].
  cbn [array_sort foldr] in Hs. fold (array_sort (byKey key) l) in Hs.
  destruct (array_sort (byKey key) l) as [|y t'] eqn:Hl.
  - assert (l = []) as ->.
    { apply Permutation_nil. rewrite <- Hl. apply array_sort_perm. }
    simpl in Hs. injection Hs as <- <-.
    exists [], []. repeat split; constructor.
  - destruct (IH y t' eq_refl) as (pre & post & -> & Hpre & Hpost).
    cbn [sort_insert] in Hs. unfold byKey at 1 in Hs.
    destruct (Z.leb_spec (key a - key y) 0) as [Hle|Hgt].
    + injection Hs as <- <-.
      exists [], (pre ++ y :: post). repeat split; [constructor|].
      apply Forall_app. split; [|constructor].
      * eapply Forall_impl; [exact Hpre|]. simpl; intros; lia.
      * lia.
      * eapply Forall_impl; [exact Hpost|]. simpl; intros; lia.
    + injection Hs as <- <-.
      exists (a :: pre), post. repeat split; [|exact Hpost].
      constructor; [lia | exact Hpre].
Qed.

(** A comparator that agrees with [byKey] on the elements of the list sorts
    it the same way. *)
Lemma sort_insert_ext (cmp : A -> A -> Z) (x : A) (l : list A) :
  Forall (fun y => cmp x y = byKey key x y) l ->
  sort_insert cmp x l = sort_insert (byKey key) x l.
Proof.
  induction 1 as [|y l Hy Hl IH]; [reflexivity|].
  cbn [sort_insert]. rewrite Hy, IH. reflexivity.
Qed.

Lemma array_sort_ext (cmp : A -> A -> Z) (l : list A) :
  (forall x y, In x l -> In y l -> cmp x y = byKey key x y) ->
  array_sort cmp l = array_sort (byKey key) l.
Proof.
  induction l as [|x l IH]; intros H; [reflexivity|].
  cbn [array_sort foldr]. fold (array_sort cmp l) (array_sort (byKey key) l).
  rewrite IH by (intros; apply H; now right).
  apply sort_insert_ext. apply List.Forall_forall. intros y Hy.
  apply H; [now left|]. right.
  eapply Permutation_in; [apply array_sort_perm|exact Hy].
Qed.

End ArraySortFacts.

(** ** The JDK resolver *)

Module RequirementsFacts.
Import JdkUtils Requirements.

Lemma map_array_sort {A B : Type} (f : A -> B) (key : B -> Z) (l : list A) :
  array_sort (byKey key) (map f l) = map f (array_sort (byKey (fun a => key (f a))) l).
Proof.
  induction l as [|x l IH]; [reflexivity|].
  cbn [map array_sort foldr].
  fold (array_sort (byKey key) (map f l)).
  fold (array_sort (byKey (fun a => key (f a))) l).
  rewrite IH. generalize (array_sort (byKey (fun a => key (f a))) l) as s.
  induction s as [|y s IHs]; [reflexivity|].
  cbn [map sort_insert]. unfold byKey at 1 3.
  destruct (key (f x) - key (f y) <=? 0); [reflexivity|].
  cbn [map]. now rewrite IHs.
Qed.

Lemma ranking_steps (l : list IJavaRuntime) :
  map (defaultRank (Z.of_nat (length sourceOrder)))
    (fold_left (fun js e => map (assignRank (fst e) (snd e)) js)
       (entries sourceOrder) l)
  = map withRank l.
Proof.
  change (entries sourceOrder)
    with [(0, "JDK_HOME"); (1, "JAVA_HOME"); (2, "PATH")].
  change (Z.of_nat (length sourceOrder)) with 3.
  cbn [fold_left fst snd].
  rewrite !map_map. apply map_ext. intros r.
  unfold withRank, originRank, sourceRank, assignRank, defaultRank.
  destruct r as [hd v src [k|]]; cbn [rank getSources sources]; [reflexivity|].
  destruct (Js.array_includes "JDK_HOME" src);
    cbn [rank set_rank getSources sources]; [reflexivity|].
  destruct (Js.array_includes "JAVA_HOME" src);
    cbn [rank set_rank getSources sources]; [reflexivity|].
  destruct (Js.array_includes "PATH" src);
    cbn [rank set_rank getSources sources]; reflexivity.
Qed.

Lemma sortJdksBySource_spec (l : list IJavaRuntime) :
  sortJdksBySource l = map withRank (array_sort (byKey originRank) l).
Proof.
  unfold sortJdksBySource. rewrite ranking_steps.
  rewrite <- (map_array_sort withRank
                (fun r => match rank r with Some k => k | None => 0 end)).
  apply array_sort_ext. intros x y Hx Hy.
  apply in_map_iff in Hx as (x0 & <- & _).
  apply in_map_iff in Hy as (y0 & <- & _).
  reflexivity.
Qed.

Lemma sortJdksByVersion_spec (l : list IJavaRuntime) :
  sortJdksByVersion l = array_sort (byKey (fun r => - majorOr0 r)) l.
Proof.
  apply array_sort_ext. intros x y _ _. unfold byVersion, byKey. lia.
Qed.

Lemma filter_filter_andb {A : Type} (f g : A -> bool) (l : list A) :
  List.filter f (List.filter g l) = List.filter (fun x => g x && f x) l.
Proof.
  induction l as [|x l IH]; [reflexivity|].
  cbn [List.filter]. destruct (g x); cbn [List.filter andb]; rewrite IH; reflexivity.
Qed.

Lemma filter_sorted {A : Type} (R : A -> A -> Prop) (f : A -> bool) (l : list A) :
  StronglySorted R l -> StronglySorted R (List.filter f l).
Proof.
  induction 1 as [|x l Hs IH Hx]; cbn [List.filter]; [constructor|].
  destruct (f x); [|exact IH].
  constructor; [exact IH|].
  apply List.Forall_forall. intros y Hy. apply filter_In in Hy as [Hy _].
  revert y Hy. now apply List.Forall_forall.
Qed.

Lemma sorted_after {A : Type} (R : A -> A -> Prop) (pre post : list A) (x : A) :
  StronglySorted R (pre ++ x :: post) -> Forall (R x) post.
Proof.
  induction pre as [|y pre IH]; cbn [app]; intros Hs.
  - now inversion Hs.
  - inversion Hs; subst. now apply IH.
Qed.

Lemma tooling_choice (required : Z) (l : list IJavaRuntime)
  (x : IJavaRuntime) (t : list IJavaRuntime) :
  sortJdksBySource (List.filter (meetsMinimum required) (sortJdksByVersion l))
  = x :: t ->
  exists c,
    x = withRank c /\ In c l /\ meetsMinimum required c = true /\
    (forall q, In q l -> meetsMinimum required q = true ->
       originRank c <= originRank q /\
       (originRank q = originRank c -> majorOr0 q <= majorOr0 c)) /\
    hd_error
      (List.filter
         (fun q => meetsMinimum required q
                   && (originRank q =? originRank c)
                   && (majorOr0 q =? majorOr0 c)) l) = Some c.
Proof.
  rewrite sortJdksBySource_spec, sortJdksByVersion_spec.
  set (byMajor := fun r : IJavaRuntime => - majorOr0 r).
  set (l1 := array_sort (byKey byMajor) l).
  set (l2 := List.filter (meetsMinimum required) l1).
  intros Hhead.
  destruct (array_sort (byKey originRank) l2) as [|c s] eqn:Hs; [discriminate|].
  cbn [map] in Hhead. injection Hhead as <- _.
  apply array_sort_head in Hs as (pre & post & Hl2 & Hpre & Hpost).
  assert (Hperm : forall q, In q l1 <-> In q l).
  { intros q. split; apply Permutation_in;
      [|symmetry]; apply array_sort_perm. }
  assert (Hin2 : forall q, In q l2 <-> In q l /\ meetsMinimum required q = true).
  { intros q. unfold l2. rewrite filter_In, Hperm. reflexivity. }
  assert (Hc : In c l2) by (rewrite Hl2; apply in_elt).
  assert (Hsorted : Forall (fun y => byMajor c <= byMajor y) post).
  { apply (sorted_after (fun a b => byMajor a <= byMajor b) pre).
    rewrite <- Hl2. unfold l2.
    apply filter_sorted. apply array_sort_sorted. }
  exists c. split; [reflexivity|].
  apply Hin2 in Hc as Hc'. destruct Hc' as [Hcl Hcv].
  repeat split; try assumption.
  - assert (In q l2) as Hq by (apply Hin2; auto).
    rewrite Hl2 in Hq. apply in_app_or in Hq as [Hq|[<-|Hq]].
    + rewrite List.Forall_forall in Hpre. specialize (Hpre _ Hq). lia.
    + lia.
    + rewrite List.Forall_forall in Hpost. now apply Hpost.
  - intros Heq. assert (In q l2) as Hq by (apply Hin2; auto).
    rewrite Hl2 in Hq. apply in_app_or in Hq as [Hq|[<-|Hq]].
    + rewrite List.Forall_forall in Hpre. specialize (Hpre _ Hq). lia.
    + lia.
    + rewrite List.Forall_forall in Hsorted. specialize (Hsorted _ Hq).
      unfold byMajor in Hsorted. lia.
  - transitivity
      (hd_error
         (List.filter (fun q => (originRank q =? originRank c)
                                && meetsMinimum required q)
            (List.filter (fun q => byMajor q =? byMajor c) l))).
    { rewrite filter_filter_andb. f_equal. apply filter_ext. intros q.
      unfold byMajor.
      destruct (meetsMinimum required q), (originRank q =? originRank c);
        cbn [andb]; rewrite ?andb_true_r, ?andb_false_r; try reflexivity.
      destruct (Z.eqb_spec (majorOr0 q) (majorOr0 c)),
        (Z.eqb_spec (- majorOr0 q) (- majorOr0 c)); try reflexivity; lia. }
    rewrite <- (array_sort_stable byMajor (byMajor c) l). fold l1.
    rewrite filter_filter_andb.
    transitivity
      (hd_error
         (List.filter (fun q => (byMajor q =? byMajor c)
                                && (originRank q =? originRank c)) l2)).
    { unfold l2. rewrite filter_filter_andb. f_equal. apply filter_ext.
      intros q. destruct (meetsMinimum required q), (byMajor q =? byMajor c),
        (originRank q =? originRank c); reflexivity. }
    rewrite Hl2, List.filter_app.
    replace (List.filter _ pre) with (@nil IJavaRuntime).
    + cbn [app List.filter]. rewrite !Z.eqb_refl. reflexivity.
    + symmetry. clear -Hpre. induction Hpre as [|y pre Hy _ IH]; [reflexivity|].
      cbn [List.filter]. rewrite <- IH.
      destruct (Z.eqb_spec (originRank y) (originRank c)); [lia|].
      now rewrite andb_false_r.
Qed.

Lemma mayReject_refl P st : mayReject P st st.
Proof. now left. Qed.

Lemma mayReject_weaken (P Q : ErrorData -> Prop) st st' :
  (forall e, P e -> Q e) -> mayReject P st st' -> mayReject Q st st'.
Proof.
  intros HPQ [H|(H & e & He & H')]; [now left|right].
  split; [exact H|]. exists e. auto.
Qed.

Lemma mayReject_trans P st1 st2 st3 :
  mayReject P st1 st2 -> mayReject P st2 st3 -> mayReject P st1 st3.
Proof.
  intros [H12|(H1 & e & He & H2)] [H23|(H2' & e' & He' & H3)].
  - left. congruence.
  - right. split; [congruence|]. exists e'. auto.
  - right. split; [exact H1|]. exists e. split; [exact He|congruence].
  - congruence.
Qed.

Lemma reject_mayReject (P : ErrorData -> Prop) e st :
  P e -> exists st', reject e st = (Normal tt, st') /\ mayReject P st st'.
Proof.
  intros He. eexists. split; [reflexivity|].
  unfold mayReject, settle. cbn [promise].
  destruct (promise st); [right|left|left]; eauto.
Qed.

Section ResolverFacts.
Variable h : Host.

Lemma checkConfiguredHome_runs (l : Locals) (st : State) :
  exists l' st',
    checkConfiguredHome h l st = (Normal l', st') /\
    mayReject isInvalidHome st st' /\
    ((toolingJre l' = toolingJre l /\ toolingJreVersion l' = toolingJreVersion l)
     \/ configuredSupplies h = true).
Proof.
  unfold configuredSupplies.
  unfold checkConfiguredHome.
  destruct (prefJavaHome h) as [configured|];
    [|exists l, st; split; [reflexivity|split; [apply mayReject_refl|now left]]].
  destruct (String.eqb configured "");
    [exists l, st; split; [reflexivity|split; [apply mayReject_refl|now left]]|].
  set (javaHome := expandHomeDir h configured).
  match goal with
  | |- context [bind ?c _] =>
      assert (exists st1, c st = (Normal tt, st1) /\ mayReject isInvalidHome st st1)
        as (st1 & Hc & Hst1)
  end.
  { destruct (negb (pathExists h javaHome)).
    - apply reject_mayReject. eexists; reflexivity.
    - destruct (negb (pathExists h _)).
      + apply reject_mayReject. eexists; reflexivity.
      + exists st. split; [reflexivity|apply mayReject_refl]. }
  unfold bind at 1. rewrite Hc.
  destruct (_ || _).
  - destruct (requiredJdkVersion h <=? _).
    + eexists _, st1. split; [reflexivity|split; [exact Hst1|now right]].
    + unfold bind, gets, ret.
      destruct (workspaceState st1 !! _) as [[|]|]; cbn [fst snd];
        (eexists _, _; split; [reflexivity|split; [exact Hst1|now left]]).
  - eexists _, st1. split; [reflexivity|split; [exact Hst1|now left]].
Qed.

Lemma checkConfiguredHome_skip (l : Locals) (st : State) :
  Js.truthy (prefJavaHome h) = false ->
  checkConfiguredHome h l st = (Normal l, st).
Proof.
  unfold checkConfiguredHome, Js.truthy.
  destruct (prefJavaHome h) as [configured|]; [|reflexivity].
  destruct (String.eqb configured ""); [reflexivity|discriminate].
Qed.

Lemma filterValid_filter (jdks : list IJavaRuntime) :
  Forall hasVersion jdks ->
  filterValid h jdks
  = Normal (List.filter (meetsMinimum (requiredJdkVersion h)) jdks).
Proof.
  induction 1 as [|r rest Hr _ IH]; [reflexivity|].
  cbn [filterValid List.filter]. rewrite IH.
  unfold meetsMinimum, majorOr0, hasVersion in *.
  destruct (version r); [reflexivity|contradiction].
Qed.

Lemma filterValid_normal (jdks valid : list IJavaRuntime) :
  filterValid h jdks = Normal valid ->
  Forall hasVersion jdks /\
  valid = List.filter (meetsMinimum (requiredJdkVersion h)) jdks.
Proof.
  revert valid. induction jdks as [|r rest IH]; intros valid Hf.
  - injection Hf as <-. split; [constructor|reflexivity].
  - cbn [filterValid] in Hf.
    destruct (version r) as [v|] eqn:Hv; [|discriminate].
    destruct (filterValid h rest) as [rest'|] eqn:Hrest; [|discriminate].
    destruct (IH _ eq_refl) as [Hall ->]. injection Hf as <-.
    split; [constructor; [unfold hasVersion; congruence|exact Hall]|].
    cbn [List.filter].
    replace (meetsMinimum (requiredJdkVersion h) r)
      with (requiredJdkVersion h <=? major v); [reflexivity|].
    unfold meetsMinimum, majorOr0. now rewrite Hv.
Qed.

Lemma filterValid_throws (jdks : list IJavaRuntime) (e : string) :
  filterValid h jdks = Throw e -> ~ Forall hasVersion jdks.
Proof.
  intros Ht Hall. rewrite (filterValid_filter _ Hall) in Ht. discriminate.
Qed.

Lemma sortJdksByVersion_hasVersion (jdks : list IJavaRuntime) :
  Forall hasVersion (sortJdksByVersion jdks) <-> Forall hasVersion jdks.
Proof.
  rewrite sortJdksByVersion_spec.
  split; apply Permutation_Forall; [|symmetry]; apply array_sort_perm.
Qed.

Lemma withRank_version (r : IJavaRuntime) : version (withRank r) = version r.
Proof. reflexivity. Qed.

(** The discovered-runtimes stage settles nothing but a download failure,
    and throws only on a runtime without a version. *)
Lemma pickRuntimes_runs (l : Locals) (st : State) :
  exists r st',
    pickRuntimes h l st = (r, st') /\
    mayReject (isDownload h) st st' /\
    (forall e, r = Throw e -> ~ Forall hasVersion (findRuntimes h)).
Proof.
  unfold pickRuntimes.
  destruct (negb (Js.truthy (toolingJre l))).
  - unfold bind, lift.
    destruct (filterValid h (sortJdksByVersion (findRuntimes h)))
      as [valid|e] eqn:Hf.
    + assert (Hvalid : Forall hasVersion valid).
      { apply filterValid_normal in Hf as [Hall ->].
        apply List.Forall_forall. intros q Hq. apply filter_In in Hq as [Hq _].
        rewrite List.Forall_forall in Hall. now apply Hall. }
      destruct valid as [|v0 valid']; [eexists _, st; split; [reflexivity|split; [apply mayReject_refl|discriminate]]|].
      set (valid := v0 :: valid') in *.
      rewrite sortJdksBySource_spec.
      destruct (array_sort (byKey originRank) valid) as [|c s] eqn:Hs.
      * apply (f_equal (@length _)) in Hs.
        rewrite (Permutation_length (array_sort_perm originRank valid)) in Hs.
        discriminate.
      * cbn [map]. rewrite withRank_version.
        assert (In c valid) as Hc.
        { eapply Permutation_in; [apply (array_sort_perm originRank)|].
          rewrite Hs. now left. }
        rewrite List.Forall_forall in Hvalid. specialize (Hvalid _ Hc).
        unfold hasVersion in Hvalid.
        destruct (version c); [|contradiction].
        eexists _, st. split; [reflexivity|split; [apply mayReject_refl|discriminate]].
    + exists (Throw e), st. split; [reflexivity|split; [apply mayReject_refl|]].
      intros _ _. apply filterValid_throws in Hf.
      now rewrite sortJdksByVersion_hasVersion in Hf.
  - destruct (Js.truthy (javaHome l)).
    + eexists _, _. split; [reflexivity|split; [left; reflexivity|discriminate]].
    + destruct (findRuntimes h) as [|r0 rs] eqn:Hfound.
      * destruct (Js.truthy (findDefaultRuntimeFromSettings h)).
        -- eexists _, _. split; [reflexivity|split; [left; reflexivity|discriminate]].
        -- unfold bind, openJDKDownload.
           match goal with
           | |- context [reject ?e st] =>
               destruct (reject_mayReject (isDownload h) e st) as (st' & -> & Hst');
                 [eexists; reflexivity|]
           end.
           eexists _, _. split; [reflexivity|split; [exact Hst'|discriminate]].
      * rewrite sortJdksBySource_spec.
        destruct (array_sort (byKey originRank) (r0 :: rs)) as [|c s] eqn:Hs.
        -- apply (f_equal (@length _)) in Hs.
           rewrite (Permutation_length (array_sort_perm originRank (r0 :: rs))) in Hs.
           discriminate.
        -- cbn [map].
           eexists _, _. split; [reflexivity|split; [left; reflexivity|discriminate]].
Qed.



Lemma sortJdksBySource_nil (jdks : list IJavaRuntime) :
  sortJdksBySource jdks = [] -> jdks = [].
Proof.
  rewrite sortJdksBySource_spec. intros Hs.
  apply (f_equal (@length _)) in Hs. rewrite length_map in Hs.
  rewrite (Permutation_length (array_sort_perm originRank jdks)) in Hs.
  now destruct jdks.
Qed.

(** The branch taken when no tooling runtime is known yet. *)
Lemma pickRuntimes_universal (l : Locals) (st : State) :
  Js.truthy (toolingJre l) = false ->
  Forall hasVersion (findRuntimes h) ->
  pickRuntimes h l st =
  (Normal
     match sortJdksBySource
             (List.filter (meetsMinimum (requiredJdkVersion h))
                (sortJdksByVersion (findRuntimes h))) with
     | first :: _ =>
         {| toolingJre := Some (homedir first);
            toolingJreVersion := majorOr0 first;
            javaHome := Some (homedir first);
            javaVersion := Some (majorOr0 first) |}
     | [] => l
     end, st).
Proof.
  intros Hl Hall. unfold pickRuntimes. rewrite Hl. cbn [negb].
  unfold bind, lift.
  rewrite filterValid_filter by now apply sortJdksByVersion_hasVersion.
  set (valid := List.filter _ _).
  assert (Hvalid : Forall hasVersion valid).
  { apply List.Forall_forall. intros q Hq. apply filter_In in Hq as [Hq _].
    apply sortJdksByVersion_hasVersion in Hall.
    rewrite List.Forall_forall in Hall. now apply Hall. }
  destruct (sortJdksBySource valid) as [|first rest] eqn:Hs.
  - apply sortJdksBySource_nil in Hs. now rewrite Hs.
  - destruct valid as [|v0 valid']; [discriminate|].
    assert (Hfirst : hasVersion first).
    { rewrite sortJdksBySource_spec in Hs.
      destruct (array_sort (byKey originRank) (v0 :: valid')) as [|c s] eqn:Hc;
        [discriminate|].
      injection Hs as <- _.
      rewrite List.Forall_forall in Hvalid. apply (Hvalid c).
      eapply Permutation_in; [apply (array_sort_perm originRank)|].
      rewrite Hc. now left. }
    unfold hasVersion, majorOr0 in *.
    destruct (version first); [reflexivity|contradiction].
Qed.

Lemma settleRequirements_runs (l : Locals) (st : State) :
  exists st',
    settleRequirements h l st = (Normal (resolved l), st') /\
    match promise st with
    | Pending =>
        if belowRequirement h l then exists e, isDownload h e /\ promise st' = Rejected e
        else promise st' = Fulfilled (resolved l)
    | p => promise st' = p
    end.
Proof.
  unfold settleRequirements, belowRequirement, bind, resolve, openJDKDownload, reject,
    modify, ret.
  destruct (_ || _); eexists; (split; [reflexivity|]);
    cbn [promise settle]; destruct (promise st); try reflexivity.
  eexists. split; [eexists; reflexivity|reflexivity].
Qed.

End ResolverFacts.

(** The configured home rejects the promise exactly when it has a defect,
    and then with the invalid-home error for that defect. *)
Lemma checkConfiguredHome_defect (h : Host) (l : Locals) (st : State) :
  exists l' st',
    checkConfiguredHome h l st = (Normal l', st') /\
    promise st' =
      match homeDefect h with
      | Some cause => promise (settle (Rejected (invalidHomeError cause)) st)
      | None => promise st
      end.
Proof.
  unfold checkConfiguredHome, homeDefect.
  destruct (prefJavaHome h) as [configured|]; [|eexists _, _; split; reflexivity].
  cbv zeta.
  destruct (String.eqb configured ""); [eexists _, _; split; reflexivity|].
  match goal with
  | |- context [bind ?c _] =>
      assert (exists st1,
                c st = (Normal tt, st1) /\
                workspaceState st1 = workspaceState st /\
                promise st1 =
                  match
                    (if negb (pathExists h (expandHomeDir h configured)) then
                       Some ("The " +:+
                             (preference h +:+
                              " variable defined in coc-settings.json") +:+
                             " points to a missing or inaccessible folder (" +:+
                             expandHomeDir h configured +:+ ")")
                     else if pathExists h
                               (path_resolve h
                                  [expandHomeDir h configured; "bin";
                                   JAVAC_FILENAME h])
                     then None
                     else if pathExists h
                               (path_resolve h
                                  [expandHomeDir h configured; JAVAC_FILENAME h])
                     then
                       Some ("'bin' should be removed from the " +:+
                             (preference h +:+
                              " variable defined in coc-settings.json") +:+
                             " (" +:+ expandHomeDir h configured +:+ ")")
                     else
                       Some ("The " +:+
                             (preference h +:+
                              " variable defined in coc-settings.json") +:+
                             " (" +:+ expandHomeDir h configured +:+
                             ") does not point to a JDK."))
                  with
                  | Some cause =>
                      promise (settle (Rejected (invalidHomeError cause)) st)
                  | None => promise st
                  end)
        as (st1 & Hc & Hw1 & Hp1)
  end.
  { destruct (pathExists h (expandHomeDir h configured)); cbn [negb].
    - destruct (pathExists h (path_resolve h [_; "bin"; _])); cbn [negb].
      + exists st. repeat split.
      + destruct (pathExists h (path_resolve h [_; _]));
          eexists; repeat split.
    - eexists. repeat split. }
  unfold bind at 1. rewrite Hc. rewrite <- Hp1.
  destruct (_ || _).
  - destruct (requiredJdkVersion h <=? _).
    + eexists _, _. split; reflexivity.
    + unfold bind, gets, ret.
      destruct (workspaceState st1 !! _) as [[|]|];
        eexists _, _; split; reflexivity.
  - eexists _, _. split; reflexivity.
Qed.

(** C1, amended.  [resolveRequirements] never resolves with a tooling JRE
    below the required version.  When the configured home is set and its
    folder is missing or holds no [bin/javac], the promise is rejected by
    [invalidJavaHome] with the cause of that defect (the "Open settings"
    action, or a message alone), and in no other case.  Otherwise the
    promise is fulfilled with a tooling JRE that is set and whose major
    version is at least the required one, or rejected with the download
    action; it stays pending only when a discovered runtime has no
    version. *)
Theorem resolveRequirements_outcome (h : Host) (ws : gmap string bool) :
  match homeDefect h with
  | Some cause =>
      resolveRequirements h ws = Rejected (invalidHomeError cause)
  | None =>
      match resolveRequirements h ws with
      | Fulfilled d =>
          Js.truthy (tooling_jre d) = true /\
          requiredJdkVersion h <= tooling_jre_version d
      | Rejected e => isDownload h e
      | Pending => ~ Forall hasVersion (findRuntimes h)
      end
  end.
Proof.
  unfold resolveRequirements, executor.
  set (l0 := {| toolingJre := _ |}).
  destruct (checkConfiguredHome_defect h l0 (initial ws))
    as (l1 & st1 & H1 & Hp1).
  destruct (pickRuntimes_runs h l1 st1) as (r2 & st2 & H2 & Hp2 & Hthrow).
  destruct (homeDefect h) as [cause|];
    unfold bind at 1; rewrite H1; unfold bind at 1; rewrite H2.
  - cbn [settle promise initial] in Hp1.
    assert (Hst2 : promise st2 = Rejected (invalidHomeError cause)).
    { destruct Hp2 as [Hp2|(Hp2 & _)]; congruence. }
    destruct r2 as [l2|e2]; [|exact Hst2].
    destruct (settleRequirements_runs h l2 st2) as (st3 & -> & Hp3).
    cbn [snd]. now rewrite Hst2 in Hp3.
  - cbn [promise initial] in Hp1.
    destruct r2 as [l2|e2].
    + destruct (settleRequirements_runs h l2 st2) as (st3 & -> & Hp3).
      cbn [snd].
      destruct Hp2 as [Hp2|(_ & e & He & Hp2)]; rewrite Hp2 in Hp3.
      * rewrite Hp1 in Hp3. unfold belowRequirement in Hp3.
        destruct (negb (Js.truthy (toolingJre l2))) eqn:Ht; cbn [orb] in Hp3.
        -- destruct Hp3 as (e & He & ->). exact He.
        -- destruct (Z.ltb_spec (toolingJreVersion l2) (requiredJdkVersion h)).
           ++ destruct Hp3 as (e & He & ->). exact He.
           ++ rewrite Hp3. cbn [resolved tooling_jre tooling_jre_version].
              split; [now apply negb_false_iff in Ht|lia].
      * rewrite Hp3. exact He.
    + cbn [snd]. destruct Hp2 as [Hp2|(_ & e & He & Hp2)]; rewrite Hp2.
      * rewrite Hp1. now apply (Hthrow e2).
      * exact He.
Qed.

Lemma executor_steps (h : Host) (st st1 st2 st3 : State) (l1 l2 : Locals)
  (d : RequirementsData) :
  checkConfiguredHome h (initialLocals h) st = (Normal l1, st1) ->
  pickRuntimes h l1 st1 = (Normal l2, st2) ->
  settleRequirements h l2 st2 = (Normal d, st3) ->
  executor h st = (Normal d, st3).
Proof.
  intros H1 H2 H3. unfold executor, bind.
  fold (initialLocals h). now rewrite H1, H2.
Qed.

Lemma valid_nonempty (h : Host) :
  Exists (fun r => meetsMinimum (requiredJdkVersion h) r = true) (findRuntimes h) ->
  sortJdksBySource
    (List.filter (meetsMinimum (requiredJdkVersion h))
       (sortJdksByVersion (findRuntimes h))) <> [].
Proof.
  intros Hex Hs. apply sortJdksBySource_nil in Hs.
  apply List.Exists_exists in Hex as (r & Hr & Hmin).
  assert (In r []) as [].
  rewrite <- Hs. apply filter_In. split; [|exact Hmin].
  eapply Permutation_in; [|exact Hr].
  rewrite sortJdksByVersion_spec. symmetry. apply array_sort_perm.
Qed.

(** With no tooling runtime from the download or the configured home, the
    first runtime of the sorted qualifying ones becomes the tooling
    runtime. *)
Lemma universal_resolution (h : Host) (ws : gmap string bool)
  (first : IJavaRuntime) (rest : list IJavaRuntime) :
  Js.truthy (checkAndDownloadJRE h) = false ->
  configuredSupplies h = false ->
  Forall hasVersion (findRuntimes h) ->
  sortJdksBySource
    (List.filter (meetsMinimum (requiredJdkVersion h))
       (sortJdksByVersion (findRuntimes h))) = first :: rest ->
  exists d,
    fst (executor h (initial ws)) = Normal d /\
    tooling_jre d = Some (homedir first) /\
    tooling_jre_version d = majorOr0 first /\
    (homedir first <> "" ->
     requiredJdkVersion h <= majorOr0 first ->
     resolveRequirements h ws = Fulfilled d \/
     exists e, isInvalidHome e /\ resolveRequirements h ws = Rejected e).
Proof.
  intros Hdl Hcfg Hall Hs.
  destruct (checkConfiguredHome_runs h (initialLocals h) (initial ws))
    as (l1 & st1 & H1 & Hp1 & Hl1).
  destruct Hl1 as [[Ht1 _]|Hsup]; [|congruence].
  assert (Hfalsy : Js.truthy (toolingJre l1) = false) by now rewrite Ht1.
  pose proof (pickRuntimes_universal h l1 st1 Hfalsy Hall) as H2.
  rewrite Hs in H2.
  set (l2 := {| toolingJre := _ |}) in H2.
  destruct (settleRequirements_runs h l2 st1) as (st3 & H3 & Hp3).
  pose proof (executor_steps h _ _ _ _ _ _ _ H1 H2 H3) as Hexec.
  exists (resolved l2). unfold resolveRequirements. rewrite Hexec.
  cbn [fst snd]. repeat split.
  intros Hhome Hmin.
  assert (Hbelow : belowRequirement h l2 = false).
  { unfold belowRequirement, l2. cbn [toolingJre toolingJreVersion Js.truthy].
    destruct (String.eqb_spec (homedir first) ""); [contradiction|].
    cbn [negb orb]. now apply Z.ltb_ge. }
  rewrite Hbelow in Hp3.
  destruct Hp1 as [Hp1|(_ & e & He & Hp1)]; rewrite Hp1 in Hp3.
  - left. exact Hp3.
  - right. exists e. split; [exact He|exact Hp3].
Qed.

(** C2, amended.  When neither the downloaded JRE nor the configured home
    supplies the tooling runtime, every discovered runtime has a version
    and one of them meets the minimum, the resolver takes, among the
    runtimes that meet the minimum, one of the least origin rank
    (JDK_HOME, JAVA_HOME, PATH, other), among those of that rank one of the
    highest major version, and among those the first discovered.  The
    promise is fulfilled with it unless [invalidJavaHome] rejected
    before. *)
Theorem tooling_runtime_by_rank_then_version (h : Host) (ws : gmap string bool) :
  Js.truthy (checkAndDownloadJRE h) = false ->
  configuredSupplies h = false ->
  Forall hasVersion (findRuntimes h) ->
  Exists (fun r => meetsMinimum (requiredJdkVersion h) r = true) (findRuntimes h) ->
  exists c d,
    In c (findRuntimes h) /\
    meetsMinimum (requiredJdkVersion h) c = true /\
    fst (executor h (initial ws)) = Normal d /\
    tooling_jre d = Some (homedir c) /\
    tooling_jre_version d = majorOr0 c /\
    (forall q, In q (findRuntimes h) ->
       meetsMinimum (requiredJdkVersion h) q = true ->
       originRank c <= originRank q /\
       (originRank q = originRank c -> majorOr0 q <= majorOr0 c)) /\
    hd_error
      (List.filter
         (fun q => meetsMinimum (requiredJdkVersion h) q
                   && (originRank q =? originRank c)
                   && (majorOr0 q =? majorOr0 c)) (findRuntimes h)) = Some c /\
    (homedir c <> "" ->
     resolveRequirements h ws = Fulfilled d \/
     exists e, isInvalidHome e /\ resolveRequirements h ws = Rejected e).
Proof.
  intros Hdl Hcfg Hall Hex.
  destruct (sortJdksBySource
              (List.filter (meetsMinimum (requiredJdkVersion h))
                 (sortJdksByVersion (findRuntimes h))))
    as [|first rest] eqn:Hs; [now apply valid_nonempty in Hs|].
  destruct (universal_resolution h ws first rest Hdl Hcfg Hall Hs)
    as (d & Hd & Htool & Hver & Hpromise).
  apply tooling_choice in Hs as (c & -> & Hc & Hmin & Hbest & Hfirst).
  exists c, d. repeat split; try assumption; try (now apply Hbest).
  intros Hhome. apply Hpromise; [exact Hhome|].
  now apply Z.leb_le.
Qed.

(** C5, amended.  Three candidates of one major version that is at least
    the required one, found through PATH, JAVA_HOME and JDK_HOME, in any
    discovery order: when neither the downloaded JRE nor the configured
    home supplies the tooling runtime, the resolver takes the candidate of
    JDK_HOME as the tooling runtime.  Both sorts are stable: runtimes of
    equal rank, and runtimes of equal version, keep their order. *)
Theorem jdk_home_candidate_preferred (h : Host) (ws : gmap string bool)
  (home1 home2 home3 jv1 jv2 jv3 : string) (v : Z) :
  Js.truthy (checkAndDownloadJRE h) = false ->
  configuredSupplies h = false ->
  requiredJdkVersion h <= v ->
  Permutation
    [candidate home1 jv1 v "PATH"; candidate home2 jv2 v "JAVA_HOME";
     candidate home3 jv3 v "JDK_HOME"]
    (findRuntimes h) ->
  (exists d,
     fst (executor h (initial ws)) = Normal d /\
     tooling_jre d = Some home3 /\
     tooling_jre_version d = v /\
     (home3 <> "" ->
      resolveRequirements h ws = Fulfilled d \/
      exists e, isInvalidHome e /\ resolveRequirements h ws = Rejected e)) /\
  (forall (jdks : list IJavaRuntime) (k : Z),
     List.filter (fun r => originRank r =? k) (sortJdksBySource jdks)
     = map withRank (List.filter (fun r => originRank r =? k) jdks)) /\
  (forall (jdks : list IJavaRuntime) (k : Z),
     List.filter (fun r => majorOr0 r =? k) (sortJdksByVersion jdks)
     = List.filter (fun r => majorOr0 r =? k) jdks).
Proof.
  intros Hdl Hcfg Hv Hperm.
  set (a := candidate home1 jv1 v "PATH") in *.
  set (b := candidate home2 jv2 v "JAVA_HOME") in *.
  set (c := candidate home3 jv3 v "JDK_HOME") in *.
  assert (Hin : forall q, In q (findRuntimes h) <-> q = a \/ q = b \/ q = c).
  { intros q. split.
    - intros Hq. apply (Permutation_in _ (Permutation_sym Hperm)) in Hq.
      cbn [In] in Hq. intuition auto.
    - intros Hq. apply (Permutation_in _ Hperm). cbn [In]. intuition auto. }
  split; [|split].
  - assert (Hall : Forall hasVersion (findRuntimes h)).
    { apply List.Forall_forall. intros q Hq. apply Hin in Hq.
      destruct Hq as [-> | [-> | ->]]; discriminate. }
    assert (Hc : meetsMinimum (requiredJdkVersion h) c = true)
      by now apply Z.leb_le.
    destruct (sortJdksBySource
                (List.filter (meetsMinimum (requiredJdkVersion h))
                   (sortJdksByVersion (findRuntimes h))))
      as [|first rest] eqn:Hs.
    { apply valid_nonempty in Hs; [contradiction|].
      apply List.Exists_exists. exists c. split; [|exact Hc].
      apply Hin. auto. }
    destruct (universal_resolution h ws first rest Hdl Hcfg Hall Hs)
      as (d & Hd & Htool & Hver & Hpromise).
    apply tooling_choice in Hs as (c0 & -> & Hc0 & _ & Hbest & _).
    assert (c0 = c) as ->.
    { destruct (Hbest c) as [Hrank _]; [apply Hin; auto|exact Hc|].
      apply Hin in Hc0. destruct Hc0 as [-> | [-> | ->]];
        [vm_compute in Hrank; now destruct Hrank
        |vm_compute in Hrank; now destruct Hrank
        |reflexivity]. }
    exists d. repeat split; try assumption.
    intros Hhome. apply Hpromise; assumption.
  - intros jdks k. rewrite sortJdksBySource_spec.
    rewrite <- (array_sort_stable originRank k jdks).
    generalize (array_sort (byKey originRank) jdks) as s.
    induction s as [|x s IH]; [reflexivity|].
    cbn [map List.filter].
    change (originRank (withRank x)) with (originRank x).
    destruct (originRank x =? k); cbn [map]; now rewrite IH.
  - intros jdks k. rewrite sortJdksByVersion_spec.
    assert (Hext : forall l, List.filter (fun r => majorOr0 r =? k) l
                        = List.filter (fun r => - majorOr0 r =? - k) l).
    { intros l. apply filter_ext. intros r.
      destruct (Z.eqb_spec (majorOr0 r) k), (Z.eqb_spec (- majorOr0 r) (- k));
        try reflexivity; lia. }
    rewrite !Hext.
    apply (array_sort_stable (fun r => - majorOr0 r) (- k) jdks).
Qed.

Lemma dropDigits_length (s : string) :
  (String.length (dropDigits s) <= String.length s)%nat.
Proof.
  induction s as [|c s IH]; cbn [dropDigits String.length]; [lia|].
  destruct (Js.is_digit c); cbn [String.length]; lia.
Qed.

Lemma star_digits (fuel : nat) (s : string) :
  (String.length s < fuel)%nat ->
  Js.star_iter (Js.bt (Js.Chr Js.is_digit)) (fun rest => Some rest) fuel s
  = Some (dropDigits s).
Proof.
  revert s. induction fuel as [|fuel IH]; intros s Hlen; [lia|].
  cbn [Js.star_iter Js.bt].
  destruct s as [|c s]; [reflexivity|].
  cbn [dropDigits]. destruct (Js.is_digit c); [|reflexivity].
  cbn [String.length] in *.
  replace (String.length s <? S (String.length s))%nat with true
    by (symmetry; apply Nat.ltb_lt; lia).
  rewrite IH by lia. reflexivity.
Qed.

Lemma prefix_takeDigits (s : string) :
  String.substring 0 (String.length s - String.length (dropDigits s)) s
  = takeDigits s.
Proof.
  induction s as [|c s IH]; [reflexivity|].
  cbn [dropDigits takeDigits]. destruct (Js.is_digit c).
  - pose proof (dropDigits_length s).
    replace (String.length (String c s) - String.length (dropDigits s))%nat
      with (S (String.length s - String.length (dropDigits s)))
      by (cbn [String.length]; lia).
    cbn [String.substring]. now rewrite IH.
  - rewrite Nat.sub_diag. reflexivity.
Qed.

Lemma match_here_digits (s : string) :
  Js.match_here digits s =
  match s with
  | String c _ => if Js.is_digit c then Some (takeDigits s) else None
  | EmptyString => None
  end.
Proof.
  unfold Js.match_here, digits, Js.Plus. cbn [Js.bt].
  destruct s as [|c s]; [reflexivity|].
  destruct (Js.is_digit c) eqn:Hc; [|reflexivity].
  rewrite star_digits by lia.
  pose proof (prefix_takeDigits (String c s)) as Hp.
  cbn [dropDigits] in Hp. rewrite Hc in Hp. now rewrite Hp.
Qed.

Lemma parseInt_go_takeDigits (acc : Z) (s : string) :
  Js.parseInt_go acc (takeDigits s) = Js.parseInt_go acc s.
Proof.
  revert acc. induction s as [|c s IH]; intros acc; [reflexivity|].
  cbn [takeDigits]. destruct (Js.is_digit c) eqn:Hc.
  - cbn [Js.parseInt_go]. rewrite Hc. apply IH.
  - cbn [Js.parseInt_go]. now rewrite Hc.
Qed.

Lemma first_match_value (s : string) :
  match Js.exec digits s with
  | Some m => match Js.parseInt m with Some n => n | None => 0 end
  | None => 0
  end = firstInteger s.
Proof.
  induction s as [|c s IH]; [reflexivity|].
  cbn [Js.exec firstInteger]. rewrite match_here_digits.
  destruct (Js.is_digit c) eqn:Hc; [|exact IH].
  cbn [takeDigits]. rewrite Hc. unfold Js.parseInt. rewrite Hc.
  rewrite <- (parseInt_go_takeDigits 0 (String c s)).
  cbn [takeDigits]. now rewrite Hc.
Qed.

(** C9.  [parseMajorVersion] gives 8 for 1.8.0_292, 17 for 17.0.2, and 0
    for the empty string and for bogus; a version that starts with the
    legacy prefix 1. gives the first integer of what follows the prefix,
    any other version its own first integer. *)
Theorem parseMajorVersion_values :
  parseMajorVersion "1.8.0_292" = 8 /\
  parseMajorVersion "17.0.2" = 17 /\
  parseMajorVersion "" = 0 /\
  parseMajorVersion "bogus" = 0 /\
  (forall rest, parseMajorVersion ("1." +:+ rest) = firstInteger rest) /\
  (forall version, Js.startsWith "1." version = false ->
                   parseMajorVersion version = firstInteger version).
Proof.
  repeat split; try reflexivity.
  - intros rest. unfold parseMajorVersion.
    replace (Js.startsWith "1." ("1." +:+ rest)) with true
      by (destruct rest; reflexivity).
    apply first_match_value.
  - intros version Hlegacy. unfold parseMajorVersion. rewrite Hlegacy.
    destruct version as [|c version]; [reflexivity|].
    cbn [String.eqb]. apply first_match_value.
Qed.

Lemma runtimesLoop_last (h : Host) (candidate : option string)
  (runtimes : list (option RuntimeEntry)) :
  runtimesLoop h candidate runtimes =
  match last (omap (probedHome h) (visited runtimes)) with
  | Some home => Some home
  | None => candidate
  end.
Proof.
  revert candidate.
  induction runtimes as [|[runtime|] rest IH]; intros candidate;
    cbn [runtimesLoop visited]; [reflexivity| |apply IH].
  unfold Js.truthy. destruct (path runtime) as [p|] eqn:Hp; [|apply IH].
  destruct (String.eqb p ""); cbn [negb]; [apply IH|].
  destruct (default runtime).
  - cbn [omap list_omap]. unfold probedHome at 1. rewrite Hp.
    destruct (getRuntime h p); reflexivity.
  - rewrite IH. cbn [omap list_omap]. unfold probedHome at 2. rewrite Hp.
    destruct (getRuntime h p) as [jr|]; cbn [option_map]; [|reflexivity].
    rewrite last_cons. destruct (last _); reflexivity.
Qed.

(** C4, amended.  [findDefaultRuntimeFromSettings] looks at the entries
    that have a path, up to and including the first one marked default,
    and returns the home of the last of them whose path is a runtime: the
    entry marked default when its path is a runtime, and without a default
    entry the last declared runtime, not the first.  When the default
    project JDK falls through to the settings (a tooling JRE, no configured
    home, nothing discovered), that value is the [java_home] of the
    result. *)
Theorem default_runtime_from_settings (h : Host) :
  findDefaultRuntimeFromSettings h =
    match configurationRuntimes h with
    | Some runtimes => last (omap (probedHome h) (visited runtimes))
    | None => None
    end /\
  (forall ws : gmap string bool,
     Js.truthy (checkAndDownloadJRE h) = true ->
     Js.truthy (prefJavaHome h) = false ->
     findRuntimes h = [] ->
     exists d,
       fst (executor h (initial ws)) = Normal d /\
       java_home d = findDefaultRuntimeFromSettings h).
Proof.
  split.
  - unfold findDefaultRuntimeFromSettings.
    destruct (configurationRuntimes h) as [[|r rs]|]; try reflexivity.
    rewrite runtimesLoop_last. destruct (last _); reflexivity.
  - intros ws Hdl Hhome Hnone.
    pose proof (checkConfiguredHome_skip h (initialLocals h) (initial ws) Hhome)
      as H1.
    assert (exists l2 st2,
               pickRuntimes h (initialLocals h) (initial ws) = (Normal l2, st2)
               /\ javaHome l2 = findDefaultRuntimeFromSettings h)
      as (l2 & st2 & H2 & Hl2).
    { unfold pickRuntimes. cbn [initialLocals toolingJre javaHome].
      rewrite Hdl, Hhome, Hnone. cbn [negb].
      destruct (Js.truthy (findDefaultRuntimeFromSettings h));
        eexists _, _; split; reflexivity. }
    destruct (settleRequirements_runs h l2 st2) as (st3 & H3 & _).
    exists (resolved l2).
    rewrite (executor_steps h _ _ _ _ _ _ _ H1 H2 H3).
    split; [reflexivity|exact Hl2].
Qed.

(** *** Concrete hosts *)

(** C1, as stated, fails: a [java.home] that names a missing folder is
    rejected with the "Open settings" action, not the download action. *)
Lemma invalid_home_rejects_without_download :
  resolveRequirements hostMissingHome ∅ =
  Rejected
    {| message :=
         "The java.home variable defined in coc-settings.json points to a missing or inaccessible folder (/opt/none)";
       label := Some "Open settings";
       command := Some OPEN_JSON_SETTINGS;
       commandParam := None |}.
Proof. vm_compute. reflexivity. Qed.

(** C2, as stated, fails: JDK 17 of JAVA_HOME is taken although JDK 21
    qualifies too. *)
Lemma java_home_17_taken_before_21 :
  resolveRequirements hostNewerElsewhere ∅ =
  Fulfilled
    {| tooling_jre := Some "/usr/lib/jvm/jdk-17";
       tooling_jre_version := 17;
       java_home := Some "/usr/lib/jvm/jdk-17";
       java_version := Some 17 |} /\
  In jdk21 (findRuntimes hostNewerElsewhere) /\
  meetsMinimum (requiredJdkVersion hostNewerElsewhere) jdk21 = true /\
  majorOr0 jdk21 = 21.
Proof.
  split; [vm_compute; reflexivity|].
  split; [now left|]. split; reflexivity.
Qed.

(** C2, amended, at the host above: JDK 17 of JAVA_HOME is the choice. *)
Lemma tooling_runtime_witness :
  exists c d,
    In c (findRuntimes hostNewerElsewhere) /\
    meetsMinimum (requiredJdkVersion hostNewerElsewhere) c = true /\
    fst (executor hostNewerElsewhere (initial ∅)) = Normal d /\
    tooling_jre d = Some (homedir c) /\
    tooling_jre_version d = majorOr0 c /\
    (forall q, In q (findRuntimes hostNewerElsewhere) ->
       meetsMinimum (requiredJdkVersion hostNewerElsewhere) q = true ->
       originRank c <= originRank q /\
       (originRank q = originRank c -> majorOr0 q <= majorOr0 c)) /\
    hd_error
      (List.filter
         (fun q => meetsMinimum (requiredJdkVersion hostNewerElsewhere) q
                   && (originRank q =? originRank c)
                   && (majorOr0 q =? majorOr0 c))
         (findRuntimes hostNewerElsewhere)) = Some c /\
    (homedir c <> "" ->
     resolveRequirements hostNewerElsewhere ∅ = Fulfilled d \/
     exists e, isInvalidHome e /\
               resolveRequirements hostNewerElsewhere ∅ = Rejected e).
Proof.
  apply (tooling_runtime_by_rank_then_version hostNewerElsewhere ∅).
  - reflexivity.
  - reflexivity.
  - repeat constructor; discriminate.
  - apply Exists_cons_hd. reflexivity.
Defined.

(** C4, as stated, fails: with two declared runtimes and no default, the
    home of the second one is returned, and is the project JDK. *)
Lemma last_declared_runtime_returned :
  findDefaultRuntimeFromSettings hostTwoRuntimes = Some "/usr/lib/jvm/jdk-21" /\
  firstDefaultElseFirst hostTwoRuntimes = Some "/usr/lib/jvm/jdk-17" /\
  resolveRequirements hostTwoRuntimes ∅ =
  Fulfilled
    {| tooling_jre := Some "/ext/jre";
       tooling_jre_version := 17;
       java_home := Some "/usr/lib/jvm/jdk-21";
       java_version := Some 21 |}.
Proof. repeat split; vm_compute; reflexivity. Qed.

(** C4, amended, at the host above. *)
Lemma default_runtime_witness :
  exists d,
    fst (executor hostTwoRuntimes (initial ∅)) = Normal d /\
    java_home d = findDefaultRuntimeFromSettings hostTwoRuntimes.
Proof.
  apply (proj2 (default_runtime_from_settings hostTwoRuntimes) ∅);
    reflexivity.
Defined.

(** C5, as stated, fails: three JDK 11 are candidates of equal version, and
    none of them is taken; the promise is rejected. *)
Lemma old_candidates_are_not_taken :
  resolveRequirements hostOldJdks ∅ =
  Rejected
    (downloadError hostOldJdks
       "Java 17 or more recent is required to run the Java extension. Please download and install a recent JDK. You can still compile your projects with older JDKs by configuring ['java.configuration.runtimes'](https://github.com/redhat-developer/vscode-java/wiki/JDK-Requirements#java.configuration.runtimes)").
Proof. vm_compute. reflexivity. Qed.

(** C5, amended, for three JDK 21 with the one of JDK_HOME discovered
    second. *)
Lemma jdk_home_candidate_witness :
  (exists d,
     fst (executor hostRecentJdks (initial ∅)) = Normal d /\
     tooling_jre d = Some "/opt/jdk-21-c" /\
     tooling_jre_version d = 21 /\
     ("/opt/jdk-21-c" <> "" ->
      resolveRequirements hostRecentJdks ∅ = Fulfilled d \/
      exists e, isInvalidHome e /\
                resolveRequirements hostRecentJdks ∅ = Rejected e)) /\
  (forall (jdks : list IJavaRuntime) (k : Z),
     List.filter (fun r => originRank r =? k) (sortJdksBySource jdks)
     = map withRank (List.filter (fun r => originRank r =? k) jdks)) /\
  (forall (jdks : list IJavaRuntime) (k : Z),
     List.filter (fun r => majorOr0 r =? k) (sortJdksByVersion jdks)
     = List.filter (fun r => majorOr0 r =? k) jdks).
Proof.
  apply (jdk_home_candidate_preferred hostRecentJdks ∅
           "/opt/jdk-21-a" "/opt/jdk-21-b" "/opt/jdk-21-c"
           "21.0.2" "21.0.2" "21.0.2" 21).
  - reflexivity.
  - reflexivity.
  - vm_compute. discriminate.
  - apply perm_skip, perm_swap.
Defined.

End RequirementsFacts.

(** ** The Lombok agent *)

Module LombokFacts.
Import LombokSupport.

Lemma sameButWarnings_refl st : sameButWarnings st st.
Proof.
  repeat split. exists []. now rewrite app_nil_r.
Qed.

Lemma sameButWarnings_trans st1 st2 st3 :
  sameButWarnings st1 st2 -> sameButWarnings st2 st3 -> sameButWarnings st1 st3.
Proof.
  intros (Ha & Hi & Hw & Hl & Hp & m & Hm) (Ha' & Hi' & Hw' & Hl' & Hp' & m' & Hm').
  repeat split; try congruence.
  exists (m ++ m')%list. rewrite Hm', Hm. now rewrite app_assoc.
Qed.

Lemma showWarningMessage_same m st :
  sameButWarnings st (snd (showWarningMessage m st)).
Proof. repeat split. now exists [m]. Qed.

(** *** The two loops over the arguments *)

Lemma collectIndexes_splice (pre ps : list string) :
  spliceAll (collectIndexes (length pre) ps) (pre ++ ps)%list
  = (pre ++ withoutAgents ps)%list.
Proof.
  revert pre. induction ps as [|p ps IH]; intros pre; [reflexivity|].
  cbn [collectIndexes withoutAgents List.filter].
  specialize (IH (pre ++ [p])%list). rewrite length_app, Nat.add_1_r in IH.
  rewrite <- app_assoc in IH. cbn [app] in IH.
  destruct (Js.test reg p); cbn [negb].
  - unfold spliceAll in *. cbn [rev]. rewrite fold_left_app. cbn [fold_left].
    rewrite IH. rewrite <- app_assoc. cbn [app].
    apply delete_middle.
  - rewrite IH. rewrite <- app_assoc. reflexivity.
Qed.

Lemma spliceAll_withoutAgents (ps : list string) :
  spliceAll (collectIndexes 0 ps) ps = withoutAgents ps.
Proof. exact (collectIndexes_splice [] ps). Qed.

Lemma collectIndexes_nil (k : nat) (ps : list string) :
  collectIndexes k ps = [] <-> List.filter (Js.test reg) ps = [].
Proof.
  revert k. induction ps as [|p ps IH]; intros k; [now split|].
  cbn [collectIndexes List.filter]. destruct (Js.test reg p); [|apply IH].
  split; discriminate.
Qed.

Lemma lastMatched_offset (pre ps : list string) :
  match last (collectIndexes (length pre) ps) with
  | Some i => (pre ++ ps)%list !! i
  | None => None
  end = last (List.filter (Js.test reg) ps).
Proof.
  revert pre. induction ps as [|p ps IH]; intros pre; [reflexivity|].
  cbn [collectIndexes List.filter].
  specialize (IH (pre ++ [p])%list). rewrite length_app, Nat.add_1_r in IH.
  rewrite <- app_assoc in IH. cbn [app] in IH.
  destruct (Js.test reg p); [|exact IH].
  rewrite !last_cons.
  destruct (last (collectIndexes (S (length pre)) ps)) as [i|] eqn:Hlast.
  - rewrite IH. destruct (last (List.filter (Js.test reg) ps)) eqn:Hf; [reflexivity|].
    apply last_None in Hf. apply collectIndexes_nil with (k := S (length pre)) in Hf.
    rewrite Hf in Hlast. discriminate.
  - rewrite <- IH. apply list_lookup_middle. reflexivity.
Qed.

Lemma lastMatchedParam_last (ps : list string) :
  lastMatchedParam ps = last (List.filter (Js.test reg) ps).
Proof. exact (lastMatched_offset [] ps). Qed.

(** *** The phases of [addLombokParam] *)

Section LombokRuns.
Variable h : Host.

Lemma getExtensionLombokPath_runs (st : State) :
  exists st',
    getExtensionLombokPath h st = (Normal (bundledJar h), st') /\
    sameButWarnings st st'.
Proof.
  unfold getExtensionLombokPath, bundledJar.
  destruct (globSync h) as [|jar jars].
  - eexists. split; [reflexivity|]. apply showWarningMessage_same.
  - cbv zeta. destruct (existsSync h _); cbn [negb].
    + eexists. split; [reflexivity|]. apply sameButWarnings_refl.
    + eexists. split; [reflexivity|]. apply showWarningMessage_same.
Qed.

Lemma bundledJar_truthy (b : string) :
  bundledJar h = Some b -> String.eqb b "" = false.
Proof.
  unfold bundledJar. destruct (globSync h) as [|jar jars]; [discriminate|].
  cbv zeta. destruct (existsSync h _); [|discriminate].
  intros [= <-]. destruct (lombokHome h); reflexivity.
Qed.

Lemma lombokPath2Version_pure (lombokPath : option string) :
  exists r, forall st, lombokPath2Version lombokPath st = (r, st).
Proof.
  unfold lombokPath2Version.
  destruct lombokPath as [p|]; [|eexists; reflexivity].
  destruct (String.eqb p ""); [eexists; reflexivity|].
  destruct (Js.exec lombokJarRegex p); eexists; reflexivity.
Qed.

Lemma lombokPath2VersionNumber_runs (lombokPath : option string)
  (st st0 : State) :
  exists st',
    lombokPath2VersionNumber lombokPath st
    = (fst (lombokPath2VersionNumber lombokPath st0), st') /\
    sameButWarnings st st'.
Proof.
  unfold lombokPath2VersionNumber, bind.
  destruct (lombokPath2Version_pure lombokPath) as (r & Hr).
  rewrite !Hr. destruct r as [v|e].
  - destruct (Js.split "-" v) as [|x [|tag rest]].
    + eexists. split; [reflexivity|]. apply showWarningMessage_same.
    + eexists. split; [reflexivity|]. apply showWarningMessage_same.
    + eexists. split; [reflexivity|]. apply sameButWarnings_refl.
  - eexists. split; [reflexivity|]. apply sameButWarnings_refl.
Qed.

Lemma addLombokParam_phases (st : State) :
  addLombokParam h st =
  (let lombokJarPath :=
     suppliedPath (workspaceState st !! JAVA_LOMBOK_PATH)
       (last (List.filter (Js.test reg) (params st))) in
   do! checkSupplied h lombokJarPath in appendAgent h lombokJarPath)
    (set_isExtensionLombok true
       (set_params (withoutAgents (params st)) st)).
Proof.
  unfold addLombokParam.
  unfold bind at 1, gets at 1.
  unfold bind at 1, modify at 1.
  unfold bind at 1, modify at 1.
  unfold bind at 1, gets at 1.
  rewrite spliceAll_withoutAgents, lastMatchedParam_last. reflexivity.
Qed.

Lemma appendAgent_runs (lombokJarPath : option string) (st : State) :
  exists st',
    appendAgent h lombokJarPath st = (Normal tt, st') /\
    isExtensionLombok st' = isExtensionLombok st /\
    workspaceState st' = workspaceState st /\
    (forall m, In m (warningMessages st) -> In m (warningMessages st')) /\
    let used :=
      if isExtensionLombok st then bundledJar h else lombokJarPath in
    params st' = (params st ++ agentArgs used)%list /\
    activeLombokPath st' =
      (if Js.truthy used then used else activeLombokPath st).
Proof.
  unfold appendAgent. unfold bind at 1, gets at 1.
  destruct (isExtensionLombok st) eqn:Hext.
  - destruct (getExtensionLombokPath_runs st)
      as (st1 & H1 & Ha & Hi & Hw & Hl & Hp & more & Hm).
    unfold bind at 1. rewrite H1.
    assert (Hkeep : forall m, In m (warningMessages st) ->
                              In m (warningMessages st1)).
    { intros m Hin. rewrite Hm. apply in_or_app. now left. }
    destruct (bundledJar h) as [b|] eqn:Hb.
    + rewrite (bundledJar_truthy b Hb).
      eexists. split; [reflexivity|].
      cbn [isExtensionLombok workspaceState warningMessages params
           activeLombokPath set_params set_activeLombokPath set_logged
           agentArgs Js.truthy].
      rewrite (bundledJar_truthy b Hb). cbn [negb].
      repeat split; try congruence; try exact Hkeep.
    + eexists. split; [reflexivity|].
      cbn [isExtensionLombok workspaceState warningMessages params
           activeLombokPath set_warningMessages agentArgs Js.truthy].
      repeat split; try congruence.
      * intros m Hin. apply in_or_app. left. now apply Hkeep.
      * rewrite Hp. now rewrite app_nil_r.
  - unfold bind at 1, ret at 1.
    destruct lombokJarPath as [p|].
    + cbn [agentArgs Js.truthy]. destruct (String.eqb p ""); cbn [negb].
      * eexists. split; [reflexivity|].
        cbn [isExtensionLombok workspaceState warningMessages params
             activeLombokPath set_warningMessages].
        repeat split; try congruence.
        -- intros m Hin. apply in_or_app. now left.
        -- now rewrite app_nil_r.
      * eexists. split; [reflexivity|].
        cbn [isExtensionLombok workspaceState warningMessages params
             activeLombokPath set_params set_activeLombokPath set_logged].
        repeat split; try congruence; auto.
    + eexists. split; [reflexivity|].
      cbn [isExtensionLombok workspaceState warningMessages params
           activeLombokPath set_warningMessages agentArgs Js.truthy].
      repeat split; try congruence.
      * intros m Hin. apply in_or_app. now left.
      * now rewrite app_nil_r.
Qed.

Lemma checkSupplied_skip (lombokJarPath : option string) (st : State) :
  usable h lombokJarPath = false ->
  checkSupplied h lombokJarPath st = (Normal tt, st).
Proof.
  unfold usable, checkSupplied. destruct lombokJarPath as [p|]; [|reflexivity].
  now intros ->.
Qed.

Lemma checkSupplied_compatible (lombokJarPath : option string) (v : string)
  (st st0 : State) :
  usable h lombokJarPath = true ->
  fst (lombokPath2VersionNumber lombokJarPath st0) = Normal v ->
  semver_gte h v compatibleVersion = Normal true ->
  exists st',
    checkSupplied h lombokJarPath st = (Normal tt, st') /\
    isExtensionLombok st' = false /\
    workspaceState st' = workspaceState st /\
    params st' = params st /\
    activeLombokPath st' = activeLombokPath st.
Proof.
  intros Huse Hv Hgte. unfold usable in Huse. unfold checkSupplied.
  destruct lombokJarPath as [p|]; [|discriminate]. rewrite Huse.
  destruct (lombokPath2VersionNumber_runs (Some p) st st0)
    as (st1 & H1 & Ha & Hi & Hw & Hl & Hp & _).
  unfold bind at 1. rewrite H1, Hv.
  unfold bind at 1, isCompatibleLombokVersion, lift. rewrite Hgte.
  eexists. split; [reflexivity|].
  cbn [isExtensionLombok workspaceState params activeLombokPath
       set_isExtensionLombok].
  auto.
Qed.

Lemma checkSupplied_incompatible (lombokJarPath : option string)
  (v w : string) (st st0 : State) :
  usable h lombokJarPath = true ->
  fst (lombokPath2VersionNumber lombokJarPath st0) = Normal v ->
  semver_gte h v compatibleVersion = Normal false ->
  fst (lombokPath2VersionNumber (bundledJar h) st0) = Normal w ->
  exists st',
    checkSupplied h lombokJarPath st = (Normal tt, st') /\
    isExtensionLombok st' = isExtensionLombok st /\
    workspaceState st' = delete JAVA_LOMBOK_PATH (workspaceState st) /\
    params st' = params st /\
    activeLombokPath st' = activeLombokPath st /\
    In ("The configured lombok " +:+ v +:+
        " is not supported, falling back " +:+ w) (warningMessages st').
Proof.
  intros Huse Hv Hgte Hw. unfold usable in Huse. unfold checkSupplied.
  destruct lombokJarPath as [p|]; [|discriminate]. rewrite Huse.
  destruct (lombokPath2VersionNumber_runs (Some p) st st0)
    as (st1 & H1 & Ha1 & Hi1 & Hw1 & Hl1 & Hp1 & _).
  unfold bind at 1. rewrite H1, Hv.
  unfold bind at 1, isCompatibleLombokVersion, lift. rewrite Hgte.
  unfold bind at 1, cleanupLombokCache, modify at 1.
  set (st2 := set_workspaceState _ st1).
  destruct (lombokPath2VersionNumber_runs (Some p) st2 st0)
    as (st3 & H3 & Ha3 & Hi3 & Hw3 & Hl3 & Hp3 & _).
  unfold bind at 1. rewrite H3, Hv.
  destruct (getExtensionLombokPath_runs st3)
    as (st4 & H4 & Ha4 & Hi4 & Hw4 & Hl4 & Hp4 & _).
  unfold bind at 1. rewrite H4.
  destruct (lombokPath2VersionNumber_runs (bundledJar h) st4 st0)
    as (st5 & H5 & Ha5 & Hi5 & Hw5 & Hl5 & Hp5 & _).
  unfold bind at 1. rewrite H5, Hw.
  eexists. split; [reflexivity|].
  cbn [isExtensionLombok workspaceState params activeLombokPath
       warningMessages set_warningMessages].
  subst st2.
  cbn [isExtensionLombok workspaceState params activeLombokPath
       set_workspaceState] in *.
  repeat split; try congruence.
  apply in_or_app. right. now left.
Qed.

(** Whatever happens in the check, the arguments stay, and the bundled jar
    is given up for a usable supplied one only. *)
Lemma checkSupplied_runs (lombokJarPath : option string) (st : State) :
  exists r st',
    checkSupplied h lombokJarPath st = (r, st') /\
    params st' = params st /\
    (isExtensionLombok st' = isExtensionLombok st \/
     (isExtensionLombok st' = false /\ r = Normal tt /\
      usable h lombokJarPath = true)).
Proof.
  destruct (usable h lombokJarPath) eqn:Huse;
    [|rewrite (checkSupplied_skip _ _ Huse); eexists _, _; eauto].
  destruct (fst (lombokPath2VersionNumber lombokJarPath st)) as [v|e] eqn:Hv.
  - destruct (semver_gte h v compatibleVersion) as [[|]|e] eqn:Hgte.
    + destruct (checkSupplied_compatible _ _ st st Huse Hv Hgte)
        as (st' & -> & Hi & _ & Hp & _).
      eexists _, _. split; [reflexivity|]. split; [exact Hp|]. right. auto.
    + unfold usable in Huse. unfold checkSupplied.
      destruct lombokJarPath as [p|]; [|discriminate]. rewrite Huse.
      destruct (lombokPath2VersionNumber_runs (Some p) st st)
        as (st1 & H1 & Ha1 & Hi1 & Hw1 & Hl1 & Hp1 & _).
      unfold bind at 1. rewrite H1, Hv.
      unfold bind at 1, isCompatibleLombokVersion, lift. rewrite Hgte.
      unfold bind at 1, cleanupLombokCache, modify at 1.
      set (st2 := set_workspaceState _ st1).
      destruct (lombokPath2VersionNumber_runs (Some p) st2 st)
        as (st3 & H3 & Ha3 & Hi3 & Hw3 & Hl3 & Hp3 & _).
      unfold bind at 1. rewrite H3, Hv.
      destruct (getExtensionLombokPath_runs st3)
        as (st4 & H4 & Ha4 & Hi4 & Hw4 & Hl4 & Hp4 & _).
      unfold bind at 1. rewrite H4.
      destruct (lombokPath2VersionNumber_runs (bundledJar h) st4 st)
        as (st5 & H5 & Ha5 & Hi5 & Hw5 & Hl5 & Hp5 & _).
      unfold bind at 1. rewrite H5.
      subst st2.
      cbn [isExtensionLombok params set_workspaceState] in *.
      destruct (fst (lombokPath2VersionNumber (bundledJar h) st)).
      * eexists _, _. split; [reflexivity|].
        cbn [isExtensionLombok params set_warningMessages].
        split; [congruence|left; congruence].
      * eexists _, _. split; [reflexivity|].
        split; [congruence|left; congruence].
    + unfold usable in Huse. unfold checkSupplied.
      destruct lombokJarPath as [p|]; [|discriminate]. rewrite Huse.
      destruct (lombokPath2VersionNumber_runs (Some p) st st)
        as (st1 & H1 & Ha1 & Hi1 & Hw1 & Hl1 & Hp1 & _).
      unfold bind at 1. rewrite H1, Hv.
      unfold bind at 1, isCompatibleLombokVersion, lift. rewrite Hgte.
      eexists _, _. split; [reflexivity|]. split; [exact Hp1|now left].
  - unfold usable in Huse. unfold checkSupplied.
    destruct lombokJarPath as [p|]; [|discriminate]. rewrite Huse.
    destruct (lombokPath2VersionNumber_runs (Some p) st st)
      as (st1 & H1 & Ha1 & Hi1 & Hw1 & Hl1 & Hp1 & _).
    unfold bind at 1. rewrite H1, Hv.
    eexists _, _. split; [reflexivity|]. split; [exact Hp1|now left].
Qed.

Lemma includes_infix (p a b : string) :
  Js.includes p (a +:+ p +:+ b) = true.
Proof.
  induction a as [|c a IH].
  - change ("" +:+ p +:+ b) with (p +:+ b).
    assert (Hpre : String.prefix p (p +:+ b) = true).
    { clear. induction p as [|c p IH]; [now destruct b|].
      simpl. destruct (ascii_dec c c); [exact IH|contradiction]. }
    destruct (p +:+ b); cbn [Js.includes]; now rewrite Hpre.
  - change (String c a +:+ p +:+ b) with (String c (a +:+ p +:+ b)).
    cbn [Js.includes]. rewrite IH. apply orb_true_r.
Qed.

Lemma append_assoc (a b c : string) : (a +:+ b) +:+ c = a +:+ b +:+ c.
Proof.
  induction a as [|x a IH]; [reflexivity|].
  change (String x ((a +:+ b) +:+ c) = String x (a +:+ b +:+ c)).
  now f_equal.
Qed.

Lemma includes_suffix (p a : string) : Js.includes p (a +:+ p) = true.
Proof.
  replace p with (p +:+ "") at 2; [apply includes_infix|].
  induction p as [|x p IH]; [reflexivity|].
  change (String x (p +:+ "") = String x p). now f_equal.
Qed.

Lemma suppliedPath_cached (p : string) (lastMatched : option string) :
  p <> "" -> suppliedPath (Some p) lastMatched = Some p.
Proof.
  intros Hp. unfold suppliedPath, Js.truthy.
  destruct (String.eqb_spec p ""); [contradiction|reflexivity].
Qed.

(** C7.  The cache names an existing jar whose version is compatible:
    [addLombokParam] completes with [isExtensionLombok] false, the
    arguments are the former ones without the Lombok agents followed by
    the one agent argument for the cached path, and that path is the
    active one. *)
Theorem compatible_cache_is_used (st : State) (p v : string) :
  workspaceState st !! JAVA_LOMBOK_PATH = Some p ->
  p <> "" ->
  existsSync h p = true ->
  fst (lombokPath2VersionNumber (Some p) st) = Normal v ->
  semver_gte h v compatibleVersion = Normal true ->
  fst (addLombokParam h st) = Normal tt /\
  isExtensionLombok (snd (addLombokParam h st)) = false /\
  params (snd (addLombokParam h st))
  = (withoutAgents (params st) ++ ["-javaagent:" +:+ p])%list /\
  activeLombokPath (snd (addLombokParam h st)) = Some p.
Proof.
  intros Hcache Hp Hex Hv Hgte.
  rewrite addLombokParam_phases, Hcache, (suppliedPath_cached p _ Hp).
  cbv zeta.
  assert (Huse : usable h (Some p) = true).
  { unfold usable. rewrite Hex.
    destruct (String.eqb_spec p ""); [contradiction|reflexivity]. }
  set (st1 := set_isExtensionLombok true _).
  destruct (checkSupplied_compatible (Some p) v st1 st Huse Hv Hgte)
    as (st2 & H2 & Hi2 & _ & Hp2 & _).
  destruct (appendAgent_runs (Some p) st2) as (st3 & H3 & Hi3 & _ & _ & Hp3 & Ha3).
  unfold bind. rewrite H2, H3. cbn [fst snd].
  rewrite Hi2 in Hp3, Ha3, Hi3. cbn [agentArgs Js.truthy] in Hp3, Ha3.
  destruct (String.eqb_spec p ""); [contradiction|].
  cbn [negb] in Ha3. rewrite Hp2 in Hp3.
  repeat split; assumption.
Qed.

(** C6.  The cache names an existing jar whose version is not compatible:
    [addLombokParam] completes with [isExtensionLombok] true, the cache
    entry is removed, a warning with the rejected version and the version
    of the bundled jar is shown, and the bundled jar, when there is one, is
    the agent and the active path. *)
Theorem incompatible_cache_falls_back (st : State) (p v w : string) :
  workspaceState st !! JAVA_LOMBOK_PATH = Some p ->
  p <> "" ->
  existsSync h p = true ->
  fst (lombokPath2VersionNumber (Some p) st) = Normal v ->
  semver_gte h v compatibleVersion = Normal false ->
  fst (lombokPath2VersionNumber (bundledJar h) st) = Normal w ->
  let warning :=
    "The configured lombok " +:+ v +:+
    " is not supported, falling back " +:+ w in
  fst (addLombokParam h st) = Normal tt /\
  isExtensionLombok (snd (addLombokParam h st)) = true /\
  workspaceState (snd (addLombokParam h st)) !! JAVA_LOMBOK_PATH = None /\
  In warning (warningMessages (snd (addLombokParam h st))) /\
  Js.includes v warning = true /\
  Js.includes w warning = true /\
  params (snd (addLombokParam h st))
  = (withoutAgents (params st) ++ agentArgs (bundledJar h))%list /\
  activeLombokPath (snd (addLombokParam h st))
  = (if Js.truthy (bundledJar h) then bundledJar h else activeLombokPath st).
Proof.
  intros Hcache Hp Hex Hv Hgte Hw warning.
  rewrite addLombokParam_phases, Hcache, (suppliedPath_cached p _ Hp).
  cbv zeta.
  assert (Huse : usable h (Some p) = true).
  { unfold usable. rewrite Hex.
    destruct (String.eqb_spec p ""); [contradiction|reflexivity]. }
  set (st1 := set_isExtensionLombok true _).
  destruct (checkSupplied_incompatible (Some p) v w st1 st Huse Hv Hgte Hw)
    as (st2 & H2 & Hi2 & Hw2 & Hp2 & Ha2 & Hm2).
  destruct (appendAgent_runs (Some p) st2)
    as (st3 & H3 & Hi3 & Hw3 & Hm3 & Hp3 & Ha3).
  unfold bind. rewrite H2, H3. cbn [fst snd].
  rewrite Hi2 in Hp3, Ha3, Hi3.
  cbn [st1 isExtensionLombok set_isExtensionLombok] in Hp3, Ha3, Hi3.
  rewrite Hp2 in Hp3. rewrite Ha2 in Ha3.
  repeat split; try assumption.
  - rewrite Hw3, Hw2. apply lookup_delete_eq.
  - now apply Hm3.
  - apply (includes_infix v "The configured lombok ").
  - unfold warning.
    rewrite <- (append_assoc v), <- (append_assoc "The configured lombok ").
    apply includes_suffix.
Qed.

(** C10.  With a non-empty cache entry the agent arguments of the user
    play no role: [addLombokParam] does what it does without them.  When
    the cached file is missing it completes with [isExtensionLombok] true
    and the bundled jar as the agent, whatever the user passed. *)
Theorem missing_cache_ignores_user_agent (st : State) (p : string) :
  workspaceState st !! JAVA_LOMBOK_PATH = Some p ->
  p <> "" ->
  addLombokParam h st
  = addLombokParam h (set_params (withoutAgents (params st)) st) /\
  (existsSync h p = false ->
   fst (addLombokParam h st) = Normal tt /\
   isExtensionLombok (snd (addLombokParam h st)) = true /\
   params (snd (addLombokParam h st))
   = (withoutAgents (params st) ++ agentArgs (bundledJar h))%list /\
   activeLombokPath (snd (addLombokParam h st))
   = (if Js.truthy (bundledJar h) then bundledJar h else activeLombokPath st)).
Proof.
  intros Hcache Hp. split.
  - rewrite !addLombokParam_phases.
    cbn [workspaceState params set_params].
    rewrite Hcache, !(suppliedPath_cached p _ Hp).
    assert (Hidem : withoutAgents (withoutAgents (params st))
                    = withoutAgents (params st)).
    { unfold withoutAgents. induction (params st) as [|a ps IH]; [reflexivity|].
      cbn [List.filter]. destruct (Js.test reg a) eqn:Ha; cbn [negb]; [exact IH|].
      cbn [List.filter]. rewrite Ha. cbn [negb]. now rewrite IH. }
    rewrite Hidem. reflexivity.
  - intros Hmissing.
    rewrite addLombokParam_phases, Hcache, (suppliedPath_cached p _ Hp).
    cbv zeta.
    assert (Huse : usable h (Some p) = false).
    { unfold usable. rewrite Hmissing. apply andb_false_r. }
    set (st1 := set_isExtensionLombok true _).
    destruct (appendAgent_runs (Some p) st1)
      as (st3 & H3 & Hi3 & _ & _ & Hp3 & Ha3).
    unfold bind. rewrite (checkSupplied_skip _ _ Huse), H3. cbn [fst snd].
    repeat split; assumption.
Qed.

(** A supplied path that becomes an agent argument is the cached path, or
    without a cache entry the path of the last agent argument. *)
Lemma suppliedPath_origin (cached lastMatched : option string) (p : string) :
  suppliedPath cached lastMatched = Some p ->
  p <> "" ->
  (cached = Some p /\ p <> "") \/
  (Js.truthy cached = false /\
   exists m, lastMatched = Some m /\ p = Js.replace "-javaagent:" "" m).
Proof.
  unfold suppliedPath. intros Hs Hp.
  destruct (Js.truthy cached) eqn:Hc; cbn [negb andb] in Hs.
  - left. now split.
  - destruct lastMatched as [m|].
    + destruct (Js.truthy (Some m)).
      * cbn [option_map] in Hs. injection Hs as <-. right. split; eauto.
      * subst cached. unfold Js.truthy in Hc.
        destruct (String.eqb_spec p ""); [contradiction|discriminate].
    + cbn [Js.truthy] in Hs. subst cached. unfold Js.truthy in Hc.
      destruct (String.eqb_spec p ""); [contradiction|discriminate].
Qed.

(** C8.  [lastMatchedParam] is the last argument that matches the agent
    pattern.  After [addLombokParam] the arguments are the former ones
    without those that match, followed by at most one agent argument: for
    the bundled jar, for the cached path, or, without a cache entry, for
    the path of the last match; so at most one argument matches the
    pattern.  The last match is indeed the fallback: without a cache entry,
    when its jar is there and compatible, its path is the one agent
    argument and the active path. *)
Theorem lombok_agents_replaced (st : State) :
  let cached := workspaceState st !! JAVA_LOMBOK_PATH in
  let matching := List.filter (Js.test reg) (params st) in
  lastMatchedParam (params st) = last matching /\
  (exists tail,
     params (snd (addLombokParam h st))
     = (withoutAgents (params st) ++ tail)%list /\
     (length tail <= 1)%nat /\
     forall a, In a tail ->
       exists p,
         a = "-javaagent:" +:+ p /\
         (bundledJar h = Some p \/
          (cached = Some p /\ p <> "") \/
          (Js.truthy cached = false /\
           exists m, last matching = Some m /\
                     p = Js.replace "-javaagent:" "" m))) /\
  (length (List.filter (Js.test reg) (params (snd (addLombokParam h st)))) <= 1)%nat /\
  (forall m v,
     Js.truthy cached = false ->
     last matching = Some m ->
     usable h (Some (Js.replace "-javaagent:" "" m)) = true ->
     fst (lombokPath2VersionNumber (Some (Js.replace "-javaagent:" "" m)) st)
     = Normal v ->
     semver_gte h v compatibleVersion = Normal true ->
     params (snd (addLombokParam h st))
     = (withoutAgents (params st)
        ++ ["-javaagent:" +:+ Js.replace "-javaagent:" "" m])%list /\
     activeLombokPath (snd (addLombokParam h st))
     = Some (Js.replace "-javaagent:" "" m)).
Proof.
  cbv zeta.
  split; [apply lastMatchedParam_last|].
  assert (Htail :
    exists tail,
      params (snd (addLombokParam h st))
      = (withoutAgents (params st) ++ tail)%list /\
      (length tail <= 1)%nat /\
      forall a, In a tail ->
        exists p,
          a = "-javaagent:" +:+ p /\
          (bundledJar h = Some p \/
           (workspaceState st !! JAVA_LOMBOK_PATH = Some p /\ p <> "") \/
           (Js.truthy (workspaceState st !! JAVA_LOMBOK_PATH) = false /\
            exists m, last (List.filter (Js.test reg) (params st)) = Some m /\
                      p = Js.replace "-javaagent:" "" m))).
  { rewrite addLombokParam_phases. cbv zeta.
    remember (suppliedPath _ _) as lp eqn:Hlp.
    set (st1 := set_isExtensionLombok true _).
    destruct (checkSupplied_runs lp st1) as (r & st2 & H2 & Hp2 & Hi2).
    unfold bind. rewrite H2.
    destruct r as [[]|e].
    - destruct (appendAgent_runs lp st2) as (st3 & H3 & _ & _ & _ & Hp3 & _).
      rewrite H3. cbn [snd]. rewrite Hp3, Hp2.
      cbn [st1 params set_isExtensionLombok set_params].
      eexists. split; [reflexivity|].
      destruct (isExtensionLombok st2).
      + destruct (bundledJar h) as [b|]; cbn [agentArgs];
          [destruct (String.eqb b "")|]; cbn [length In];
          (split; [lia|]); intros a Ha; try contradiction.
        destruct Ha as [<-|[]]. eauto.
      + destruct lp as [q|]; cbn [agentArgs];
          [destruct (String.eqb_spec q "")|]; cbn [length In];
          (split; [lia|]); intros a Ha; try contradiction.
        destruct Ha as [<-|[]]. exists q. split; [reflexivity|]. right.
        apply suppliedPath_origin; [now symmetry|assumption].
    - cbn [snd]. rewrite Hp2.
      cbn [st1 params set_isExtensionLombok set_params].
      exists []. rewrite app_nil_r. split; [reflexivity|].
      split; [cbn; lia|intros a []]. }
  split; [exact Htail|]. split.
  - destruct Htail as (tail & -> & Hlen & _).
    rewrite List.filter_app, length_app.
    assert (Hnone : List.filter (Js.test reg) (withoutAgents (params st)) = []).
    { unfold withoutAgents. induction (params st) as [|a ps IH]; [reflexivity|].
      cbn [List.filter]. destruct (Js.test reg a) eqn:Ha; cbn [negb]; [exact IH|].
      cbn [List.filter]. now rewrite Ha. }
    rewrite Hnone. cbn [length].
    pose proof (List.filter_length_le (Js.test reg) tail). lia.
  - intros m v Hcache Hlast Huse Hv Hgte.
    assert (Hm : Js.truthy (Some m) = true).
    { assert (Hin : In m (List.filter (Js.test reg) (params st))).
      { apply list_elem_of_In. apply last_Some_elem_of. exact Hlast. }
      apply filter_In in Hin as [_ Hm]. unfold Js.truthy.
      destruct m; [discriminate Hm|reflexivity]. }
    rewrite addLombokParam_phases, Hlast. unfold suppliedPath at 1 2.
    rewrite Hcache, Hm. cbn [negb andb option_map]. cbv zeta.
    set (st1 := set_isExtensionLombok true _).
    destruct (checkSupplied_compatible _ v st1 st Huse Hv Hgte)
      as (st2 & H2 & Hi2 & _ & Hp2 & _).
    destruct (appendAgent_runs (Some (Js.replace "-javaagent:" "" m)) st2)
      as (st3 & H3 & _ & _ & _ & Hp3 & Ha3).
    unfold bind. rewrite H2, H3. cbn [snd].
    rewrite Hi2 in Hp3, Ha3. cbn [agentArgs] in Hp3.
    assert (Ht : Js.truthy (Some (Js.replace "-javaagent:" "" m)) = true).
    { unfold usable in Huse. unfold Js.truthy.
      now apply andb_true_iff in Huse as [-> _]. }
    rewrite Ht in Ha3. unfold Js.truthy in Ht.
    destruct (String.eqb (Js.replace "-javaagent:" "" m) ""); [discriminate|].
    rewrite Hp2 in Hp3. split; assumption.
Qed.

End LombokRuns.

(** C3: the helpers throw.  A path that does not match the jar pattern
    makes [exec] return [null], and [lombokPath2Version] reads its
    [length]; [lombokPath2VersionNumber] passes the exception on, and so
    does [addLombokParam] for an agent argument that names such a file.
    [semver.gte] throws on a tag that is not a version, such as the one of
    lombok-edge.jar, and [isCompatibleLombokVersion] passes that on. *)
Theorem lombok_helpers_throw (st : State) :
  lombokPath2Version (Some "/opt/tools/foo.jar") st
  = (Throw "TypeError: Cannot read properties of null (reading 'length')", st) /\
  lombokPath2VersionNumber (Some "/opt/tools/foo.jar") st
  = (Throw "TypeError: Cannot read properties of null (reading 'length')", st) /\
  fst (addLombokParam hostBackupJar sessionBackupJar)
  = Throw "TypeError: Cannot read properties of null (reading 'length')" /\
  fst (lombokPath2VersionNumber (Some "/home/dev/.m2/lombok-edge.jar") st)
  = Normal "edge" /\
  isCompatibleLombokVersion (extension []) "edge" st
  = (Throw "TypeError: Invalid Version: edge", st) /\
  (forall p, String.eqb p "" = false ->
             Js.exec lombokJarRegex p = None ->
             exists e, lombokPath2Version (Some p) st = (Throw e, st)).
Proof.
  split; [reflexivity|]. split; [reflexivity|].
  split; [vm_compute; reflexivity|].
  split; [reflexivity|]. split; [reflexivity|].
  intros p Hp Hexec. unfold lombokPath2Version. rewrite Hp, Hexec.
  eexists. reflexivity.
Qed.

(** *** Concrete hosts *)

(** C6 for a cached Lombok 1.17.0 and a bundled Lombok 1.18.36. *)
Lemma incompatible_cache_witness :
  fst (addLombokParam hostOldCache sessionOldCache) = Normal tt /\
  isExtensionLombok (snd (addLombokParam hostOldCache sessionOldCache)) = true /\
  workspaceState (snd (addLombokParam hostOldCache sessionOldCache))
    !! JAVA_LOMBOK_PATH = None /\
  In ("The configured lombok " +:+ "1.17.0" +:+
      " is not supported, falling back " +:+ "1.18.36")
     (warningMessages (snd (addLombokParam hostOldCache sessionOldCache))) /\
  Js.includes "1.17.0"
    ("The configured lombok " +:+ "1.17.0" +:+
     " is not supported, falling back " +:+ "1.18.36") = true /\
  Js.includes "1.18.36"
    ("The configured lombok " +:+ "1.17.0" +:+
     " is not supported, falling back " +:+ "1.18.36") = true /\
  params (snd (addLombokParam hostOldCache sessionOldCache))
  = withoutAgents (params sessionOldCache) ++ agentArgs (bundledJar hostOldCache) /\
  activeLombokPath (snd (addLombokParam hostOldCache sessionOldCache))
  = (if Js.truthy (bundledJar hostOldCache) then bundledJar hostOldCache
     else activeLombokPath sessionOldCache).
Proof.
  apply (incompatible_cache_falls_back hostOldCache sessionOldCache
           "/cache/lombok-1.17.0.jar" "1.17.0" "1.18.36").
  - vm_compute. reflexivity.
  - discriminate.
  - reflexivity.
  - reflexivity.
  - reflexivity.
  - reflexivity.
Defined.

(** C7 for a cached Lombok 1.18.30. *)
Lemma compatible_cache_witness :
  fst (addLombokParam hostProjectCache sessionProjectCache) = Normal tt /\
  isExtensionLombok (snd (addLombokParam hostProjectCache sessionProjectCache))
  = false /\
  params (snd (addLombokParam hostProjectCache sessionProjectCache))
  = withoutAgents (params sessionProjectCache)
    ++ ["-javaagent:" +:+ "/home/dev/.m2/lombok-1.18.30.jar"] /\
  activeLombokPath (snd (addLombokParam hostProjectCache sessionProjectCache))
  = Some "/home/dev/.m2/lombok-1.18.30.jar".
Proof.
  apply (compatible_cache_is_used hostProjectCache sessionProjectCache
           "/home/dev/.m2/lombok-1.18.30.jar" "1.18.30").
  - vm_compute. reflexivity.
  - discriminate.
  - reflexivity.
  - reflexivity.
  - reflexivity.
Defined.

(** C10 for a cache entry whose file is gone, and an agent argument of the
    user that names an existing Lombok 1.18.30. *)
Lemma missing_cache_witness :
  addLombokParam hostStaleCache sessionStaleCache
  = addLombokParam hostStaleCache
      (set_params (withoutAgents (params sessionStaleCache)) sessionStaleCache) /\
  (existsSync hostStaleCache "/gone/lombok-1.18.20.jar" = false ->
   fst (addLombokParam hostStaleCache sessionStaleCache) = Normal tt /\
   isExtensionLombok (snd (addLombokParam hostStaleCache sessionStaleCache))
   = true /\
   params (snd (addLombokParam hostStaleCache sessionStaleCache))
   = withoutAgents (params sessionStaleCache)
     ++ agentArgs (bundledJar hostStaleCache) /\
   activeLombokPath (snd (addLombokParam hostStaleCache sessionStaleCache))
   = (if Js.truthy (bundledJar hostStaleCache) then bundledJar hostStaleCache
      else activeLombokPath sessionStaleCache)).
Proof.
  apply (missing_cache_ignores_user_agent hostStaleCache sessionStaleCache
           "/gone/lombok-1.18.20.jar").
  - vm_compute. reflexivity.
  - discriminate.
Defined.

(** C8 for two agent arguments of the user and no cache entry: both are
    removed, and the second, whose jar is there, is the one that is added
    again. *)
Lemma lombok_agents_witness :
  params (snd (addLombokParam hostStaleCache LombokNotions.sessionTwoAgents))
  = (withoutAgents (params LombokNotions.sessionTwoAgents)
     ++ ["-javaagent:" +:+
         Js.replace "-javaagent:" ""
           "-javaagent:/usr/share/lombok-1.18.30.jar"])%list /\
  activeLombokPath
    (snd (addLombokParam hostStaleCache LombokNotions.sessionTwoAgents))
  = Some (Js.replace "-javaagent:" ""
            "-javaagent:/usr/share/lombok-1.18.30.jar").
Proof.
  apply (proj2 (proj2 (proj2
           (lombok_agents_replaced hostStaleCache
              LombokNotions.sessionTwoAgents)))
           "-javaagent:/usr/share/lombok-1.18.30.jar" "1.18.30").
  - reflexivity.
  - vm_compute. reflexivity.
  - vm_compute. reflexivity.
  - vm_compute. reflexivity.
  - vm_compute. reflexivity.
Defined.

End LombokFacts.

(** ** The outcomes of the resolver *)

Module ResolverOutcomes.
Import JdkUtils Requirements RequirementsFacts ResolverHosts.

Lemma rejected_stays (P : ErrorData -> Prop) (st st' : State) (e : ErrorData) :
  mayReject P st st' -> promise st = Rejected e -> promise st' = Rejected e.
Proof.
  intros [H|(H & _)] He; congruence.
Qed.

Lemma requiredJdkVersion_min (h : Host) : 17 <= requiredJdkVersion h.
Proof.
  unfold requiredJdkVersion. destruct (javacEnabled h) as [v|]; [|lia].
  destruct (String.eqb v "on"); lia.
Qed.

(** Once the configured-home stage has rejected, the promise keeps that
    rejection. *)
Lemma rejection_is_final (h : Host) (ws : gmap string bool)
  (l1 : Locals) (st1 : State) (e : ErrorData) :
  checkConfiguredHome h (initialLocals h) (initial ws) = (Normal l1, st1) ->
  promise st1 = Rejected e ->
  resolveRequirements h ws = Rejected e.
Proof.
  intros H1 He. unfold resolveRequirements, executor. fold (initialLocals h).
  unfold bind at 1. rewrite H1.
  destruct (pickRuntimes_runs h l1 st1) as (r2 & st2 & H2 & Hp2 & _).
  unfold bind at 1. rewrite H2.
  pose proof (rejected_stays _ _ _ _ Hp2 He) as He2.
  destruct r2 as [l2|e2]; [|exact He2].
  destruct (settleRequirements_runs h l2 st2) as (st3 & -> & Hp3).
  cbn [snd]. now rewrite He2 in Hp3.
Qed.

Lemma prefix_app (p s b : string) :
  String.prefix p s = true -> String.prefix p (s +:+ b) = true.
Proof.
  revert s. induction p as [|c p IH]; intros s H.
  - now destruct (s +:+ b).
  - destruct s as [|d s]; [discriminate|].
    simpl in *. destruct (ascii_dec c d); [now apply IH|discriminate].
Qed.

Lemma includes_app_r (p s b : string) :
  Js.includes p s = true -> Js.includes p (s +:+ b) = true.
Proof.
  induction s as [|c s IH]; intros H.
  - cbn [Js.includes] in H. rewrite orb_false_r in H.
    destruct p; [|discriminate].
    destruct ("" +:+ b); reflexivity.
  - cbn [Js.includes] in H. apply orb_true_iff in H as [H|H].
    + apply (prefix_app _ _ b) in H.
      change (String c s +:+ b) with (String c (s +:+ b)) in *.
      cbn [Js.includes]. now rewrite H.
    + change (String c s +:+ b) with (String c (s +:+ b)).
      cbn [Js.includes]. rewrite (IH H). apply orb_true_r.
Qed.

Lemma includes_app_l (p a s : string) :
  Js.includes p s = true -> Js.includes p (a +:+ s) = true.
Proof.
  intros H. induction a as [|c a IH]; [exact H|].
  change (String c a +:+ s) with (String c (a +:+ s)).
  cbn [Js.includes]. rewrite IH. apply orb_true_r.
Qed.

(** A cause that names a preference with [java.home] in it opens the
    settings. *)
Lemma invalidHomeError_settings (h : Host) (a b : string) :
  Js.includes "java.home" (preference h) = true ->
  invalidHomeError
    (a +:+ (preference h +:+ " variable defined in coc-settings.json") +:+ b)
  = {| message :=
         a +:+ (preference h +:+ " variable defined in coc-settings.json") +:+ b;
       label := Some "Open settings";
       command := Some OPEN_JSON_SETTINGS;
       commandParam := None |}.
Proof.
  intros H. unfold invalidHomeError.
  now rewrite (includes_app_l _ a _ (includes_app_r _ _ b (includes_app_r _ _ _ H))).
Qed.

(** X1: a configured Java home that names a missing folder rejects the
    promise with the invalid-home error; the message names the setting and
    the expanded folder. *)
Theorem missing_home_is_rejected (h : Host) (ws : gmap string bool)
  (configured : string) :
  prefJavaHome h = Some configured ->
  configured <> "" ->
  pathExists h (expandHomeDir h configured) = false ->
  resolveRequirements h ws =
  Rejected
    (invalidHomeError
       ("The " +:+ (preference h +:+ " variable defined in coc-settings.json")
        +:+ " points to a missing or inaccessible folder (" +:+
        expandHomeDir h configured +:+ ")")).
Proof.
  intros Hpref Hne Hmissing.
  destruct (checkConfiguredHome_runs h (initialLocals h) (initial ws))
    as (l1 & st1 & H1 & _ & _).
  apply (rejection_is_final h ws l1 st1 _ H1).
  revert H1. unfold checkConfiguredHome. rewrite Hpref.
  destruct (String.eqb_spec configured ""); [contradiction|].
  cbv zeta. rewrite Hmissing. cbn [negb].
  unfold bind at 1, invalidJavaHome, reject, modify.
  destruct (_ || _).
  - destruct (requiredJdkVersion h <=? _).
    + intros [= _ <-]. reflexivity.
    + unfold bind, gets, ret.
      destruct (_ !! _) as [[|]|]; intros [= _ <-]; reflexivity.
  - intros [= _ <-]. reflexivity.
Qed.

(** X2: a configured Java home that is there and has no [bin/javac]
    rejects the promise with the invalid-home error; the message asks to
    remove [bin] when [javac] lies in the folder itself, and says that the
    folder is no JDK otherwise. *)
Theorem home_without_javac_is_rejected (h : Host) (ws : gmap string bool)
  (configured : string) :
  prefJavaHome h = Some configured ->
  configured <> "" ->
  pathExists h (expandHomeDir h configured) = true ->
  pathExists h
    (path_resolve h [expandHomeDir h configured; "bin"; JAVAC_FILENAME h])
  = false ->
  resolveRequirements h ws =
  Rejected
    (invalidHomeError
       (if pathExists h
             (path_resolve h [expandHomeDir h configured; JAVAC_FILENAME h])
        then "'bin' should be removed from the " +:+
             (preference h +:+ " variable defined in coc-settings.json") +:+
             " (" +:+ expandHomeDir h configured +:+ ")"
        else "The " +:+
             (preference h +:+ " variable defined in coc-settings.json") +:+
             " (" +:+ expandHomeDir h configured +:+
             ") does not point to a JDK.")).
Proof.
  intros Hpref Hne Hhome Hbin.
  destruct (checkConfiguredHome_runs h (initialLocals h) (initial ws))
    as (l1 & st1 & H1 & _ & _).
  apply (rejection_is_final h ws l1 st1 _ H1).
  revert H1. unfold checkConfiguredHome. rewrite Hpref.
  destruct (String.eqb_spec configured ""); [contradiction|].
  cbv zeta. rewrite Hhome, Hbin. cbn [negb].
  unfold bind at 1, invalidJavaHome, reject, modify.
  destruct (_ || _).
  - destruct (requiredJdkVersion h <=? _).
    + intros [= _ <-]. reflexivity.
    + unfold bind, gets, ret.
      destruct (_ !! _) as [[|]|]; intros [= _ <-]; reflexivity.
  - intros [= _ <-]. reflexivity.
Qed.

(** A configured home that is a JDK folder goes through the first stage
    without a rejection. *)
Lemma checkConfiguredHome_valid (h : Host) (l : Locals) (st : State)
  (configured : string) :
  prefJavaHome h = Some configured ->
  configured <> "" ->
  pathExists h (expandHomeDir h configured) = true ->
  pathExists h
    (path_resolve h [expandHomeDir h configured; "bin"; JAVAC_FILENAME h])
  = true ->
  exists l' st',
    checkConfiguredHome h l st = (Normal l', st') /\
    promise st' = promise st /\
    javaHome l' = Some (expandHomeDir h configured) /\
    javaVersion l' = Some (getMajorVersion h (Some (expandHomeDir h configured))) /\
    (toolingJre l', toolingJreVersion l') =
      (if (String.eqb (preference h) "java.jdt.ls.java.home"
           || negb (Js.truthy (toolingJre l)))
          && (requiredJdkVersion h
              <=? getMajorVersion h (Some (expandHomeDir h configured)))
       then (Some (expandHomeDir h configured),
             getMajorVersion h (Some (expandHomeDir h configured)))
       else (toolingJre l, toolingJreVersion l)).
Proof.
  intros Hpref Hne Hhome Hbin.
  unfold checkConfiguredHome. rewrite Hpref.
  destruct (String.eqb_spec configured ""); [contradiction|].
  cbv zeta. rewrite Hhome, Hbin. cbn [negb].
  unfold bind at 1, ret at 1.
  destruct (_ || _); cbn [andb].
  - destruct (requiredJdkVersion h <=? _).
    + eexists _, _. split; [reflexivity|]. repeat split.
    + unfold bind, gets, ret.
      destruct (_ !! _) as [[|]|]; eexists _, _; (split; [reflexivity|]);
        repeat split.
  - eexists _, _. split; [reflexivity|]. repeat split.
Qed.

(** X3: a configured home that is a JDK folder of at least the required
    version runs the server and is the default project JDK, when the
    setting is [java.jdt.ls.java.home] or no JRE was downloaded. *)
Theorem configured_home_supplies_tooling (h : Host) (ws : gmap string bool)
  (configured : string) :
  prefJavaHome h = Some configured ->
  configured <> "" ->
  pathExists h (expandHomeDir h configured) = true ->
  pathExists h
    (path_resolve h [expandHomeDir h configured; "bin"; JAVAC_FILENAME h])
  = true ->
  preference h = "java.jdt.ls.java.home"
  \/ Js.truthy (checkAndDownloadJRE h) = false ->
  requiredJdkVersion h
  <= getMajorVersion h (Some (expandHomeDir h configured)) ->
  resolveRequirements h ws =
  Fulfilled
    {| tooling_jre := Some (expandHomeDir h configured);
       tooling_jre_version :=
         getMajorVersion h (Some (expandHomeDir h configured));
       java_home := Some (expandHomeDir h configured);
       java_version :=
         Some (getMajorVersion h (Some (expandHomeDir h configured))) |}.
Proof.
  intros Hpref Hne Hhome Hbin Hwho Hver.
  destruct (checkConfiguredHome_valid h (initialLocals h) (initial ws)
              configured Hpref Hne Hhome Hbin)
    as (l1 & st1 & H1 & Hp1 & Hj & Hjv & Htool).
  set (home := expandHomeDir h configured) in *.
  assert (Hnonempty : String.eqb home "" = false).
  { destruct (String.eqb_spec home "") as [E|]; [|reflexivity].
    rewrite E in Hver. cbn in Hver.
    pose proof (requiredJdkVersion_min h). lia. }
  remember (getMajorVersion h (Some home)) as v eqn:Hv.
  replace (_ && _) with true in Htool.
  2:{ symmetry. apply andb_true_iff. split; [|now apply Z.leb_le].
      cbn [initialLocals toolingJre].
      destruct Hwho as [Hwho|Hwho]; rewrite Hwho; [reflexivity|].
      apply orb_true_r. }
  injection Htool as Ht Htv.
  assert (H2 : exists st2, pickRuntimes h l1 st1 = (Normal l1, st2)
                           /\ promise st2 = promise st1).
  { unfold pickRuntimes. rewrite Ht, Hj. cbn [Js.truthy].
    rewrite Hnonempty. cbn [negb].
    eexists. split; reflexivity. }
  destruct H2 as (st2 & H2 & Hp2).
  destruct (settleRequirements_runs h l1 st2) as (st3 & H3 & Hp3).
  unfold resolveRequirements.
  rewrite (executor_steps h _ _ _ _ _ _ _ H1 H2 H3). cbn [snd].
  rewrite Hp2, Hp1 in Hp3. cbn [initial promise] in Hp3.
  unfold belowRequirement in Hp3. rewrite Ht, Htv in Hp3.
  cbn [Js.truthy] in Hp3. rewrite Hnonempty in Hp3. cbn [negb orb] in Hp3.
  apply Z.ltb_ge in Hver. rewrite Hver in Hp3.
  rewrite Hp3. unfold resolved. now rewrite Ht, Htv, Hj, Hjv.
Qed.

(** *** The configured home and the messages *)

(** The stages after the configured home leave the workspace store and
    the information messages alone. *)
Lemma pickRuntimes_keeps (h : Host) (l : Locals) (st : State) :
  workspaceState (snd (pickRuntimes h l st)) = workspaceState st /\
  informationMessages (snd (pickRuntimes h l st)) = informationMessages st.
Proof.
  unfold pickRuntimes.
  destruct (negb (Js.truthy (toolingJre l))).
  - unfold bind, lift. destruct (filterValid h _) as [[|v0 valid]|e];
      [split; reflexivity| |split; reflexivity].
    destruct (sortJdksBySource _) as [|first rest]; [split; reflexivity|].
    destruct (version first); split; reflexivity.
  - destruct (Js.truthy (javaHome l)); [split; reflexivity|].
    destruct (findRuntimes h) as [|r0 rs].
    + destruct (Js.truthy (findDefaultRuntimeFromSettings h)); split; reflexivity.
    + destruct (sortJdksBySource _); split; reflexivity.
Qed.

Lemma settleRequirements_keeps (h : Host) (l : Locals) (st : State) :
  workspaceState (snd (settleRequirements h l st)) = workspaceState st /\
  informationMessages (snd (settleRequirements h l st)) = informationMessages st.
Proof.
  unfold settleRequirements. destruct (_ || _); split; reflexivity.
Qed.

Lemma executor_keeps (h : Host) (st st1 : State) (l1 : Locals) :
  checkConfiguredHome h (initialLocals h) st = (Normal l1, st1) ->
  workspaceState (snd (executor h st)) = workspaceState st1 /\
  informationMessages (snd (executor h st)) = informationMessages st1.
Proof.
  intros H1. unfold executor. fold (initialLocals h).
  unfold bind at 1 3. rewrite H1.
  destruct (pickRuntimes_keeps h l1 st1) as [Hw Hm].
  unfold bind. destruct (pickRuntimes h l1 st1) as [[l2|e] st2]; cbn [snd] in *;
    [|split; assumption].
  destruct (settleRequirements_keeps h l2 st2) as [Hw' Hm'].
  split; congruence.
Qed.

(** X4: a configured home below the required version is reported by
    the information message unless the workspace flag
    [java.home.failsMinRequiredFirstTime] is set already; the flag is set
    afterwards. *)
Theorem old_home_is_reported_once (h : Host) (ws : gmap string bool)
  (configured : string) :
  prefJavaHome h = Some configured ->
  configured <> "" ->
  preference h = "java.jdt.ls.java.home"
  \/ Js.truthy (checkAndDownloadJRE h) = false ->
  getMajorVersion h (Some (expandHomeDir h configured))
  < requiredJdkVersion h ->
  workspaceState (snd (executor h (initial ws)))
  = <["java.home.failsMinRequiredFirstTime" := true]> ws /\
  informationMessages (snd (executor h (initial ws)))
  = match ws !! "java.home.failsMinRequiredFirstTime" with
    | Some true => []
    | _ =>
        ["The Java runtime set by 'java.jdt.ls.java.home' does not meet the minimum required version of '"
         +:+ pretty (requiredJdkVersion h) +:+ "' and will not be used."]
    end.
Proof.
  intros Hpref Hne Hwho Hold.
  destruct (checkConfiguredHome_runs h (initialLocals h) (initial ws))
    as (l1 & st1 & H1 & _ & _).
  destruct (executor_keeps h _ _ _ H1) as [-> ->].
  revert H1. unfold checkConfiguredHome. rewrite Hpref.
  destruct (String.eqb_spec configured ""); [contradiction|].
  cbv zeta.
  match goal with
  | |- context [bind ?c _] =>
      assert (exists st0, c (initial ws) = (Normal tt, st0)
                          /\ workspaceState st0 = ws
                          /\ informationMessages st0 = [])
        as (st0 & Hc & Hw0 & Hm0)
  end.
  { destruct (negb (pathExists h _)); [eexists; repeat split|].
    destruct (negb (pathExists h _)); eexists; repeat split. }
  unfold bind at 1. rewrite Hc.
  replace (_ || _) with true.
  2:{ symmetry. cbn [initialLocals toolingJre].
      destruct Hwho as [Hwho|Hwho]; rewrite Hwho; [reflexivity|].
      apply orb_true_r. }
  apply Z.leb_gt in Hold. rewrite Hold.
  unfold bind, gets, ret. rewrite Hw0.
  destruct (ws !! "java.home.failsMinRequiredFirstTime") as [[|]|] eqn:Hflag;
    intros [= _ <-]; cbn [workspaceState informationMessages];
    rewrite ?Hw0, ?Hm0; split; try reflexivity.
  symmetry. now apply insert_id.
Qed.

(** *** The default project JDK and the sorts *)

Lemma filter_none {A : Type} (f : A -> bool) (l : list A) :
  Forall (fun x => f x = false) l -> List.filter f l = [].
Proof.
  induction 1 as [|x l Hx _ IH]; [reflexivity|].
  cbn [List.filter]. now rewrite Hx.
Qed.

(** X5: without a downloaded JRE and a usable configured home, and with
    every discovered runtime below the required version, the promise is
    rejected; with no home configured the rejection is the download
    error. *)
Theorem nothing_qualifies_is_rejected (h : Host) (ws : gmap string bool) :
  Js.truthy (checkAndDownloadJRE h) = false ->
  configuredSupplies h = false ->
  Forall hasVersion (findRuntimes h) ->
  Forall (fun r => meetsMinimum (requiredJdkVersion h) r = false)
    (findRuntimes h) ->
  exists e,
    resolveRequirements h ws = Rejected e /\
    (isDownload h e \/ isInvalidHome e) /\
    (Js.truthy (prefJavaHome h) = false -> isDownload h e).
Proof.
  intros Hdl Hcfg Hall Hnone.
  destruct (checkConfiguredHome_runs h (initialLocals h) (initial ws))
    as (l1 & st1 & H1 & Hp1 & Hl1).
  destruct Hl1 as [[Ht1 _]|Hsup]; [|congruence].
  assert (Hfalsy : Js.truthy (toolingJre l1) = false) by now rewrite Ht1.
  pose proof (pickRuntimes_universal h l1 st1 Hfalsy Hall) as H2.
  replace (List.filter _ _) with (@nil IJavaRuntime) in H2.
  2:{ symmetry. apply filter_none.
      rewrite sortJdksByVersion_spec.
      eapply Permutation_Forall; [symmetry; apply array_sort_perm|].
      exact Hnone. }
  cbn in H2.
  destruct (settleRequirements_runs h l1 st1) as (st3 & H3 & Hp3).
  unfold resolveRequirements.
  rewrite (executor_steps h _ _ _ _ _ _ _ H1 H2 H3). cbn [snd].
  unfold belowRequirement in Hp3. rewrite Hfalsy in Hp3. cbn [negb orb] in Hp3.
  destruct Hp1 as [Hp1|(_ & e & He & Hp1)]; rewrite Hp1 in Hp3.
  - cbn [initial promise] in Hp3. destruct Hp3 as (e & He & ->).
    exists e. auto.
  - exists e. repeat split; [exact Hp3|now right|].
    intros Hnohome. exfalso.
    rewrite (checkConfiguredHome_skip h _ _ Hnohome) in H1.
    injection H1 as _ <-. discriminate.
Qed.

(** X6: with a downloaded JRE and no configured home, the default
    project JDK is the first discovered runtime of the least origin rank,
    whatever its version; the downloaded JRE stays the tooling runtime, and
    the promise is fulfilled exactly when that JRE meets the required
    version. *)
Theorem project_jdk_by_origin (h : Host) (ws : gmap string bool) :
  Js.truthy (checkAndDownloadJRE h) = true ->
  Js.truthy (prefJavaHome h) = false ->
  findRuntimes h <> [] ->
  exists c d,
    In c (findRuntimes h) /\
    fst (executor h (initial ws)) = Normal d /\
    tooling_jre d = checkAndDownloadJRE h /\
    tooling_jre_version d = getMajorVersion h (checkAndDownloadJRE h) /\
    java_home d = Some (homedir c) /\
    java_version d = option_map major (version c) /\
    (forall q, In q (findRuntimes h) -> originRank c <= originRank q) /\
    hd_error
      (List.filter (fun q => originRank q =? originRank c) (findRuntimes h))
    = Some c /\
    (requiredJdkVersion h <= getMajorVersion h (checkAndDownloadJRE h) ->
     resolveRequirements h ws = Fulfilled d) /\
    (getMajorVersion h (checkAndDownloadJRE h) < requiredJdkVersion h ->
     exists e, isDownload h e /\ resolveRequirements h ws = Rejected e).
Proof.
  intros Hdl Hhome Hfound.
  pose proof (checkConfiguredHome_skip h (initialLocals h) (initial ws) Hhome)
    as H1.
  destruct (array_sort (byKey originRank) (findRuntimes h)) as [|c s] eqn:Hs.
  { exfalso. apply Hfound. apply Permutation_nil. rewrite <- Hs.
    apply array_sort_perm. }
  assert (H2 : exists st2,
             pickRuntimes h (initialLocals h) (initial ws)
             = (Normal {| toolingJre := checkAndDownloadJRE h;
                          toolingJreVersion :=
                            getMajorVersion h (checkAndDownloadJRE h);
                          javaHome := Some (homedir c);
                          javaVersion := option_map major (version c) |}, st2)
             /\ promise st2 = Pending).
  { unfold pickRuntimes. cbn [initialLocals toolingJre javaHome toolingJreVersion].
    rewrite Hdl, Hhome. cbn [negb].
    destruct (findRuntimes h) as [|r0 rs] eqn:Hf; [contradiction|].
    rewrite sortJdksBySource_spec, Hs. cbn [map].
    eexists. split; reflexivity. }
  destruct H2 as (st2 & H2 & Hp2).
  set (l2 := {| toolingJre := _ |}) in H2.
  destruct (settleRequirements_runs h l2 st2) as (st3 & H3 & Hp3).
  pose proof (executor_steps h _ _ _ _ _ _ _ H1 H2 H3) as Hexec.
  rewrite Hp2 in Hp3. unfold belowRequirement in Hp3.
  cbn [l2 toolingJre toolingJreVersion] in Hp3. rewrite Hdl in Hp3.
  cbn [negb orb] in Hp3.
  pose proof (array_sort_stable originRank (originRank c) (findRuntimes h))
    as Hstable.
  apply array_sort_head in Hs as Hhead.
  destruct Hhead as (pre & post & Hl & Hpre & Hpost).
  exists c, (resolved l2). unfold resolveRequirements. rewrite Hexec.
  cbn [fst snd].
  split; [rewrite Hl; apply in_elt|].
  do 5 (split; [reflexivity|]).
  split; [|split; [|split]].
  - intros q Hq. rewrite Hl in Hq.
    apply in_app_or in Hq as [Hq|[<-|Hq]].
    + rewrite List.Forall_forall in Hpre. specialize (Hpre _ Hq). lia.
    + lia.
    + rewrite List.Forall_forall in Hpost. now apply Hpost.
  - rewrite <- Hstable, Hs. cbn [List.filter]. now rewrite Z.eqb_refl.
  - intros Hok. apply Z.ltb_ge in Hok. rewrite Hok in Hp3. exact Hp3.
  - intros Hold. apply Z.ltb_lt in Hold. rewrite Hold in Hp3.
    destruct Hp3 as (e & He & Hp3). eauto.
Qed.

Lemma sorted_array_sort {A : Type} (key : A -> Z) (l : list A) :
  StronglySorted (fun a b => key a <= key b) l ->
  array_sort (byKey key) l = l.
Proof.
  induction 1 as [|x l Hs IH Hx]; [reflexivity|].
  cbn [array_sort foldr]. fold (array_sort (byKey key) l). rewrite IH.
  destruct l as [|y l]; [reflexivity|].
  cbn [sort_insert]. unfold byKey.
  inversion Hx; subst.
  replace (key x - key y <=? 0) with true; [reflexivity|].
  symmetry. apply Z.leb_le. lia.
Qed.

Lemma array_sort_twice {A : Type} (key : A -> Z) (l : list A) :
  array_sort (byKey key) (array_sort (byKey key) l) = array_sort (byKey key) l.
Proof. apply sorted_array_sort, array_sort_sorted. Qed.

Lemma map_sorted {A B : Type} (f : A -> B) (R : B -> B -> Prop) (l : list A) :
  StronglySorted (fun a b => R (f a) (f b)) l -> StronglySorted R (map f l).
Proof.
  induction 1 as [|x l Hs IH Hx]; cbn [map]; constructor; [exact IH|].
  apply List.Forall_forall. intros y Hy. apply in_map_iff in Hy as (y0 & <- & Hy0).
  rewrite List.Forall_forall in Hx. now apply Hx.
Qed.

(** X8: [sortJdksBySource] permutes the runtimes, orders them by origin
    rank, leaves every runtime with a rank (between 0 and 3 when it had
    none), and sorting twice is sorting once. *)
Theorem sortJdksBySource_orders (jdks : list IJavaRuntime) :
  Permutation (sortJdksBySource jdks) (map withRank jdks) /\
  StronglySorted (fun a b => originRank a <= originRank b)
    (sortJdksBySource jdks) /\
  Forall (fun r => rank r = Some (originRank r) /\
                   exists r0, In r0 jdks /\ r = withRank r0 /\
                              (rank r0 = None -> 0 <= originRank r <= 3))
    (sortJdksBySource jdks) /\
  sortJdksBySource (sortJdksBySource jdks) = sortJdksBySource jdks.
Proof.
  rewrite !sortJdksBySource_spec.
  split; [|split; [|split]].
  - apply Permutation_map, array_sort_perm.
  - apply map_sorted.
    change (fun a b => originRank (withRank a) <= originRank (withRank b))
      with (fun a b : IJavaRuntime => originRank a <= originRank b).
    apply array_sort_sorted.
  - apply List.Forall_forall. intros r Hr.
    apply in_map_iff in Hr as (r0 & <- & Hr0).
    split; [reflexivity|]. exists r0.
    split; [eapply Permutation_in; [apply array_sort_perm|exact Hr0]|].
    split; [reflexivity|]. intros Hfresh.
    change (originRank (withRank r0)) with (originRank r0).
    unfold originRank, sourceRank. rewrite Hfresh.
    destruct (Js.array_includes _ _); [lia|].
    destruct (Js.array_includes _ _); [lia|].
    destruct (Js.array_includes _ _); lia.
  - rewrite (map_array_sort withRank originRank).
    change (fun a => originRank (withRank a)) with originRank.
    rewrite array_sort_twice, map_map. apply map_ext.
    intros [hd v src rk]. reflexivity.
Qed.

Lemma sorted_weaken {A : Type} (R R' : A -> A -> Prop) (l : list A) :
  (forall a b, R a b -> R' a b) -> StronglySorted R l -> StronglySorted R' l.
Proof.
  intros HR. induction 1 as [|x l Hs IH Hx]; constructor; [exact IH|].
  eapply Forall_impl; [exact Hx|]. intros y. apply HR.
Qed.

(** X9: [sortJdksByVersion] permutes the runtimes into descending major
    version (0 for a missing version), and sorting twice is sorting
    once. *)
Theorem sortJdksByVersion_orders (jdks : list IJavaRuntime) :
  Permutation (sortJdksByVersion jdks) jdks /\
  StronglySorted (fun a b => majorOr0 b <= majorOr0 a)
    (sortJdksByVersion jdks) /\
  sortJdksByVersion (sortJdksByVersion jdks) = sortJdksByVersion jdks.
Proof.
  rewrite !sortJdksByVersion_spec.
  split; [apply array_sort_perm|]. split; [|apply array_sort_twice].
  eapply sorted_weaken; [|apply array_sort_sorted].
  cbn. intros a b Hab. lia.
Qed.

(** X7: with a downloaded JRE, no configured home, no discovered
    runtime and none from the settings, the promise is rejected with the
    request to install a JDK for the project. *)
Theorem no_project_jdk_is_rejected (h : Host) (ws : gmap string bool) :
  Js.truthy (checkAndDownloadJRE h) = true ->
  Js.truthy (prefJavaHome h) = false ->
  findRuntimes h = [] ->
  Js.truthy (findDefaultRuntimeFromSettings h) = false ->
  resolveRequirements h ws =
  Rejected
    (downloadError h
       "Please download and install a JDK to compile your project. You can configure your projects with different JDKs by the setting ['java.configuration.runtimes'](https://github.com/redhat-developer/vscode-java/wiki/JDK-Requirements#java.configuration.runtimes)").
Proof.
  intros Hdl Hhome Hnone Hsettings.
  pose proof (checkConfiguredHome_skip h (initialLocals h) (initial ws) Hhome)
    as H1.
  unfold resolveRequirements, executor. fold (initialLocals h).
  unfold bind at 1. rewrite H1.
  unfold bind at 1, pickRuntimes.
  cbn [initialLocals toolingJre javaHome].
  rewrite Hdl, Hhome, Hnone, Hsettings. cbn [negb].
  unfold bind at 1, openJDKDownload, reject, modify, ret.
  match goal with
  | |- context [settleRequirements h ?l ?st] =>
      destruct (settleRequirements_runs h l st) as (st3 & -> & Hp3)
  end.
  cbn [snd]. exact Hp3.
Qed.

(** *** Concrete hosts *)

(** X1 for a [java.home] that names [/opt/none], which is not there. *)
Lemma missing_home_witness :
  resolveRequirements hostMissingHome ∅ =
  Rejected
    {| message :=
         "The java.home variable defined in coc-settings.json points to a missing or inaccessible folder (/opt/none)";
       label := Some "Open settings";
       command := Some OPEN_JSON_SETTINGS;
       commandParam := None |}.
Proof.
  apply (missing_home_is_rejected hostMissingHome ∅ "/opt/none").
  - reflexivity.
  - discriminate.
  - reflexivity.
Defined.

(** X2 for a [java.home] that names a folder without [javac]. *)
Lemma home_without_javac_witness :
  resolveRequirements hostJreHome ∅ =
  Rejected
    {| message :=
         "The java.home variable defined in coc-settings.json (/opt/jre-17) does not point to a JDK.";
       label := Some "Open settings";
       command := Some OPEN_JSON_SETTINGS;
       commandParam := None |}.
Proof.
  apply (home_without_javac_is_rejected hostJreHome ∅ "/opt/jre-17").
  - reflexivity.
  - discriminate.
  - reflexivity.
  - reflexivity.
Defined.

(** X3 for a [java.jdt.ls.java.home] that names JDK 21. *)
Lemma configured_home_witness :
  resolveRequirements hostConfiguredJdk ∅ =
  Fulfilled
    {| tooling_jre := Some "/usr/lib/jvm/jdk-21";
       tooling_jre_version := 21;
       java_home := Some "/usr/lib/jvm/jdk-21";
       java_version := Some 21 |}.
Proof.
  apply (configured_home_supplies_tooling hostConfiguredJdk ∅
           "/usr/lib/jvm/jdk-21").
  - reflexivity.
  - discriminate.
  - reflexivity.
  - reflexivity.
  - left. reflexivity.
  - vm_compute. discriminate.
Defined.

(** X4 for a [java.jdt.ls.java.home] that names a JDK 11, in a fresh
    workspace. *)
Lemma old_home_witness :
  workspaceState (snd (executor hostConfiguredOld (initial ∅)))
  = <["java.home.failsMinRequiredFirstTime" := true]> ∅ /\
  informationMessages (snd (executor hostConfiguredOld (initial ∅)))
  = match (∅ : gmap string bool) !! "java.home.failsMinRequiredFirstTime" with
    | Some true => []
    | _ =>
        ["The Java runtime set by 'java.jdt.ls.java.home' does not meet the minimum required version of '"
         +:+ pretty (requiredJdkVersion hostConfiguredOld) +:+
         "' and will not be used."]
    end.
Proof.
  apply (old_home_is_reported_once hostConfiguredOld ∅ "/opt/jdk-11-a").
  - reflexivity.
  - discriminate.
  - left. reflexivity.
  - vm_compute. reflexivity.
Defined.

(** X5 for three discovered JDK 11. *)
Lemma nothing_qualifies_witness :
  exists e,
    resolveRequirements hostOldJdks ∅ = Rejected e /\
    (isDownload hostOldJdks e \/ isInvalidHome e) /\
    (Js.truthy (prefJavaHome hostOldJdks) = false -> isDownload hostOldJdks e).
Proof.
  apply (nothing_qualifies_is_rejected hostOldJdks ∅).
  - reflexivity.
  - reflexivity.
  - repeat (constructor; [discriminate|]). constructor.
  - repeat (constructor; [reflexivity|]). constructor.
Defined.

(** X6 for a downloaded JRE, JDK 21 in a common directory and JDK 17 in
    JAVA_HOME. *)
Lemma project_jdk_witness :
  exists c d,
    In c (findRuntimes hostDownloaded) /\
    fst (executor hostDownloaded (initial ∅)) = Normal d /\
    tooling_jre d = checkAndDownloadJRE hostDownloaded /\
    tooling_jre_version d
    = getMajorVersion hostDownloaded (checkAndDownloadJRE hostDownloaded) /\
    java_home d = Some (homedir c) /\
    java_version d = option_map major (version c) /\
    (forall q, In q (findRuntimes hostDownloaded) ->
               originRank c <= originRank q) /\
    hd_error
      (List.filter (fun q => originRank q =? originRank c)
         (findRuntimes hostDownloaded))
    = Some c /\
    (requiredJdkVersion hostDownloaded
     <= getMajorVersion hostDownloaded (checkAndDownloadJRE hostDownloaded) ->
     resolveRequirements hostDownloaded ∅ = Fulfilled d) /\
    (getMajorVersion hostDownloaded (checkAndDownloadJRE hostDownloaded)
     < requiredJdkVersion hostDownloaded ->
     exists e, isDownload hostDownloaded e /\
               resolveRequirements hostDownloaded ∅ = Rejected e).
Proof.
  apply (project_jdk_by_origin hostDownloaded ∅).
  - reflexivity.
  - reflexivity.
  - discriminate.
Defined.

(** X7 for a downloaded JRE and nothing else. *)
Lemma no_project_jdk_witness :
  resolveRequirements hostDownloadOnly ∅ =
  Rejected
    (downloadError hostDownloadOnly
       "Please download and install a JDK to compile your project. You can configure your projects with different JDKs by the setting ['java.configuration.runtimes'](https://github.com/redhat-developer/vscode-java/wiki/JDK-Requirements#java.configuration.runtimes)").
Proof.
  apply (no_project_jdk_is_rejected hostDownloadOnly ∅); reflexivity.
Defined.

End ResolverOutcomes.

(** ** The list of JDKs *)

Module JdkListFacts.
Import JdkUtils JdkList.

(** X10: an unforced call of [listJdks] after any call repeats its
    answer, whatever the machine has become; the first call scans like a
    forced one; a forced call lists exactly the discovered runtimes that
    have a runtime image. *)
Theorem listJdks_scans_once (h h' : Host) (force : bool) (cachedJdks : Cache) :
  listJdks h' false (snd (listJdks h force cachedJdks))
  = listJdks h force cachedJdks /\
  fst (listJdks h false None) = fst (listJdks h true cachedJdks) /\
  (forall jdk,
     In jdk (fst (listJdks h true cachedJdks)) <->
     In jdk (findRuntimes h) /\ hasRuntimeImage h jdk = true) /\
  (forall jdks,
     cachedJdks = Some jdks -> listJdks h false cachedJdks = (jdks, Some jdks)).
Proof.
  split; [|split; [|split]].
  - unfold listJdks. destruct force, cachedJdks; reflexivity.
  - reflexivity.
  - intros jdk. cbn [listJdks fst orb]. apply filter_In.
  - now intros jdks ->.
Qed.

End JdkListFacts.

(** ** The jar that [addLombokParam] takes *)

Module AgentFacts.
Import LombokSupport LombokFacts LombokNotions.

Section SupplyFacts.
Variable h : Host.

(** The ways [checkSupplied] can go. *)
Lemma checkSupplied_cases (lombokJarPath : option string) (st : State) :
  exists r st',
    checkSupplied h lombokJarPath st = (r, st') /\
    params st' = params st /\
    activeLombokPath st' = activeLombokPath st /\
    ((usable h lombokJarPath = false /\ r = Normal tt /\ st' = st) \/
     (usable h lombokJarPath = true /\
      exists v,
        fst (lombokPath2VersionNumber lombokJarPath st) = Normal v /\
        semver_gte h v compatibleVersion = Normal true /\
        r = Normal tt /\ isExtensionLombok st' = false /\
        workspaceState st' = workspaceState st) \/
     (usable h lombokJarPath = true /\
      exists v,
        fst (lombokPath2VersionNumber lombokJarPath st) = Normal v /\
        semver_gte h v compatibleVersion = Normal false /\
        isExtensionLombok st' = isExtensionLombok st /\
        workspaceState st' = delete JAVA_LOMBOK_PATH (workspaceState st)) \/
     (usable h lombokJarPath = true /\
      (forall v,
         fst (lombokPath2VersionNumber lombokJarPath st) = Normal v ->
         exists e, semver_gte h v compatibleVersion = Throw e) /\
      (exists e, r = Throw e) /\
      isExtensionLombok st' = isExtensionLombok st /\
      workspaceState st' = workspaceState st)).
Proof.
  destruct (usable h lombokJarPath) eqn:Huse.
  2:{ rewrite (checkSupplied_skip h _ _ Huse). eexists _, _.
      split; [reflexivity|]. split; [reflexivity|]. split; [reflexivity|].
      left. auto. }
  destruct (fst (lombokPath2VersionNumber lombokJarPath st)) as [v|e] eqn:Hv.
  - destruct (semver_gte h v compatibleVersion) as [[|]|e] eqn:Hgte.
    + destruct (checkSupplied_compatible h _ _ st st Huse Hv Hgte)
        as (st' & -> & Hi & Hw & Hp & Ha).
      eexists _, _. split; [reflexivity|]. split; [exact Hp|].
      split; [exact Ha|]. right. left. split; [reflexivity|].
      exists v. auto.
    + unfold usable in Huse. unfold checkSupplied.
      destruct lombokJarPath as [p|]; [|discriminate]. rewrite Huse.
      destruct (lombokPath2VersionNumber_runs (Some p) st st)
        as (st1 & H1 & Ha1 & Hi1 & Hw1 & Hl1 & Hp1 & _).
      unfold bind at 1. rewrite H1, Hv.
      unfold bind at 1, isCompatibleLombokVersion, lift. rewrite Hgte.
      unfold bind at 1, cleanupLombokCache, modify at 1.
      set (st2 := set_workspaceState _ st1).
      destruct (lombokPath2VersionNumber_runs (Some p) st2 st)
        as (st3 & H3 & Ha3 & Hi3 & Hw3 & Hl3 & Hp3 & _).
      unfold bind at 1. rewrite H3, Hv.
      destruct (getExtensionLombokPath_runs h st3)
        as (st4 & H4 & Ha4 & Hi4 & Hw4 & Hl4 & Hp4 & _).
      unfold bind at 1. rewrite H4.
      destruct (lombokPath2VersionNumber_runs (bundledJar h) st4 st)
        as (st5 & H5 & Ha5 & Hi5 & Hw5 & Hl5 & Hp5 & _).
      unfold bind at 1. rewrite H5.
      subst st2.
      cbn [isExtensionLombok params activeLombokPath workspaceState
           set_workspaceState] in *.
      destruct (fst (lombokPath2VersionNumber (bundledJar h) st));
        eexists _, _; (split; [reflexivity|]);
        cbn [isExtensionLombok params activeLombokPath workspaceState
             set_warningMessages];
        (split; [congruence|]); (split; [congruence|]);
        right; right; left; (split; [reflexivity|]);
        exists v; repeat split; congruence.
    + unfold usable in Huse. unfold checkSupplied.
      destruct lombokJarPath as [p|]; [|discriminate]. rewrite Huse.
      destruct (lombokPath2VersionNumber_runs (Some p) st st)
        as (st1 & H1 & Ha1 & Hi1 & Hw1 & Hl1 & Hp1 & _).
      unfold bind at 1. rewrite H1, Hv.
      unfold bind at 1, isCompatibleLombokVersion, lift. rewrite Hgte.
      eexists _, _. split; [reflexivity|]. split; [exact Hp1|].
      split; [exact Ha1|]. right. right. right.
      split; [reflexivity|]. split; [|eauto].
      intros v' [= <-]. eauto.
  - unfold usable in Huse. unfold checkSupplied.
    destruct lombokJarPath as [p|]; [|discriminate]. rewrite Huse.
    destruct (lombokPath2VersionNumber_runs (Some p) st st)
      as (st1 & H1 & Ha1 & Hi1 & Hw1 & Hl1 & Hp1 & _).
    unfold bind at 1. rewrite H1, Hv.
    eexists _, _. split; [reflexivity|]. split; [exact Hp1|].
    split; [exact Ha1|]. right. right. right.
    split; [reflexivity|]. split; [|eauto].
    intros v' [=].
Qed.

Lemma versionNumber_anywhere (lombokJarPath : option string) (st st0 : State) :
  fst (lombokPath2VersionNumber lombokJarPath st)
  = fst (lombokPath2VersionNumber lombokJarPath st0).
Proof.
  destruct (lombokPath2VersionNumber_runs lombokJarPath st st0) as (st' & -> & _).
  reflexivity.
Qed.

Lemma version_of_versionNumber (lombokJarPath : option string) (st : State)
  (v : string) :
  fst (lombokPath2VersionNumber lombokJarPath st) = Normal v ->
  exists w, forall st0, lombokPath2Version lombokJarPath st0 = (Normal w, st0).
Proof.
  unfold lombokPath2VersionNumber, bind.
  destruct (lombokPath2Version_pure lombokJarPath) as (r & Hr).
  rewrite Hr. destruct r as [w|e]; [|discriminate].
  intros _. exists w. exact Hr.
Qed.

(** What a run of [addLombokParam] amounts to. *)
Lemma addLombokParam_cases (st : State) :
  exists r st1 st',
    addLombokParam h st = (r, st') /\
    checkSupplied h (supplied st)
      (set_isExtensionLombok true (set_params (withoutAgents (params st)) st))
    = (match r with Throw e => Throw e | Normal _ => Normal tt end, st1) /\
    match r with
    | Normal _ => appendAgent h (supplied st) st1 = (Normal tt, st')
    | Throw _ => st' = st1
    end.
Proof.
  rewrite addLombokParam_phases. cbv zeta. fold (supplied st).
  set (st0 := set_isExtensionLombok true _).
  destruct (checkSupplied h (supplied st) st0) as [[[]|e] st1] eqn:H1.
  - destruct (appendAgent_runs h (supplied st) st1) as (st' & H3 & _).
    exists (Normal tt), st1, st'. unfold bind. rewrite H1, H3. auto.
  - exists (Throw e), st1, st1. unfold bind. rewrite H1. auto.
Qed.

(** X11: [addLombokParam] leaves [isExtensionLombok] false exactly when
    the supplied jar is there, its name has a version, and [semver.gte]
    accepts that version. *)
Theorem bundled_jar_given_up_iff (st : State) :
  isExtensionLombok (snd (addLombokParam h st)) = false <->
  usable h (supplied st) = true /\
  exists v,
    fst (lombokPath2VersionNumber (supplied st) st) = Normal v /\
    semver_gte h v compatibleVersion = Normal true.
Proof.
  destruct (addLombokParam_cases st) as (r & st1 & st' & -> & H1 & H3).
  cbn [snd].
  set (st0 := set_isExtensionLombok true _) in H1.
  destruct (checkSupplied_cases (supplied st) st0)
    as (r1 & st1' & H1' & _ & _ & Hcases).
  rewrite H1 in H1'. injection H1' as <- <-.
  rewrite (versionNumber_anywhere (supplied st) st0 st) in Hcases.
  assert (Hext : isExtensionLombok st' = isExtensionLombok st1).
  { destruct r as [[]|e]; [|now subst].
    destruct (appendAgent_runs h (supplied st) st1) as (st2 & H3' & Hi & _).
    rewrite H3 in H3'. injection H3' as <-. exact Hi. }
  rewrite Hext.
  destruct Hcases as [(Hu & _ & ->)|[(Hu & v & Hv & Hg & _ & Hi & _)
    |[(Hu & v & Hv & Hg & Hi & _)|(Hu & Hthrow & _ & Hi & _)]]].
  - cbn [st0 isExtensionLombok set_isExtensionLombok]. rewrite Hu.
    split; [discriminate|]. intros [[=] _].
  - split; [|intros _; exact Hi]. intros _. split; [exact Hu|]. eauto.
  - rewrite Hi. cbn [st0 isExtensionLombok set_isExtensionLombok].
    split; [discriminate|]. intros (_ & v' & Hv' & Hg').
    rewrite Hv in Hv'. injection Hv' as <-. congruence.
  - rewrite Hi. cbn [st0 isExtensionLombok set_isExtensionLombok].
    split; [discriminate|]. intros (_ & v' & Hv' & Hg').
    destruct (Hthrow v' Hv') as (e & He). congruence.
Qed.

(** X12: [addLombokParam] never stores a path: the workspace store is
    as before, or has lost the entry [java.lombokPath], the latter when the
    supplied jar is there and too old. *)
Theorem cache_is_only_cleared (st : State) :
  workspaceState (snd (addLombokParam h st)) = workspaceState st \/
  (workspaceState (snd (addLombokParam h st))
   = delete JAVA_LOMBOK_PATH (workspaceState st) /\
   usable h (supplied st) = true /\
   exists v,
     fst (lombokPath2VersionNumber (supplied st) st) = Normal v /\
     semver_gte h v compatibleVersion = Normal false).
Proof.
  destruct (addLombokParam_cases st) as (r & st1 & st' & -> & H1 & H3).
  cbn [snd].
  set (st0 := set_isExtensionLombok true _) in H1.
  destruct (checkSupplied_cases (supplied st) st0)
    as (r1 & st1' & H1' & _ & _ & Hcases).
  rewrite H1 in H1'. injection H1' as <- <-.
  rewrite (versionNumber_anywhere (supplied st) st0 st) in Hcases.
  assert (Hws : workspaceState st' = workspaceState st1).
  { destruct r as [[]|e]; [|now subst].
    destruct (appendAgent_runs h (supplied st) st1) as (st2 & H3' & _ & Hw & _).
    rewrite H3 in H3'. injection H3' as <-. exact Hw. }
  rewrite Hws.
  destruct Hcases as [(_ & _ & ->)|[(_ & v & _ & _ & _ & _ & Hw)
    |[(Hu & v & Hv & Hg & _ & Hw)|(_ & _ & _ & _ & Hw)]]];
    try (left; rewrite ?Hw; reflexivity).
  right. split; [exact Hw|]. split; [exact Hu|]. eauto.
Qed.

(** After a run that did not throw and left the bundled jar aside, the
    active path is the supplied one and its name is read as a version. *)
Lemma added_path_versioned (st : State) :
  fst (addLombokParam h st) = Normal tt ->
  isExtensionLombok (snd (addLombokParam h st)) = false ->
  activeLombokPath (snd (addLombokParam h st)) = supplied st /\
  exists w, forall s,
    lombokPath2Version (activeLombokPath (snd (addLombokParam h st))) s
    = (Normal w, s).
Proof.
  destruct (addLombokParam_cases st) as (r & st1 & st' & -> & H1 & H3).
  cbn [fst snd]. intros -> Hext.
  set (st0 := set_isExtensionLombok true _) in H1.
  destruct (checkSupplied_cases (supplied st) st0)
    as (r1 & st1' & H1' & _ & _ & Hcases).
  rewrite H1 in H1'. injection H1' as <- <-.
  destruct (appendAgent_runs h (supplied st) st1)
    as (st2 & H3' & Hi & _ & _ & _ & Ha).
  rewrite H3 in H3'. injection H3' as <-.
  rewrite Hi in Hext. rewrite Hext in Ha.
  destruct Hcases as [(Hu & _ & ->)|[(Hu & v & Hv & _)
    |[(_ & _ & _ & _ & Hi' & _)|(_ & _ & (e & [=]) & _)]]].
  - discriminate.
  - assert (Htruthy : Js.truthy (supplied st) = true).
    { unfold usable in Hu. unfold Js.truthy.
      destruct (supplied st) as [p|]; [|discriminate].
      now apply andb_true_iff in Hu as [-> _]. }
    rewrite Htruthy in Ha. split; [exact Ha|].
    destruct (version_of_versionNumber _ _ _ Hv) as (w & Hw).
    exists w. rewrite Ha. exact Hw.
  - rewrite Hi' in Hext. discriminate.
Qed.

(** X13: after a run of [addLombokParam] that did not throw and did not
    take the bundled jar, the active path is the supplied one and
    [getLombokVersion] returns. *)
Theorem active_path_has_a_version (st : State) :
  fst (addLombokParam h st) = Normal tt ->
  isExtensionLombok (snd (addLombokParam h st)) = false ->
  activeLombokPath (snd (addLombokParam h st)) = supplied st /\
  exists w,
    getLombokVersion (snd (addLombokParam h st))
    = (Normal w, snd (addLombokParam h st)).
Proof.
  intros Hrun Hext.
  destruct (added_path_versioned st Hrun Hext) as (Ha & w & Hw).
  split; [exact Ha|]. exists w. unfold getLombokVersion, bind, gets. apply Hw.
Qed.

(** A cached jar that is there and compatible becomes the agent. *)
Lemma cached_jar_loaded (st : State) (p v : string) :
  workspaceState st !! JAVA_LOMBOK_PATH = Some p ->
  usable h (Some p) = true ->
  fst (lombokPath2VersionNumber (Some p) st) = Normal v ->
  semver_gte h v compatibleVersion = Normal true ->
  fst (addLombokParam h st) = Normal tt /\
  isExtensionLombok (snd (addLombokParam h st)) = false /\
  params (snd (addLombokParam h st))
  = withoutAgents (params st) ++ ["-javaagent:" +:+ p] /\
  activeLombokPath (snd (addLombokParam h st)) = Some p.
Proof.
  intros Hcache Huse Hv Hgte.
  assert (Ht : Js.truthy (Some p) = true).
  { unfold usable in Huse. unfold Js.truthy.
    now apply andb_true_iff in Huse as [-> _]. }
  assert (Hsup : supplied st = Some p).
  { unfold supplied, suppliedPath. rewrite Hcache, Ht. reflexivity. }
  destruct (addLombokParam_cases st) as (r & st1 & st' & -> & H1 & H3).
  rewrite Hsup in H1, H3.
  set (st0 := set_isExtensionLombok true _) in H1.
  destruct (checkSupplied_compatible h _ v st0 st Huse Hv Hgte)
    as (st2 & H2 & Hi2 & Hw2 & Hp2 & Ha2).
  rewrite H2 in H1. destruct r as [[]|e]; [|discriminate].
  injection H1 as <-.
  destruct (appendAgent_runs h (Some p) st2)
    as (st3 & H3' & Hi3 & Hw3 & _ & Hp3 & Ha3).
  rewrite H3 in H3'. injection H3' as <-.
  cbn [fst snd]. rewrite Hi2 in Hp3, Ha3, Hi3.
  rewrite Ht in Ha3. cbn [agentArgs] in Hp3. unfold Js.truthy in Ht.
  destruct (String.eqb p ""); [discriminate|].
  rewrite Hp2 in Hp3. repeat split; assumption.
Qed.

Lemma usable_truthy (lombokJarPath : option string) :
  usable h lombokJarPath = true -> Js.truthy lombokJarPath = true.
Proof.
  unfold usable, Js.truthy. destruct lombokJarPath as [p|]; [|discriminate].
  intros Hu. now apply andb_true_iff in Hu as [-> _].
Qed.

(** X14: without a cache entry, the last Lombok agent argument of the
    user is taken when its jar is there and compatible: it becomes the one
    agent argument and the active path, and the store stays as it is. *)
Theorem user_agent_is_the_fallback (st : State) (m v : string) :
  Js.truthy (workspaceState st !! JAVA_LOMBOK_PATH) = false ->
  last (List.filter (Js.test reg) (params st)) = Some m ->
  usable h (Some (Js.replace "-javaagent:" "" m)) = true ->
  fst (lombokPath2VersionNumber (Some (Js.replace "-javaagent:" "" m)) st)
  = Normal v ->
  semver_gte h v compatibleVersion = Normal true ->
  fst (addLombokParam h st) = Normal tt /\
  isExtensionLombok (snd (addLombokParam h st)) = false /\
  params (snd (addLombokParam h st))
  = withoutAgents (params st)
    ++ ["-javaagent:" +:+ Js.replace "-javaagent:" "" m] /\
  activeLombokPath (snd (addLombokParam h st))
  = Some (Js.replace "-javaagent:" "" m) /\
  workspaceState (snd (addLombokParam h st)) = workspaceState st.
Proof.
  intros Hcache Hlast Huse Hv Hgte.
  assert (Hm : Js.truthy (Some m) = true).
  { assert (Hin : In m (List.filter (Js.test reg) (params st))).
    { apply list_elem_of_In. apply last_Some_elem_of. exact Hlast. }
    apply filter_In in Hin as [_ Hm]. unfold Js.truthy.
    destruct m; [discriminate Hm|reflexivity]. }
  assert (Hsup : supplied st = Some (Js.replace "-javaagent:" "" m)).
  { unfold supplied, suppliedPath. rewrite Hcache, Hlast, Hm. reflexivity. }
  destruct (addLombokParam_cases st) as (r & st1 & st' & -> & H1 & H3).
  rewrite Hsup in H1, H3.
  set (st0 := set_isExtensionLombok true _) in H1.
  destruct (checkSupplied_compatible h _ v st0 st Huse Hv Hgte)
    as (st2 & H2 & Hi2 & Hw2 & Hp2 & Ha2).
  rewrite H2 in H1. destruct r as [[]|e]; [|discriminate].
  injection H1 as <-.
  destruct (appendAgent_runs h (Some (Js.replace "-javaagent:" "" m)) st2)
    as (st3 & H3' & Hi3 & Hw3 & _ & Hp3 & Ha3).
  rewrite H3 in H3'. injection H3' as <-.
  cbn [fst snd]. rewrite Hi2 in Hp3, Ha3, Hi3.
  pose proof (usable_truthy _ Huse) as Ht. rewrite Ht in Ha3.
  cbn [agentArgs] in Hp3. unfold Js.truthy in Ht.
  destruct (String.eqb (Js.replace "-javaagent:" "" m) ""); [discriminate|].
  rewrite Hp2 in Hp3. rewrite Hw2 in Hw3.
  repeat split; assumption.
Qed.

Lemma appendAgent_nothing (lombokJarPath : option string) (st : State) :
  Js.truthy (if isExtensionLombok st then bundledJar h else lombokJarPath)
  = false ->
  exists st',
    appendAgent h lombokJarPath st = (Normal tt, st') /\
    params st' = params st /\
    activeLombokPath st' = activeLombokPath st /\
    isExtensionLombok st' = isExtensionLombok st /\
    logged st' = logged st /\
    In "Could not resolve valid lombok jar from vmargs or builtin."
      (warningMessages st').
Proof.
  unfold appendAgent. unfold bind at 1, gets at 1.
  destruct (isExtensionLombok st) eqn:Hext; intros Hnone.
  - destruct (getExtensionLombokPath_runs h st)
      as (st1 & H1 & Ha & Hi & Hw & Hl & Hp & _).
    unfold bind at 1. rewrite H1.
    unfold Js.truthy in Hnone.
    destruct (bundledJar h) as [b|].
    + destruct (String.eqb b ""); [|discriminate].
      eexists. split; [reflexivity|].
      cbn [params activeLombokPath isExtensionLombok logged warningMessages
           set_warningMessages].
      repeat split; try congruence. apply in_or_app. right. now left.
    + eexists. split; [reflexivity|].
      cbn [params activeLombokPath isExtensionLombok logged warningMessages
           set_warningMessages].
      repeat split; try congruence. apply in_or_app. right. now left.
  - unfold bind at 1, ret at 1. unfold Js.truthy in Hnone.
    destruct lombokJarPath as [p|].
    + destruct (String.eqb p ""); [|discriminate].
      eexists. split; [reflexivity|].
      cbn [params activeLombokPath isExtensionLombok logged warningMessages
           set_warningMessages].
      repeat split; try congruence. apply in_or_app. right. now left.
    + eexists. split; [reflexivity|].
      cbn [params activeLombokPath isExtensionLombok logged warningMessages
           set_warningMessages].
      repeat split; try congruence. apply in_or_app. right. now left.
Qed.

(** X15: when the supplied jar is not usable and the extension bundles
    none, the Lombok agent arguments are removed and none is added; the
    active path stays, and the user is warned. *)
Theorem no_jar_no_agent (st : State) :
  usable h (supplied st) = false ->
  bundledJar h = None ->
  fst (addLombokParam h st) = Normal tt /\
  params (snd (addLombokParam h st)) = withoutAgents (params st) /\
  activeLombokPath (snd (addLombokParam h st)) = activeLombokPath st /\
  logged (snd (addLombokParam h st)) = logged st /\
  In "Could not resolve valid lombok jar from vmargs or builtin."
    (warningMessages (snd (addLombokParam h st))).
Proof.
  intros Huse Hnone.
  destruct (addLombokParam_cases st) as (r & st1 & st' & -> & H1 & H3).
  rewrite (checkSupplied_skip h _ _ Huse) in H1.
  destruct r as [[]|e]; [|discriminate]. injection H1 as <-.
  destruct (appendAgent_nothing (supplied st)
              (set_isExtensionLombok true
                 (set_params (withoutAgents (params st)) st)))
    as (st2 & H3' & Hp & Ha & _ & Hl & Hw).
  { cbn [isExtensionLombok set_isExtensionLombok]. now rewrite Hnone. }
  rewrite H3 in H3'. injection H3' as <-.
  cbn [fst snd]. repeat split; assumption.
Qed.

End SupplyFacts.

(** *** Concrete hosts *)

(** X13 for a cache entry that names Lombok 1.18.30 of the project. *)
Lemma active_path_witness :
  activeLombokPath (snd (addLombokParam hostProjectCache sessionProjectCache))
  = supplied sessionProjectCache /\
  exists w,
    getLombokVersion (snd (addLombokParam hostProjectCache sessionProjectCache))
    = (Normal w, snd (addLombokParam hostProjectCache sessionProjectCache)).
Proof.
  apply (active_path_has_a_version hostProjectCache sessionProjectCache).
  - vm_compute. reflexivity.
  - vm_compute. reflexivity.
Defined.

(** X14 for an agent argument of the user for Lombok 1.18.30, without a
    cache entry. *)
Lemma user_agent_witness :
  fst (addLombokParam hostStaleCache sessionUserAgent) = Normal tt /\
  isExtensionLombok (snd (addLombokParam hostStaleCache sessionUserAgent))
  = false /\
  params (snd (addLombokParam hostStaleCache sessionUserAgent))
  = withoutAgents (params sessionUserAgent)
    ++ ["-javaagent:" +:+
        Js.replace "-javaagent:" "" "-javaagent:/usr/share/lombok-1.18.30.jar"] /\
  activeLombokPath (snd (addLombokParam hostStaleCache sessionUserAgent))
  = Some (Js.replace "-javaagent:" "" "-javaagent:/usr/share/lombok-1.18.30.jar") /\
  workspaceState (snd (addLombokParam hostStaleCache sessionUserAgent))
  = workspaceState sessionUserAgent.
Proof.
  apply (user_agent_is_the_fallback hostStaleCache sessionUserAgent
           "-javaagent:/usr/share/lombok-1.18.30.jar" "1.18.30").
  - reflexivity.
  - vm_compute. reflexivity.
  - vm_compute. reflexivity.
  - vm_compute. reflexivity.
  - vm_compute. reflexivity.
Defined.

(** X15 for an extension without a bundled jar, on a machine without
    Lombok. *)
Lemma no_jar_witness :
  fst (addLombokParam hostNoBundle sessionUserAgent) = Normal tt /\
  params (snd (addLombokParam hostNoBundle sessionUserAgent))
  = withoutAgents (params sessionUserAgent) /\
  activeLombokPath (snd (addLombokParam hostNoBundle sessionUserAgent))
  = activeLombokPath sessionUserAgent /\
  logged (snd (addLombokParam hostNoBundle sessionUserAgent))
  = logged sessionUserAgent /\
  In "Could not resolve valid lombok jar from vmargs or builtin."
    (warningMessages (snd (addLombokParam hostNoBundle sessionUserAgent))).
Proof.
  apply (no_jar_no_agent hostNoBundle sessionUserAgent).
  - vm_compute. reflexivity.
  - reflexivity.
Defined.

End AgentFacts.

(** ** The project's Lombok *)

Module ProjectFacts.
Import LombokSupport LombokFacts LombokNotions LombokProject AgentFacts.

(** *** The loops of [checkLombokDependency] *)

Lemma set_support_same (st : State) : set_support (support st) st = st.
Proof. now destruct st. Qed.

Lemma inSupport_version (lombokPath : option string) :
  exists r, forall st,
    inSupport (lombokPath2Version lombokPath) st = (r, st).
Proof.
  destruct (lombokPath2Version_pure lombokPath) as (r & Hr).
  exists r. intros st. unfold inSupport. rewrite Hr. now rewrite set_support_same.
Qed.

(** A classpath that matches the jar pattern has a version. *)
Lemma matching_has_version (classpath : string) :
  Js.test lombokJarRegex classpath = true ->
  classpath <> "" /\
  exists w, forall s, lombokPath2Version (Some classpath) s = (Normal w, s).
Proof.
  intros Hm. assert (Hne : classpath <> "").
  { intros ->. discriminate Hm. }
  split; [exact Hne|].
  unfold lombokPath2Version. apply String.eqb_neq in Hne. rewrite Hne.
  unfold Js.test in Hm.
  destruct (Js.exec lombokJarRegex classpath) as [m0|]; [|discriminate].
  eexists. intros s. reflexivity.
Qed.

Section ScanFacts.
Variable h : Host.

Lemma classpathLoop_scanned (classpaths : list string) (st : State) :
  exists r,
    classpathLoop classpaths initialScan st = (r, st) /\
    scanned st (List.find (Js.test lombokJarRegex) classpaths) r.
Proof.
  induction classpaths as [|classpath rest IH].
  - exists (Normal initialScan). split; reflexivity.
  - cbn [classpathLoop List.find].
    destruct (Js.test lombokJarRegex classpath) eqn:Hm; [|exact IH].
    unfold bind at 1, gets at 1. unfold bind at 1, gets at 1.
    cbn [scanned].
    destruct (Js.truthy _ && negb _).
    + destruct (matching_has_version classpath Hm) as (_ & current & Hcur).
      destruct (lombokPath2Version_pure (activeLombokPath (support st)))
        as ([previous|e] & Hprev).
      * eexists. split.
        -- unfold bind at 1, inSupport at 1. rewrite Hcur.
           unfold bind at 1, inSupport at 1. cbn [support set_support].
           rewrite Hprev. unfold ret. rewrite !set_support_same.
           reflexivity.
        -- exists current. split; [exact Hcur|]. left. exists previous.
           split; [exact Hprev|]. cbn [versionChange initialScan].
           now destruct (String.eqb current previous).
      * eexists. split.
        -- unfold bind at 1, inSupport at 1. rewrite Hcur.
           unfold bind at 1, inSupport at 1. cbn [support set_support].
           rewrite Hprev. rewrite !set_support_same. reflexivity.
        -- exists current. split; [exact Hcur|]. right. exists e.
           split; [exact Hprev|reflexivity].
    + eexists. split; reflexivity.
Qed.

Lemma find_app {A : Type} (f : A -> bool) (l1 l2 : list A) :
  List.find f (l1 ++ l2) =
  match List.find f l1 with
  | Some x => Some x
  | None => List.find f l2
  end.
Proof.
  induction l1 as [|x l1 IH]; [reflexivity|].
  cbn [app List.find]. now destruct (f x).
Qed.

Lemma projectLoop_scanned (projectUris : list string) (st : State) :
  exists r,
    projectLoop h projectUris initialScan st = (r, st) /\
    scanned st
      (List.find (Js.test lombokJarRegex)
         (flat_map (getClasspaths h) projectUris)) r.
Proof.
  induction projectUris as [|uri rest IH].
  - exists (Normal initialScan). split; reflexivity.
  - cbn [projectLoop flat_map]. rewrite find_app.
    destruct (classpathLoop_scanned (getClasspaths h uri) st) as (r & Hr & Hs).
    unfold bind at 1. rewrite Hr.
    destruct (List.find _ (getClasspaths h uri)) as [classpath|].
    + exists r. split; [|exact Hs]. cbn [scanned] in Hs.
      destruct (Js.truthy _ && negb _).
      * destruct Hs as (current & _ & [(previous & _ & ->)|(e & _ & ->)]);
          reflexivity.
      * now subst r.
    + cbn [scanned] in Hs. subst r. exact IH.
Qed.

End ScanFacts.

(** *** The statements after the loops *)

Section CheckFacts.
Variable h : Host.

(** The statements after the loops, for the values [v] the loops leave. *)
Lemma check_after_scan (projectUri : option string) (st : State) (v : Scan) :
  lombokSupportEnabled h = true ->
  projectLoop h (projectsOf h projectUri) initialScan st = (Normal v, st) ->
  (versionChange v = true ->
   exists classpath previous current,
     currentLombokClasspath v = Some classpath /\
     previousLombokVersion v = Some previous /\
     currentLombokVersion v = Some current) ->
  let shows :=
    negb (isLombokStatusBarInitialized st)
    && Js.truthy (currentLombokClasspath v) in
  let hides :=
    isLombokStatusBarInitialized st
    && negb (Js.truthy (currentLombokClasspath v)) in
  let changed :=
    versionChange v && negb (isExtensionLombok (support st)) in
  exists st',
    checkLombokDependency h projectUri st = (Normal tt, st') /\
    projectLombokPath st' = currentLombokClasspath v /\
    isLombokStatusBarInitialized st' = Js.truthy (currentLombokClasspath v) /\
    isLombokCommandInitialized st' = isLombokCommandInitialized st || shows /\
    statusBar st' =
      statusBar st ++
      (if shows then [initializeLombokStatusBar]
       else if hides then [destroyLombokStatusBar] else []) /\
    registered st' =
      (if shows && negb (isLombokCommandInitialized st)
       then S (registered st) else registered st) /\
    activeLombokPath (support st') = activeLombokPath (support st) /\
    isExtensionLombok (support st') = isExtensionLombok (support st) /\
    params (support st') = params (support st) /\
    warningMessages (support st') = warningMessages (support st) /\
    logged (support st') = logged (support st) /\
    workspaceState (support st') =
      (let ws := if hides
                 then delete JAVA_LOMBOK_PATH (workspaceState (support st))
                 else workspaceState (support st) in
       match currentLombokClasspath v with
       | Some classpath =>
           if changed then <[JAVA_LOMBOK_PATH := classpath]> ws else ws
       | None => ws
       end) /\
    informationMessages st' =
      informationMessages st ++
      (if changed then
         [("Lombok version changed from " +:+
           versionTag (interpolate (previousLombokVersion v)) +:+ " to " +:+
           versionTag (interpolate (currentLombokVersion v)) +:+ " " +:+
           tab +:+ tab +:+ tab +:+ tab +:+ tab +:+ tab +:+
           ". Do you want to reload the window to load the new Lombok version?",
           Some "Reload")]
       else []).
Proof.
  intros Hen Hloop Hsome shows hides changed.
  unfold checkLombokDependency. rewrite Hen. cbn [negb].
  change (match projectUri with Some uri => [uri] | None => getAllJavaProjects h end)
    with (projectsOf h projectUri).
  unfold bind at 1. rewrite Hloop.
  subst shows hides changed.
  destruct st as [s project init command bar reg infos].
  destruct s as [active ext ws warns logs ps].
  destruct v as [vc found cur prev cp].
  cbn [versionChange currentLombokClasspath previousLombokVersion
       currentLombokVersion isLombokStatusBarInitialized support
       isExtensionLombok isLombokCommandInitialized] in *.
  clear Hloop Hen.
  destruct vc.
  - destruct (Hsome eq_refl) as (c & p & q & -> & -> & ->). clear Hsome.
    destruct c as [|a c];
    destruct init, command, ext; cbn;
      eexists; (split; [reflexivity|]); cbn;
      repeat split; rewrite ?app_nil_r; reflexivity.
  - clear Hsome. destruct cp as [[|a c]|];
    destruct init, command, ext; cbn;
      eexists; (split; [reflexivity|]); cbn;
      repeat split; rewrite ?app_nil_r; reflexivity.
Qed.

End CheckFacts.

(** *** The outcome of a check *)

Lemma find_matches (classpaths : list string) (classpath : string) :
  List.find (Js.test lombokJarRegex) classpaths = Some classpath ->
  Js.test lombokJarRegex classpath = true.
Proof. intros H. now apply find_some in H as [_ H]. Qed.

Lemma matching_truthy (classpath : string) :
  Js.test lombokJarRegex classpath = true ->
  Js.truthy (Some classpath) = true.
Proof.
  intros Hm. destruct (matching_has_version classpath Hm) as (Hne & _).
  unfold Js.truthy. apply String.eqb_neq in Hne. now rewrite Hne.
Qed.

Section CheckOutcome.
Variable h : Host.

(** The ways a call of [checkLombokDependency] can go. *)
Lemma check_cases (projectUri : option string) (st : State) :
  lombokSupportEnabled h = true ->
  let found := firstLombokClasspath h projectUri in
  let compares :=
    Js.truthy (activeLombokPath (support st))
    && negb (isExtensionLombok (support st)) in
  (exists e classpath,
     found = Some classpath /\ compares = true /\
     (forall s, lombokPath2Version (activeLombokPath (support st)) s
                = (Throw e, s)) /\
     checkLombokDependency h projectUri st = (Throw e, st)) \/
  (exists v st',
     projectLoop h (projectsOf h projectUri) initialScan st = (Normal v, st) /\
     scanned st found (Normal v) /\
     currentLombokClasspath v = found /\
     Js.truthy found = match found with Some _ => true | None => false end /\
     (versionChange v = true ->
      exists classpath previous current,
        currentLombokClasspath v = Some classpath /\
        previousLombokVersion v = Some previous /\
        currentLombokVersion v = Some current) /\
     checkLombokDependency h projectUri st = (Normal tt, st')).
Proof.
  intros Hen found compares.
  destruct (projectLoop_scanned h (projectsOf h projectUri) st)
    as (r & Hloop & Hscan).
  fold (firstLombokClasspath h projectUri) in Hscan. fold found in Hscan.
  assert (Htruthy : Js.truthy found = match found with Some _ => true | None => false end).
  { destruct found as [classpath|] eqn:Hf; [|reflexivity].
    apply find_matches in Hf. now rewrite (matching_truthy _ Hf). }
  destruct r as [v|e].
  - right.
    assert (Hcp : currentLombokClasspath v = found).
    { unfold scanned in Hscan. destruct found as [classpath|].
      - destruct (Js.truthy _ && negb _).
        + destruct Hscan as (current & _ & [(previous & _ & [= ->])
            |(e & _ & [=])]). reflexivity.
        + now injection Hscan as ->.
      - now injection Hscan as ->. }
    assert (Hsome : versionChange v = true ->
      exists classpath previous current,
        currentLombokClasspath v = Some classpath /\
        previousLombokVersion v = Some previous /\
        currentLombokVersion v = Some current).
    { unfold scanned in Hscan. destruct found as [classpath|].
      - destruct (Js.truthy _ && negb _).
        + destruct Hscan as (current & _ & [(previous & _ & [= ->])
            |(e & _ & [=])]). intros _.
          eexists _, _, _. repeat split.
        + injection Hscan as ->. discriminate.
      - injection Hscan as ->. discriminate. }
    destruct (check_after_scan h projectUri st v Hen Hloop Hsome)
      as (st' & Hrun & _).
    exists v, st'. repeat split; assumption.
  - left. unfold scanned in Hscan.
    destruct found as [classpath|] eqn:Hf; [|discriminate].
    fold compares in Hscan. destruct compares; [|discriminate].
    destruct Hscan as (current & _ & [(previous & _ & [=])|(e' & Hthrow & [= <-])]).
    exists e, classpath. repeat split; [exact Hthrow|].
    unfold checkLombokDependency. rewrite Hen. cbn [negb].
    change (match projectUri with Some uri => [uri] | None => getAllJavaProjects h end)
      with (projectsOf h projectUri).
    unfold bind at 1. now rewrite Hloop.
Qed.

(** X16: after a check that did not throw, [projectLombokPath] is the
    first classpath that matches the jar pattern, the status bar is
    initialized exactly when there is one, and the status bar is asked to
    appear or to go only when that changes. *)
Theorem status_bar_follows_project (projectUri : option string) (st : State) :
  lombokSupportEnabled h = true ->
  fst (checkLombokDependency h projectUri st) = Normal tt ->
  let st' := snd (checkLombokDependency h projectUri st) in
  projectLombokPath st' = firstLombokClasspath h projectUri /\
  isLombokStatusBarInitialized st' = isLombokImported st' /\
  statusBar st' =
    statusBar st ++
    match isLombokStatusBarInitialized st, firstLombokClasspath h projectUri with
    | false, Some _ => [initializeLombokStatusBar]
    | true, None => [destroyLombokStatusBar]
    | _, _ => []
    end.
Proof.
  intros Hen Hnormal.
  destruct (check_cases projectUri st Hen)
    as [(e & classpath & _ & _ & _ & Hrun)
       |(v & st' & Hloop & _ & Hcp & Htruthy & Hsome & _)].
  { rewrite Hrun in Hnormal. discriminate. }
  destruct (check_after_scan h projectUri st v Hen Hloop Hsome)
    as (st1 & Hrun & Hp & Hi & _ & Hbar & _).
  rewrite Hrun. cbn [snd]. unfold isLombokImported.
  rewrite Hp, Hi, Hbar, Hcp, Htruthy. repeat split.
  now destruct (isLombokStatusBarInitialized st),
    (firstLombokClasspath h projectUri).
Qed.

(** X17: while a jar other than the bundled one is active, a check that
    finds a Lombok of another version name stores its classpath and asks
    for a reload, naming both version tags; with the same version name it
    does neither. *)
Theorem version_change_is_signalled (projectUri : option string) (st : State)
  (classpath previous current : string) :
  lombokSupportEnabled h = true ->
  firstLombokClasspath h projectUri = Some classpath ->
  Js.truthy (activeLombokPath (support st)) = true ->
  isExtensionLombok (support st) = false ->
  fst (lombokPath2Version (Some classpath) (support st)) = Normal current ->
  fst (lombokPath2Version (activeLombokPath (support st)) (support st))
  = Normal previous ->
  let st' := snd (checkLombokDependency h projectUri st) in
  fst (checkLombokDependency h projectUri st) = Normal tt /\
  workspaceState (support st') =
    (if String.eqb current previous then workspaceState (support st)
     else <[JAVA_LOMBOK_PATH := classpath]> (workspaceState (support st))) /\
  informationMessages st' =
    informationMessages st ++
    (if String.eqb current previous then []
     else [("Lombok version changed from " +:+ versionTag previous +:+
            " to " +:+ versionTag current +:+ " " +:+
            tab +:+ tab +:+ tab +:+ tab +:+ tab +:+ tab +:+
            ". Do you want to reload the window to load the new Lombok version?",
            Some "Reload")]).
Proof.
  intros Hen Hfound Hactive Hext Hcur Hprev.
  destruct (check_cases projectUri st Hen)
    as [(e & c & _ & _ & Hthrow & _)
       |(v & st' & Hloop & Hscan & Hcp & Htruthy & Hsome & _)].
  { rewrite Hthrow in Hprev. discriminate. }
  destruct (check_after_scan h projectUri st v Hen Hloop Hsome)
    as (st1 & Hrun & _ & _ & _ & _ & _ & _ & _ & _ & _ & _ & Hws & Hinfo).
  rewrite Hrun. cbn [fst snd]. split; [reflexivity|].
  rewrite Hws, Hinfo. clear Hws Hinfo Hrun.
  rewrite Hfound in Hscan, Hcp, Htruthy. unfold scanned in Hscan.
  rewrite Hactive, Hext in Hscan. cbn [andb negb] in Hscan.
  destruct Hscan as (current' & Hcur' & [(previous' & Hprev' & [= ->])
    |(e & _ & [=])]).
  rewrite Hcur' in Hcur. rewrite Hprev' in Hprev.
  injection Hcur as ->. injection Hprev as ->.
  cbn [currentLombokClasspath versionChange previousLombokVersion
       currentLombokVersion interpolate].
  rewrite Htruthy, Hext. cbn [negb]. rewrite !andb_false_r, andb_true_r.
  cbv zeta. now destruct (String.eqb current previous).
Qed.

(** X18: while the bundled jar is in use (or no jar is active) a check
    does not throw, shows no message, and stores no path; it clears the
    cache entry when the status bar goes. *)
Theorem bundled_jar_check_is_quiet (projectUri : option string) (st : State) :
  lombokSupportEnabled h = true ->
  isExtensionLombok (support st) = true \/
  Js.truthy (activeLombokPath (support st)) = false ->
  let st' := snd (checkLombokDependency h projectUri st) in
  fst (checkLombokDependency h projectUri st) = Normal tt /\
  informationMessages st' = informationMessages st /\
  workspaceState (support st') =
    (if isLombokStatusBarInitialized st
     then match firstLombokClasspath h projectUri with
          | Some _ => workspaceState (support st)
          | None => delete JAVA_LOMBOK_PATH (workspaceState (support st))
          end
     else workspaceState (support st)).
Proof.
  intros Hen Hbundled.
  assert (Hcmp : Js.truthy (activeLombokPath (support st))
                 && negb (isExtensionLombok (support st)) = false).
  { destruct Hbundled as [-> | ->]; [apply andb_false_r|reflexivity]. }
  destruct (check_cases projectUri st Hen)
    as [(e & c & _ & Hc & _)
       |(v & st' & Hloop & Hscan & Hcp & Htruthy & Hsome & _)].
  { cbv zeta in Hc. congruence. }
  destruct (check_after_scan h projectUri st v Hen Hloop Hsome)
    as (st1 & Hrun & _ & _ & _ & _ & _ & _ & _ & _ & _ & _ & Hws & Hinfo).
  rewrite Hrun. cbn [fst snd]. split; [reflexivity|].
  rewrite Hws, Hinfo. clear Hws Hinfo Hrun.
  assert (Hvc : versionChange v = false).
  { unfold scanned in Hscan. rewrite Hcmp in Hscan.
    destruct (firstLombokClasspath h projectUri);
      now injection Hscan as ->. }
  rewrite Hvc, Hcp, Htruthy. cbn [andb]. rewrite app_nil_r.
  split; [reflexivity|].
  now destruct (isLombokStatusBarInitialized st),
    (firstLombokClasspath h projectUri).
Qed.

(** X19: a check leaves the active path, [isExtensionLombok], the
    arguments, the warnings and the log alone; with Lombok support turned
    off, or when it throws, it changes nothing at all. *)
Theorem check_keeps_the_agent (projectUri : option string) (st : State) :
  let st' := snd (checkLombokDependency h projectUri st) in
  activeLombokPath (support st') = activeLombokPath (support st) /\
  isExtensionLombok (support st') = isExtensionLombok (support st) /\
  params (support st') = params (support st) /\
  warningMessages (support st') = warningMessages (support st) /\
  logged (support st') = logged (support st) /\
  (lombokSupportEnabled h = false \/
   (exists e, fst (checkLombokDependency h projectUri st) = Throw e) ->
   st' = st).
Proof.
  destruct (lombokSupportEnabled h) eqn:Hen.
  - destruct (check_cases projectUri st Hen)
      as [(e & c & _ & _ & _ & Hrun)
         |(v & st' & Hloop & _ & _ & _ & Hsome & _)].
    + rewrite Hrun. cbn [snd]. repeat split.
    + destruct (check_after_scan h projectUri st v Hen Hloop Hsome)
        as (st1 & Hrun & _ & _ & _ & _ & _ & Ha & Hi & Hp & Hw & Hl & _).
      rewrite Hrun. cbn [fst snd]. repeat split; try assumption.
      intros [[=]|(e & [=])].
  - unfold checkLombokDependency. rewrite Hen. cbn. repeat split.
Qed.

End CheckOutcome.

(** *** The configure command *)

(** Running a function of the first part changes the second part in
    nothing. *)
Lemma inSupport_runs {A : Type} (c : Exec LombokSupport.State A) (st : State) :
  inSupport c st = (fst (c (support st)), set_support (snd (c (support st))) st).
Proof. unfold inSupport. now destruct (c (support st)). Qed.

Ltac unchanged :=
  cbn; intros [= <- <-];
  cbn; repeat match goal with |- _ /\ _ => split end;
  try assumption; try congruence; left; congruence.

Section ConfigureFacts.
Variable h : Host.

Lemma bundled_present (b : string) (s : LombokSupport.State) :
  bundledJar (files h) = Some b ->
  getExtensionLombokPath (files h) s = (Normal (Some b), s).
Proof.
  unfold bundledJar, getExtensionLombokPath.
  destruct (globSync (files h)) as [|jar jars]; [discriminate|].
  cbv zeta. destruct (existsSync (files h) _); [|discriminate].
  now intros [= <-].
Qed.

Lemma version_of_matching (p : string) :
  Js.test lombokJarRegex p = true ->
  exists w, forall st : State,
    inSupport (lombokPath2Version (Some p)) st = (Normal w, st).
Proof.
  intros Hm. destruct (matching_has_version p Hm) as (_ & w & Hw).
  exists w. intros st. unfold inSupport. rewrite Hw.
  now rewrite set_support_same.
Qed.

(** The handler up to the quick pick, when both jars are there and their
    names are read. *)
Lemma configure_offers (st : State) (e p : string) :
  bundledJar (files h) = Some e ->
  projectLombokPath st = Some p ->
  Js.test lombokJarRegex e = true ->
  Js.test lombokJarRegex p = true ->
  exists ev pv,
    (forall s, lombokPath2Version (Some e) s = (Normal ev, s)) /\
    (forall s, lombokPath2Version (Some p) s = (Normal pv, s)) /\
    configureLombok h st =
    match showQuickPick h
            (lombokPathItems (isExtensionLombok (support st)) ev pv (Some p))
    with
    | None => (Normal tt, st)
    | Some selectLombokPathItem =>
        if String.eqb (label selectLombokPathItem) extensionItemLabel
           || String.eqb (label selectLombokPathItem) extensionItemLabelCheck
        then
          if negb (isExtensionLombok (support st)) then
            (do! inSupport cleanupLombokCache in reloadPrompt) st
          else
            showInformationMessage
              "Current Lombok version is extension's version. Nothing to do."
              None st
        else if isExtensionLombok (support st) then
          (let! projectLombokVersion :=
             inSupport (lombokPath2VersionNumber (Some p)) in
           let! compatible :=
             inSupport (isCompatibleLombokVersion (files h) projectLombokVersion) in
           if negb compatible then
             inSupport (showWarningMessage
               ("The project's Lombok version " +:+ projectLombokVersion +:+
                " is not supported. Falling back to the built-in Lombok version in the extension."))
           else
             do! updateLombokCache p in
             reloadPrompt) st
        else
          showInformationMessage
            "Current Lombok version is project's version. Nothing to do."
            None st
    end.
Proof.
  intros Hb Hp He Hm.
  destruct (matching_has_version e He) as (Hene & ev & Hev).
  destruct (matching_has_version p Hm) as (Hpne & pv & Hpv).
  exists ev, pv. split; [exact Hev|]. split; [exact Hpv|].
  unfold configureLombok.
  unfold bind at 1, inSupport at 1. rewrite (bundled_present e _ Hb).
  rewrite set_support_same.
  unfold bind at 1, gets at 1. rewrite Hp.
  unfold Js.truthy. apply String.eqb_neq in Hene, Hpne.
  rewrite Hene, Hpne. cbn [negb orb].
  unfold bind at 1, gets at 1.
  unfold bind at 1, inSupport at 1. rewrite Hev, set_support_same.
  unfold bind at 1, inSupport at 1. rewrite Hpv, set_support_same.
  destruct (showQuickPick h _) as [item|]; [|reflexivity].
  destruct (_ || _); destruct (isExtensionLombok (support st)); reflexivity.
Qed.

(** X22: choosing the first entry of the quick pick, the extension's
    version: when the project's jar is in use the cache entry is deleted
    and a reload is proposed; otherwise there is nothing to do. *)
Theorem extension_version_chosen (st : State) (e p : string) :
  bundledJar (files h) = Some e ->
  projectLombokPath st = Some p ->
  Js.test lombokJarRegex e = true ->
  Js.test lombokJarRegex p = true ->
  (forall items, showQuickPick h items = nth_error items 0) ->
  configureLombok h st =
  (Normal tt,
   if isExtensionLombok (support st) then
     snd (showInformationMessage
            "Current Lombok version is extension's version. Nothing to do."
            None st)
   else
     snd (showInformationMessage
            "The Lombok version used in Java extension has changed, please reload the window."
            (Some "Reload")
            (set_support
               (set_workspaceState
                  (delete JAVA_LOMBOK_PATH (workspaceState (support st)))
                  (support st))
               st))).
Proof.
  intros Hb Hp He Hm Hpick.
  destruct (configure_offers st e p Hb Hp He Hm) as (ev & pv & _ & _ & ->).
  rewrite Hpick. cbn [nth_error lombokPathItems label].
  destruct (isExtensionLombok (support st)); reflexivity.
Qed.

(** X23: choosing the second entry of the quick pick, the project's
    version: when the bundled jar is in use, a compatible project version
    is stored and a reload proposed, an incompatible one gives a warning
    only; otherwise there is nothing to do. *)
Theorem project_version_chosen (st : State) (e p v : string) :
  bundledJar (files h) = Some e ->
  projectLombokPath st = Some p ->
  Js.test lombokJarRegex e = true ->
  fst (lombokPath2VersionNumber (Some p) (support st)) = Normal v ->
  p <> "" ->
  (forall items, showQuickPick h items = nth_error items 1) ->
  let st' := snd (configureLombok h st) in
  if isExtensionLombok (support st) then
    match semver_gte (files h) v compatibleVersion with
    | Normal true =>
        fst (configureLombok h st) = Normal tt /\
        workspaceState (support st')
        = <[JAVA_LOMBOK_PATH := p]> (workspaceState (support st)) /\
        informationMessages st' =
          informationMessages st ++
          [("The Lombok version used in Java extension has changed, please reload the window.",
            Some "Reload")]
    | Normal false =>
        fst (configureLombok h st) = Normal tt /\
        workspaceState (support st') = workspaceState (support st) /\
        informationMessages st' = informationMessages st /\
        last (warningMessages (support st')) =
          Some ("The project's Lombok version " +:+ v +:+
                " is not supported. Falling back to the built-in Lombok version in the extension.")
    | Throw err =>
        fst (configureLombok h st) = Throw err /\
        workspaceState (support st') = workspaceState (support st) /\
        informationMessages st' = informationMessages st
    end
  else
    configureLombok h st =
    (Normal tt,
     snd (showInformationMessage
            "Current Lombok version is project's version. Nothing to do."
            None st)).
Proof.
  intros Hb Hp He Hv Hne Hpick.
  assert (Hm : Js.test lombokJarRegex p = true).
  { unfold lombokPath2VersionNumber, bind, lombokPath2Version, Js.test in *.
    apply String.eqb_neq in Hne. rewrite Hne in Hv.
    now destruct (Js.exec lombokJarRegex p). }
  destruct (configure_offers st e p Hb Hp He Hm) as (ev & pv & _ & _ & Hrun).
  cbv zeta. rewrite Hrun. clear Hrun.
  rewrite Hpick. cbn [nth_error lombokPathItems label].
  destruct (isExtensionLombok (support st)) eqn:Hext.
  - replace (String.eqb projectItemLabel extensionItemLabel
             || String.eqb projectItemLabel extensionItemLabelCheck)
      with false by reflexivity.
    destruct (lombokPath2VersionNumber_runs (Some p) (support st) (support st))
      as (s1 & H1 & Ha & Hi & Hw & Hl & Hps & more & Hmore).
    rewrite Hv in H1.
    destruct (bind _ _ st) as [r st'] eqn:Hrun.
    unfold bind at 1 in Hrun. rewrite inSupport_runs, H1 in Hrun.
    cbn [fst snd] in Hrun.
    unfold bind at 1 in Hrun. rewrite inSupport_runs in Hrun.
    unfold isCompatibleLombokVersion, lift in Hrun.
    cbn [fst snd support set_support] in Hrun.
    destruct (semver_gte (files h) v compatibleVersion) as [[|]|err];
      cbn in Hrun; injection Hrun as <- <-; cbn.
    + rewrite Hw. repeat split.
    + rewrite Hw. repeat split. apply last_snoc.
    + rewrite Hw. repeat split.
  - replace (String.eqb projectItemLabelCheck extensionItemLabel
             || String.eqb projectItemLabelCheck extensionItemLabelCheck)
      with false by reflexivity.
    reflexivity.
Qed.

(** What the handler never touches. *)
Lemma configure_runs (st : State) :
  let st' := snd (configureLombok h st) in
  projectLombokPath st' = projectLombokPath st /\
  isLombokStatusBarInitialized st' = isLombokStatusBarInitialized st /\
  isLombokCommandInitialized st' = isLombokCommandInitialized st /\
  statusBar st' = statusBar st /\
  registered st' = registered st /\
  activeLombokPath (support st') = activeLombokPath (support st) /\
  isExtensionLombok (support st') = isExtensionLombok (support st) /\
  params (support st') = params (support st) /\
  logged (support st') = logged (support st) /\
  (workspaceState (support st') = workspaceState (support st) \/
   workspaceState (support st')
   = delete JAVA_LOMBOK_PATH (workspaceState (support st)) \/
   exists p, projectLombokPath st = Some p /\
     workspaceState (support st')
     = <[JAVA_LOMBOK_PATH := p]> (workspaceState (support st))).
Proof.
  cbv zeta. destruct (configureLombok h st) as [r st'] eqn:Hrun.
  cbn [snd]. revert Hrun. unfold configureLombok.
  unfold bind at 1. rewrite inSupport_runs.
  destruct (getExtensionLombokPath_runs (files h) (support st))
    as (s1 & H1 & Ha1 & Hi1 & Hw1 & Hl1 & Hp1 & _).
  rewrite H1. cbn [fst snd].
  unfold bind at 1, gets at 1. cbn [projectLombokPath set_support].
  destruct (negb (Js.truthy (bundledJar (files h)))
            || negb (Js.truthy (projectLombokPath st))); [unchanged|].
  unfold bind at 1, gets at 1. cbn [support set_support].
  destruct (inSupport_version (bundledJar (files h))) as ([ev|err] & Hev);
    unfold bind at 1; rewrite Hev; [|unchanged].
  destruct (inSupport_version (projectLombokPath st)) as ([pv|err] & Hpv);
    unfold bind at 1; rewrite Hpv; [|unchanged].
  destruct (showQuickPick h _) as [item|]; [|unchanged].
  destruct (_ || _).
  - destruct (isExtensionLombok s1) eqn:Hext1; [unchanged|].
    cbn. intros [= <- <-]. cbn.
    repeat split; try congruence. right. left. now rewrite Hw1.
  - destruct (isExtensionLombok s1) eqn:Hext1; [|unchanged].
    unfold bind at 1. rewrite inSupport_runs. cbn [support set_support].
    destruct (lombokPath2VersionNumber_runs (projectLombokPath st) s1 s1)
      as (s2 & H2 & Ha2 & Hi2 & Hw2 & Hl2 & Hp2 & _).
    rewrite H2. cbn [fst snd].
    destruct (fst (lombokPath2VersionNumber (projectLombokPath st) s1))
      as [v|err]; [|unchanged].
    unfold bind at 1. rewrite inSupport_runs.
    unfold isCompatibleLombokVersion, lift. cbn [fst snd].
    destruct (semver_gte (files h) v compatibleVersion) as [[|]|err];
      [|unchanged|unchanged].
    destruct (projectLombokPath st) as [p|] eqn:Hproj; [|unchanged].
    cbn. intros [= <- <-]. cbn.
    repeat split; try congruence. right. right. exists p.
    split; [reflexivity|]. congruence.
Qed.

(** X24: the configure command leaves the active path,
    [isExtensionLombok] and the arguments alone; the cache entry is as
    before, deleted, or the project's path. *)
Theorem configure_keeps_the_agent (st : State) :
  let st' := snd (configureLombok h st) in
  activeLombokPath (support st') = activeLombokPath (support st) /\
  isExtensionLombok (support st') = isExtensionLombok (support st) /\
  params (support st') = params (support st) /\
  (workspaceState (support st') = workspaceState (support st) \/
   workspaceState (support st')
   = delete JAVA_LOMBOK_PATH (workspaceState (support st)) \/
   exists p, projectLombokPath st = Some p /\
     workspaceState (support st')
     = <[JAVA_LOMBOK_PATH := p]> (workspaceState (support st))).
Proof.
  destruct (configure_runs st) as (_ & _ & _ & _ & _ & Ha & Hi & Hp & _ & Hws).
  cbv zeta. auto.
Qed.

End ConfigureFacts.

(** *** Sessions and reloads *)

Lemma statusBarAfter_app (calls more : list StatusBarCall) (shown : bool) :
  statusBarAfter shown (calls ++ more) =
  match statusBarAfter shown calls with
  | Some shown' => statusBarAfter shown' more
  | None => None
  end.
Proof.
  revert shown. induction calls as [|c calls IH]; intros shown; [reflexivity|].
  cbn [app statusBarAfter]. destruct c, shown; auto.
Qed.

Lemma check_consistent (h : Host) (projectUri : option string) (st : State) :
  consistent st -> consistent (snd (checkLombokDependency h projectUri st)).
Proof.
  intros Hst.
  destruct (lombokSupportEnabled h) eqn:Hen.
  2:{ unfold checkLombokDependency. rewrite Hen. exact Hst. }
  destruct (check_cases h projectUri st Hen)
    as [(e & c & _ & _ & _ & ->)
       |(v & st' & Hloop & _ & Hcp & Htruthy & Hsome & _)]; [exact Hst|].
  destruct (check_after_scan h projectUri st v Hen Hloop Hsome)
    as (st1 & -> & Hp & Hi & Hc & Hbar & Hreg & _).
  cbn [snd]. destruct Hst as (Hreg0 & Hbar0 & Himp0 & Hcmd0 & _).
  unfold consistent, isLombokImported.
  rewrite Hp, Hi, Hc, Hbar, Hreg, Hcp, Htruthy, statusBarAfter_app, Hbar0, Hreg0.
  assert (Hmatch : match firstLombokClasspath h projectUri with
                   | Some p => Js.test lombokJarRegex p = true
                   | None => True
                   end).
  { destruct (firstLombokClasspath h projectUri) as [p|] eqn:Hf; [|exact I].
    exact (find_matches _ _ Hf). }
  destruct (isLombokStatusBarInitialized st) eqn:Hinit.
  - rewrite (Hcmd0 eq_refl).
    destruct (firstLombokClasspath h projectUri); cbn; auto.
  - destruct (firstLombokClasspath h projectUri),
      (isLombokCommandInitialized st); cbn; repeat split; auto; discriminate.
Qed.

Lemma configure_consistent (h : Host) (st : State) :
  consistent st -> consistent (snd (configureLombok h st)).
Proof.
  destruct (configure_runs h st)
    as (Hp & Hi & Hc & Hbar & Hreg & _).
  unfold consistent, isLombokImported. now rewrite Hp, Hi, Hc, Hbar, Hreg.
Qed.

Lemma replay_consistent (events : list Event) (st : State) :
  consistent st -> consistent (replay events st).
Proof.
  revert st. induction events as [|e events IH]; intros st Hst; [exact Hst|].
  cbn [replay fold_left]. apply IH. destruct e as [h projectUri|h].
  - now apply check_consistent.
  - now apply configure_consistent.
Qed.

Lemma start_consistent (s : LombokSupport.State) : consistent (start s).
Proof. repeat split. discriminate. Qed.

(** X20: in every session of checks and configure commands, the
    configure command is registered at most once, the calls on the status
    bar alternate beginning with an initialization, the status bar is
    there exactly when the project has Lombok, and the project's path
    matches the jar pattern. *)
Theorem module_stays_consistent (events : list Event)
  (s : LombokSupport.State) :
  let st := replay events (start s) in
  registered st = (if isLombokCommandInitialized st then 1 else 0)%nat /\
  statusBarAfter false (statusBar st) = Some (isLombokStatusBarInitialized st) /\
  isLombokStatusBarInitialized st = isLombokImported st /\
  (isLombokStatusBarInitialized st = true ->
   isLombokCommandInitialized st = true) /\
  match projectLombokPath st with
  | Some p => Js.test lombokJarRegex p = true
  | None => True
  end.
Proof. exact (replay_consistent events (start s) (start_consistent s)). Qed.

(** Checks and the handler leave the agent as it is. *)
Lemma replay_keeps_the_agent (events : list Event) (st : State) :
  activeLombokPath (support (replay events st)) = activeLombokPath (support st) /\
  isExtensionLombok (support (replay events st))
  = isExtensionLombok (support st).
Proof.
  revert st. induction events as [|e events IH]; intros st; [now split|].
  cbn [replay fold_left]. fold (replay events (happen e st)).
  destruct (IH (happen e st)) as (-> & ->).
  destruct e as [h projectUri|h]; cbn [happen].
  - destruct (lombokSupportEnabled h) eqn:Hen.
    + destruct (check_cases h projectUri st Hen)
        as [(e & c & _ & _ & _ & ->)
           |(v & st' & Hloop & _ & _ & _ & Hsome & _)]; [now split|].
      destruct (check_after_scan h projectUri st v Hen Hloop Hsome)
        as (st1 & -> & _ & _ & _ & _ & _ & Ha & Hi & _).
      now split.
    + unfold checkLombokDependency. rewrite Hen. now split.
  - destruct (configure_runs h st) as (_ & _ & _ & _ & _ & Ha & Hi & _).
    now split.
Qed.

(** X21: once [addLombokParam] has returned, no later check throws,
    whatever checks and configure commands came before it. *)
Theorem checks_do_not_throw_after_add (h0 : LombokSupport.Host)
  (s : LombokSupport.State) (events : list Event) (h : Host)
  (projectUri : option string) :
  fst (addLombokParam h0 s) = Normal tt ->
  fst (checkLombokDependency h projectUri
         (replay events (start (snd (addLombokParam h0 s))))) = Normal tt.
Proof.
  intros Hadd.
  set (st := replay events _).
  destruct (lombokSupportEnabled h) eqn:Hen.
  2:{ unfold checkLombokDependency. now rewrite Hen. }
  destruct (check_cases h projectUri st Hen)
    as [(e & c & _ & Hcmp & Hthrow & _)|(v & st' & _ & _ & _ & _ & _ & ->)];
    [|reflexivity].
  exfalso. cbv zeta in Hcmp. subst st.
  destruct (replay_keeps_the_agent events (start (snd (addLombokParam h0 s))))
    as (Ha & Hi).
  rewrite Ha in Hthrow. rewrite Ha, Hi in Hcmp. cbn [support start] in *.
  apply andb_true_iff in Hcmp as (_ & Hext).
  apply negb_true_iff in Hext.
  destruct (added_path_versioned h0 s Hadd Hext) as (_ & w & Hw).
  specialize (Hw s). specialize (Hthrow s). congruence.
Qed.

Section Reload.
Variable h : Host.

(** X25: after the project's version was chosen and accepted,
    [addLombokParam] of the reloaded window takes the project's jar, if it
    is on disk. *)
Theorem chosen_project_version_is_loaded (st : State) (e p v : string)
  (args : list string) :
  bundledJar (files h) = Some e ->
  projectLombokPath st = Some p ->
  Js.test lombokJarRegex e = true ->
  fst (lombokPath2VersionNumber (Some p) (support st)) = Normal v ->
  (forall items, showQuickPick h items = nth_error items 1) ->
  isExtensionLombok (support st) = true ->
  semver_gte (files h) v compatibleVersion = Normal true ->
  existsSync (files h) p = true ->
  p <> "" ->
  let st' := snd (configureLombok h st) in
  let s' := snd (addLombokParam (files h) (reloaded st' args)) in
  fst (addLombokParam (files h) (reloaded st' args)) = Normal tt /\
  activeLombokPath s' = Some p /\
  isExtensionLombok s' = false /\
  params s' = withoutAgents args ++ ["-javaagent:" +:+ p].
Proof.
  intros Hb Hp He Hv Hpick Hext Hg Hex Hne. cbv zeta.
  assert (Hm : Js.test lombokJarRegex p = true).
  { unfold lombokPath2VersionNumber, bind, lombokPath2Version, Js.test in *.
    apply String.eqb_neq in Hne. rewrite Hne in Hv.
    now destruct (Js.exec lombokJarRegex p). }
  destruct (configure_offers h st e p Hb Hp He Hm) as (ev & pv & _ & _ & Hrun).
  rewrite Hpick, Hext in Hrun. cbn [nth_error lombokPathItems label] in Hrun.
  replace (String.eqb projectItemLabel extensionItemLabel
           || String.eqb projectItemLabel extensionItemLabelCheck)
    with false in Hrun by reflexivity.
  destruct (lombokPath2VersionNumber_runs (Some p) (support st) (support st))
    as (s1 & H1 & _ & _ & Hw & _).
  rewrite Hv in H1.
  unfold bind at 1 in Hrun. rewrite inSupport_runs, H1 in Hrun.
  cbn [fst snd] in Hrun.
  unfold bind at 1 in Hrun. rewrite inSupport_runs in Hrun.
  unfold isCompatibleLombokVersion, lift in Hrun.
  cbn [fst snd support set_support] in Hrun. rewrite Hg in Hrun.
  rewrite Hrun. clear Hrun.
  assert (Huse : usable (files h) (Some p) = true).
  { unfold usable. apply String.eqb_neq in Hne. now rewrite Hne, Hex. }
  set (st' := snd _).
  destruct (cached_jar_loaded (files h) (reloaded st' args) p v)
    as (Hn & Hi & Hps & Ha); try assumption.
  - cbn. apply lookup_insert_eq.
  - now rewrite (versionNumber_anywhere (Some p) _ (support st)).
  - repeat split; assumption.
Qed.

(** X26: after a check has signalled a changed version,
    [addLombokParam] of the reloaded window takes the new jar of the
    project, if it is on disk and compatible. *)
Theorem changed_version_is_loaded (projectUri : option string) (st : State)
  (classpath previous current v : string) (args : list string) :
  lombokSupportEnabled h = true ->
  firstLombokClasspath h projectUri = Some classpath ->
  Js.truthy (activeLombokPath (support st)) = true ->
  isExtensionLombok (support st) = false ->
  fst (lombokPath2Version (Some classpath) (support st)) = Normal current ->
  fst (lombokPath2Version (activeLombokPath (support st)) (support st))
  = Normal previous ->
  current <> previous ->
  existsSync (files h) classpath = true ->
  fst (lombokPath2VersionNumber (Some classpath) (support st)) = Normal v ->
  semver_gte (files h) v compatibleVersion = Normal true ->
  let st' := snd (checkLombokDependency h projectUri st) in
  let s' := snd (addLombokParam (files h) (reloaded st' args)) in
  fst (addLombokParam (files h) (reloaded st' args)) = Normal tt /\
  activeLombokPath s' = Some classpath /\
  isExtensionLombok s' = false /\
  params s' = withoutAgents args ++ ["-javaagent:" +:+ classpath].
Proof.
  intros Hen Hfound Hactive Hext Hcur Hprev Hdiff Hex Hv Hg. cbv zeta.
  destruct (check_cases h projectUri st Hen)
    as [(e & c & _ & _ & Hthrow & _)
       |(w & st' & Hloop & Hscan & Hcp & Htruthy & Hsome & _)].
  { rewrite Hthrow in Hprev. discriminate. }
  destruct (check_after_scan h projectUri st w Hen Hloop Hsome)
    as (st1 & Hrun & _ & _ & _ & _ & _ & _ & _ & _ & _ & _ & Hws & _).
  rewrite Hrun. cbn [snd].
  rewrite Hfound in Hscan, Hcp, Htruthy. unfold scanned in Hscan.
  rewrite Hactive, Hext in Hscan. cbn [andb negb] in Hscan.
  destruct Hscan as (current' & Hcur' & [(previous' & Hprev' & [= ->])
    |(e & _ & [=])]).
  rewrite Hcur' in Hcur. rewrite Hprev' in Hprev.
  injection Hcur as ->. injection Hprev as ->.
  cbn [currentLombokClasspath versionChange] in Hws.
  apply String.eqb_neq in Hdiff. rewrite Hdiff, Hext in Hws.
  cbn [negb andb] in Hws. cbv zeta in Hws.
  assert (Hne : classpath <> "").
  { intros ->. discriminate Htruthy. }
  assert (Huse : usable (files h) (Some classpath) = true).
  { unfold usable. apply String.eqb_neq in Hne. now rewrite Hne, Hex. }
  destruct (cached_jar_loaded (files h) (reloaded st1 args) classpath v)
    as (Hn & Hi & Hps & Ha); try assumption.
  - cbn. rewrite Hws. apply lookup_insert_eq.
  - now rewrite (versionNumber_anywhere (Some classpath) _ (support st)).
  - repeat split; assumption.
Qed.

End Reload.

(** *** Concrete hosts *)

(** X16 for the first check of a project with Lombok 1.18.30. *)
Lemma status_bar_witness :
  projectLombokPath (snd (checkLombokDependency (withLombok 0) None runningBundled))
  = firstLombokClasspath (withLombok 0) None /\
  isLombokStatusBarInitialized
    (snd (checkLombokDependency (withLombok 0) None runningBundled))
  = isLombokImported
      (snd (checkLombokDependency (withLombok 0) None runningBundled)) /\
  statusBar (snd (checkLombokDependency (withLombok 0) None runningBundled)) =
    statusBar runningBundled ++
    match isLombokStatusBarInitialized runningBundled,
          firstLombokClasspath (withLombok 0) None with
    | false, Some _ => [initializeLombokStatusBar]
    | true, None => [destroyLombokStatusBar]
    | _, _ => []
    end.
Proof.
  apply (status_bar_follows_project (withLombok 0) None runningBundled).
  - reflexivity.
  - vm_compute. reflexivity.
Defined.

(** X17 for an active Lombok 1.18.20 and a project with Lombok 1.18.30. *)
Lemma version_change_witness :
  fst (checkLombokDependency (withLombok 0) None runningProject) = Normal tt /\
  workspaceState
    (support (snd (checkLombokDependency (withLombok 0) None runningProject))) =
    (if String.eqb "lombok-1.18.30" "lombok-1.18.20"
     then workspaceState (support runningProject)
     else <[JAVA_LOMBOK_PATH := projectJar]>
            (workspaceState (support runningProject))) /\
  informationMessages
    (snd (checkLombokDependency (withLombok 0) None runningProject)) =
    informationMessages runningProject ++
    (if String.eqb "lombok-1.18.30" "lombok-1.18.20" then []
     else [("Lombok version changed from " +:+ versionTag "lombok-1.18.20" +:+
            " to " +:+ versionTag "lombok-1.18.30" +:+ " " +:+
            tab +:+ tab +:+ tab +:+ tab +:+ tab +:+ tab +:+
            ". Do you want to reload the window to load the new Lombok version?",
            Some "Reload")]).
Proof.
  apply (version_change_is_signalled (withLombok 0) None runningProject
           projectJar "lombok-1.18.20" "lombok-1.18.30").
  - reflexivity.
  - vm_compute. reflexivity.
  - reflexivity.
  - reflexivity.
  - vm_compute. reflexivity.
  - vm_compute. reflexivity.
Defined.

(** X18 for the bundled jar in use and a project with Lombok 1.18.30. *)
Lemma bundled_check_witness :
  fst (checkLombokDependency (withLombok 0) None runningBundled) = Normal tt /\
  informationMessages
    (snd (checkLombokDependency (withLombok 0) None runningBundled))
  = informationMessages runningBundled /\
  workspaceState
    (support (snd (checkLombokDependency (withLombok 0) None runningBundled))) =
    (if isLombokStatusBarInitialized runningBundled
     then match firstLombokClasspath (withLombok 0) None with
          | Some _ => workspaceState (support runningBundled)
          | None =>
              delete JAVA_LOMBOK_PATH (workspaceState (support runningBundled))
          end
     else workspaceState (support runningBundled)).
Proof.
  apply (bundled_jar_check_is_quiet (withLombok 0) None runningBundled).
  - reflexivity.
  - left. reflexivity.
Defined.

(** X21 for a check without Lombok and a configure command in between. *)
Lemma checks_after_add_witness :
  fst (checkLombokDependency (withLombok 0) None
         (replay [Check withoutLombok None; Configure (withLombok 1)]
            (start (snd (addLombokParam hostProjectCache sessionProjectCache)))))
  = Normal tt.
Proof.
  apply (checks_do_not_throw_after_add hostProjectCache sessionProjectCache
           [Check withoutLombok None; Configure (withLombok 1)]
           (withLombok 0) None).
  vm_compute. reflexivity.
Defined.

(** X22 for an active Lombok 1.18.20 of the project. *)
Lemma extension_version_witness :
  configureLombok (withLombok 0) checkedProject =
  (Normal tt,
   if isExtensionLombok (support checkedProject) then
     snd (showInformationMessage
            "Current Lombok version is extension's version. Nothing to do."
            None checkedProject)
   else
     snd (showInformationMessage
            "The Lombok version used in Java extension has changed, please reload the window."
            (Some "Reload")
            (set_support
               (set_workspaceState
                  (delete JAVA_LOMBOK_PATH
                     (workspaceState (support checkedProject)))
                  (support checkedProject))
               checkedProject))).
Proof.
  apply (extension_version_chosen (withLombok 0) checkedProject
           bundled projectJar).
  - vm_compute. reflexivity.
  - vm_compute. reflexivity.
  - vm_compute. reflexivity.
  - vm_compute. reflexivity.
  - intros items. reflexivity.
Defined.

(** X23 for the bundled jar in use and a project with Lombok 1.18.30. *)
Lemma project_version_witness :
  if isExtensionLombok (support checkedBundled) then
    match semver_gte (files (withLombok 1)) "1.18.30" compatibleVersion with
    | Normal true =>
        fst (configureLombok (withLombok 1) checkedBundled) = Normal tt /\
        workspaceState
          (support (snd (configureLombok (withLombok 1) checkedBundled)))
        = <[JAVA_LOMBOK_PATH := projectJar]>
            (workspaceState (support checkedBundled)) /\
        informationMessages (snd (configureLombok (withLombok 1) checkedBundled)) =
          informationMessages checkedBundled ++
          [("The Lombok version used in Java extension has changed, please reload the window.",
            Some "Reload")]
    | Normal false =>
        fst (configureLombok (withLombok 1) checkedBundled) = Normal tt /\
        workspaceState
          (support (snd (configureLombok (withLombok 1) checkedBundled)))
        = workspaceState (support checkedBundled) /\
        informationMessages (snd (configureLombok (withLombok 1) checkedBundled))
        = informationMessages checkedBundled /\
        last (warningMessages
                (support (snd (configureLombok (withLombok 1) checkedBundled)))) =
          Some ("The project's Lombok version " +:+ "1.18.30" +:+
                " is not supported. Falling back to the built-in Lombok version in the extension.")
    | Throw err =>
        fst (configureLombok (withLombok 1) checkedBundled) = Throw err /\
        workspaceState
          (support (snd (configureLombok (withLombok 1) checkedBundled)))
        = workspaceState (support checkedBundled) /\
        informationMessages (snd (configureLombok (withLombok 1) checkedBundled))
        = informationMessages checkedBundled
    end
  else
    configureLombok (withLombok 1) checkedBundled =
    (Normal tt,
     snd (showInformationMessage
            "Current Lombok version is project's version. Nothing to do."
            None checkedBundled)).
Proof.
  apply (project_version_chosen (withLombok 1) checkedBundled
           bundled projectJar "1.18.30").
  - vm_compute. reflexivity.
  - vm_compute. reflexivity.
  - vm_compute. reflexivity.
  - vm_compute. reflexivity.
  - discriminate.
  - intros items. reflexivity.
Defined.

(** X25 for the bundled jar in use and a project with Lombok 1.18.30. *)
Lemma chosen_project_witness :
  fst (addLombokParam (files (withLombok 1))
         (reloaded (snd (configureLombok (withLombok 1) checkedBundled))
            ["-Xmx1G"]))
  = Normal tt /\
  activeLombokPath
    (snd (addLombokParam (files (withLombok 1))
            (reloaded (snd (configureLombok (withLombok 1) checkedBundled))
               ["-Xmx1G"])))
  = Some projectJar /\
  isExtensionLombok
    (snd (addLombokParam (files (withLombok 1))
            (reloaded (snd (configureLombok (withLombok 1) checkedBundled))
               ["-Xmx1G"])))
  = false /\
  params
    (snd (addLombokParam (files (withLombok 1))
            (reloaded (snd (configureLombok (withLombok 1) checkedBundled))
               ["-Xmx1G"])))
  = withoutAgents ["-Xmx1G"] ++ ["-javaagent:" +:+ projectJar].
Proof.
  apply (chosen_project_version_is_loaded (withLombok 1) checkedBundled
           bundled projectJar "1.18.30" ["-Xmx1G"]).
  - vm_compute. reflexivity.
  - vm_compute. reflexivity.
  - vm_compute. reflexivity.
  - vm_compute. reflexivity.
  - intros items. reflexivity.
  - vm_compute. reflexivity.
  - vm_compute. reflexivity.
  - vm_compute. reflexivity.
  - discriminate.
Defined.

(** X26 for an active Lombok 1.18.20 and a project with Lombok 1.18.30. *)
Lemma changed_version_witness :
  fst (addLombokParam (files (withLombok 0))
         (reloaded (snd (checkLombokDependency (withLombok 0) None runningProject))
            ["-Xmx1G"]))
  = Normal tt /\
  activeLombokPath
    (snd (addLombokParam (files (withLombok 0))
            (reloaded
               (snd (checkLombokDependency (withLombok 0) None runningProject))
               ["-Xmx1G"])))
  = Some projectJar /\
  isExtensionLombok
    (snd (addLombokParam (files (withLombok 0))
            (reloaded
               (snd (checkLombokDependency (withLombok 0) None runningProject))
               ["-Xmx1G"])))
  = false /\
  params
    (snd (addLombokParam (files (withLombok 0))
            (reloaded
               (snd (checkLombokDependency (withLombok 0) None runningProject))
               ["-Xmx1G"])))
  = withoutAgents ["-Xmx1G"] ++ ["-javaagent:" +:+ projectJar].
Proof.
  apply (changed_version_is_loaded (withLombok 0) None runningProject
           projectJar "lombok-1.18.20" "lombok-1.18.30" "1.18.30" ["-Xmx1G"]).
  - reflexivity.
  - vm_compute. reflexivity.
  - reflexivity.
  - reflexivity.
  - vm_compute. reflexivity.
  - vm_compute. reflexivity.
  - discriminate.
  - vm_compute. reflexivity.
  - vm_compute. reflexivity.
  - vm_compute. reflexivity.
Defined.

End ProjectFacts.
